(** * AAP organization inspector: a shallow embedding of [aap_org_inspector.py]

    The script talks to a REST API, decodes JSON and walks the decoded
    values with Python's dynamically typed operations.  The embedding has
    three layers:

    - [json] and the module [Py]: decoded JSON values and the Python
      operations the script applies to them ([dict.get], subscripting,
      [in], comparisons, truthiness), each with the exception it raises on
      a value of the wrong type;
    - the monad [M]: the state of a run (the [dependencies] dictionary the
      traversal mutates, and the trace of requests and printed lines),
      with Python exceptions and [sys.exit] as two distinct outcomes;
    - the classes [AAPClient] and [OrganizationInspector] and [main],
      function by function.

    JSON numbers are integers here: the identifiers and counts of the API
    are.  Strings are sequences of UTF-8 bytes.  The text [json.dump]
    writes, and what [json.load] reads from a text, follow the
    documentation of Python's [json] module. *)

From Stdlib Require Import ZArith List String Ascii Bool Lia DecimalString.
From Stdlib Require DecimalFacts DecimalZ.
Import ListNotations.

Local Set Warnings "-register-all".
Local Open Scope string_scope.
Local Open Scope list_scope.

(** ** Decoded JSON values *)

Inductive json : Type :=
| JNull : json
| JBool : bool -> json
| JInt : Z -> json
| JStr : string -> json
| JList : list json -> json
| JObj : list (string * json) -> json.

(** A Python [dict] with string keys keeps its insertion order, which the
    exported file shows; it is an association list with distinct keys. *)
Definition dict : Type := list (string * json).

Fixpoint dict_get (k : string) (d : dict) : option json :=
  match d with
  | [] => None
  | (k', v) :: d' => if String.eqb k k' then Some v else dict_get k d'
  end.

Definition dict_mem (k : string) (d : dict) : bool :=
  match dict_get k d with Some _ => true | None => false end.

(** [d[k] = v]: replaces the value of an existing key in place, adds a new
    key at the end. *)
Fixpoint dict_set (k : string) (v : json) (d : dict) : dict :=
  match d with
  | [] => [(k, v)]
  | (k', v') :: d' =>
      if String.eqb k k' then (k', v) :: d' else (k', v') :: dict_set k v d'
  end.

Definition keys (d : dict) : list string := map fst d.

(** ** Outcomes of a Python computation *)

Inductive exn_kind : Type :=
| ValueError | TypeError | AttributeError | KeyError | IndexError | OSError.

(** An exception below [Exception]: its class and [str(e)]. *)
Record exn : Type := Exn { exn_class : exn_kind; exn_str : string }.

(** [Exit] is [SystemExit], raised by [sys.exit]; it derives from
    [BaseException], so no [except Exception] or [except ValueError]
    clause catches it. *)
Inductive result (A : Type) : Type :=
| Ret : A -> result A
| Raise : exn -> result A
| Exit : Z -> result A.
Arguments Ret {A} _.
Arguments Raise {A} _.
Arguments Exit {A} _.

(** An operation on values cannot leave the process: it yields a value
    or raises. *)
Inductive outcome (A : Type) : Type :=
| Val : A -> outcome A
| Err : exn -> outcome A.
Arguments Val {A} _.
Arguments Err {A} _.

(** ** Strings *)

Definition nl : string := String (ascii_of_nat 10) "".
Definition squote : string := "'".

Definition str_of_Z (z : Z) : string := NilZero.string_of_int (Z.to_int z).

Fixpoint repeat_str (s : string) (n : nat) : string :=
  match n with
  | O => ""
  | S n' => s ++ repeat_str s n'
  end.

(** [format(s, '.<30')]: [s] padded on the right with dots to width [w]. *)
Definition pad_dots (w : nat) (s : string) : string :=
  s ++ repeat_str "." (w - String.length s).

Definition startswith (p s : string) : bool := String.prefix p s.

(** [s.lstrip('/')] *)
Fixpoint lstrip_slash (s : string) : string :=
  match s with
  | String c s' => if Ascii.eqb c "/" then lstrip_slash s' else s
  | EmptyString => EmptyString
  end.

Definition rev_string (s : string) : string :=
  string_of_list_ascii (rev (list_ascii_of_string s)).

(** [s.rstrip('/')] *)
Definition rstrip_slash (s : string) : string :=
  rev_string (lstrip_slash (rev_string s)).

(** [s.split(sep)] for a non-empty [sep]: the pieces between the
    occurrences of [sep], found from the left and not overlapping.  [cur]
    holds the current piece; [skip] counts the bytes of a separator that
    was recognised and is still being passed. *)
Fixpoint split_from (sep : string) (skip : nat) (cur : string) (s : string)
  : list string :=
  match s with
  | EmptyString => [cur]
  | String c s' =>
      match skip with
      | S k => split_from sep k cur s'
      | O =>
          if String.prefix sep s
          then cur :: split_from sep (String.length sep - 1) "" s'
          else split_from sep 0 (cur ++ String c "") s'
      end
  end.

Definition split (sep s : string) : list string := split_from sep 0 "" s.

(** [sub in s] for strings *)
Fixpoint substring_of (sub s : string) : bool :=
  String.prefix sub s ||
  match s with
  | EmptyString => false
  | String _ s' => substring_of sub s'
  end.

(** The code points of a string: a byte [10xxxxxx] continues the
    character before it. *)
Definition is_continuation (c : ascii) : bool :=
  let n := nat_of_ascii c in (128 <=? n)%nat && (n <? 192)%nat.

Definition continues (s : string) : bool :=
  match s with
  | String c _ => is_continuation c
  | EmptyString => false
  end.

Fixpoint utf8_chars (s : string) : list string :=
  match s with
  | EmptyString => []
  | String c s' =>
      let rest := utf8_chars s' in
      if continues s'
      then match rest with
           | hd :: tl => String c hd :: tl
           | [] => [String c ""]
           end
      else String c "" :: rest
  end.

(** ** Python operations on decoded JSON *)

Module Py.

Definition type_name (v : json) : string :=
  match v with
  | JNull => "NoneType"
  | JBool _ => "bool"
  | JInt _ => "int"
  | JStr _ => "str"
  | JList _ => "list"
  | JObj _ => "dict"
  end.

(** [bool(v)] *)
Definition truthy (v : json) : bool :=
  match v with
  | JNull => false
  | JBool b => b
  | JInt z => negb (z =? 0)%Z
  | JStr s => negb (String.eqb s "")
  | JList l => match l with [] => false | _ => true end
  | JObj d => match d with [] => false | _ => true end
  end.

(** [bool] is a subclass of [int]: [True == 1]. *)
Definition as_number (v : json) : option Z :=
  match v with
  | JInt z => Some z
  | JBool true => Some 1%Z
  | JBool false => Some 0%Z
  | _ => None
  end.

(** [a == b]: numbers by value, lists element by element, dictionaries
    as maps, whatever the order of their keys. *)
Fixpoint eq (a b : json) : bool :=
  match a, b with
  | JNull, JNull => true
  | JStr s, JStr t => String.eqb s t
  | JList l, JList m =>
      (fix go (l m : list json) : bool :=
         match l, m with
         | [], [] => true
         | x :: l', y :: m' => eq x y && go l' m'
         | _, _ => false
         end) l m
  | JObj d, JObj e =>
      Nat.eqb (List.length d) (List.length e) &&
      (fix all (d : list (string * json)) : bool :=
         match d with
         | [] => true
         | (k, v) :: d' =>
             match dict_get k e with
             | Some w => eq v w
             | None => false
             end && all d'
         end) d
  | (JBool _ | JInt _), (JBool _ | JInt _) =>
      match as_number a, as_number b with
      | Some x, Some y => (x =? y)%Z
      | _, _ => false
      end
  | _, _ => false
  end.

Definition no_attribute (v : json) (attr : string) : exn :=
  Exn AttributeError
      (squote ++ type_name v ++ "' object has no attribute '" ++ attr ++ squote).

(** [obj.get(key, default)]: only a [dict] has the method. *)
Definition get (obj : json) (key : string) (default : json) : outcome json :=
  match obj with
  | JObj d => Val (match dict_get key d with Some v => v | None => default end)
  | _ => Err (no_attribute obj "get")
  end.

(** [obj[key]] for a string key *)
Definition getitem (obj : json) (key : string) : outcome json :=
  match obj with
  | JObj d =>
      match dict_get key d with
      | Some v => Val v
      | None => Err (Exn KeyError (squote ++ key ++ squote))
      end
  | JList _ =>
      Err (Exn TypeError "list indices must be integers or slices, not str")
  | JStr _ =>
      Err (Exn TypeError "string indices must be integers, not 'str'")
  | _ =>
      Err (Exn TypeError (squote ++ type_name obj ++ "' object is not subscriptable"))
  end.

(** [obj[0]] *)
Definition first (obj : json) : outcome json :=
  match obj with
  | JList (x :: _) => Val x
  | JList [] => Err (Exn IndexError "list index out of range")
  | JStr s =>
      match utf8_chars s with
      | c :: _ => Val (JStr c)
      | [] => Err (Exn IndexError "string index out of range")
      end
  | JObj _ => Err (Exn KeyError "0")
  | _ =>
      Err (Exn TypeError (squote ++ type_name obj ++ "' object is not subscriptable"))
  end.

(** The items a [for] loop draws from [obj]. *)
Definition iter (obj : json) : outcome (list json) :=
  match obj with
  | JList l => Val l
  | JStr s => Val (map JStr (utf8_chars s))
  | JObj d => Val (map JStr (keys d))
  | _ =>
      Err (Exn TypeError (squote ++ type_name obj ++ "' object is not iterable"))
  end.

(** The items of [obj[:n]]; a [dict] cannot be sliced. *)
Definition slice_to (n : nat) (obj : json) : outcome (list json) :=
  match obj with
  | JList l => Val (firstn n l)
  | JStr s => Val (map JStr (firstn n (utf8_chars s)))
  | JObj _ => Err (Exn TypeError "unhashable type: 'slice'")
  | _ =>
      Err (Exn TypeError (squote ++ type_name obj ++ "' object is not subscriptable"))
  end.

(** [key in obj] for a string [key] *)
Definition contains (key : string) (obj : json) : outcome bool :=
  match obj with
  | JObj d => Val (dict_mem key d)
  | JList l => Val (existsb (eq (JStr key)) l)
  | JStr s => Val (substring_of key s)
  | _ =>
      Err (Exn TypeError
               ("argument of type '" ++ type_name obj ++ "' is not iterable"))
  end.

(** [v > n] for an integer literal [n] *)
Definition gt (v : json) (n : Z) : outcome bool :=
  match as_number v with
  | Some z => Val (n <? z)%Z
  | None =>
      Err (Exn TypeError
               ("'>' not supported between instances of '" ++ type_name v
                ++ "' and 'int'"))
  end.

(** [v - n] for an integer literal [n] *)
Definition sub (v : json) (n : Z) : outcome json :=
  match as_number v with
  | Some z => Val (JInt (z - n))
  | None =>
      Err (Exn TypeError
               ("unsupported operand type(s) for -: '" ++ type_name v
                ++ "' and 'int'"))
  end.

End Py.

(** ** The [json] module: the text of a value and its reading

    Modelled on the documentation of Python's [json] module:
    [json.dumps(v, indent=2)] with the default [ensure_ascii], and
    [json.loads] with the default strict decoder.  A float has no value
    in [json]; the decoder refuses a number with a fraction or an
    exponent. *)

(** *** Text as code points *)

Local Open Scope Z_scope.

Definition byte_of (c : ascii) : Z := Z.of_N (N_of_ascii c).
Definition chr (b : Z) : ascii := ascii_of_N (Z.to_N b).

Definition is_trail (b : Z) : bool := (128 <=? b) && (b <? 192).

(** The code points of a string of UTF-8 bytes: shortest forms only, no
    surrogates, nothing above U+10FFFF.  [None] when the bytes are no
    UTF-8, so no Python [str]. *)
Fixpoint code_points (s : string) : option (list Z) :=
  match s with
  | EmptyString => Some []
  | String a s1 =>
      let b0 := byte_of a in
      if b0 <? 128 then option_map (cons b0) (code_points s1)
      else
        match s1 with
        | EmptyString => None
        | String b s2 =>
            let b1 := byte_of b in
            if b0 <? 224 then
              if (194 <=? b0) && is_trail b1
              then option_map (cons ((b0 - 192) * 64 + (b1 - 128)))
                              (code_points s2)
              else None
            else
              match s2 with
              | EmptyString => None
              | String c s3 =>
                  let b2 := byte_of c in
                  if b0 <? 240 then
                    let cp := (b0 - 224) * 4096 + (b1 - 128) * 64 + (b2 - 128) in
                    if is_trail b1 && is_trail b2 && (2048 <=? cp)
                       && negb ((55296 <=? cp) && (cp <? 57344))
                    then option_map (cons cp) (code_points s3)
                    else None
                  else
                    match s3 with
                    | EmptyString => None
                    | String d s4 =>
                        let b3 := byte_of d in
                        let cp := (b0 - 240) * 262144 + (b1 - 128) * 4096
                                  + (b2 - 128) * 64 + (b3 - 128) in
                        if is_trail b1 && is_trail b2 && is_trail b3
                           && (65536 <=? cp) && (cp <? 1114112)
                        then option_map (cons cp) (code_points s4)
                        else None
                    end
              end
        end
  end.

(** The UTF-8 bytes of a code point. *)
Definition utf8 (cp : Z) : string :=
  if cp <? 128 then String (chr cp) ""
  else if cp <? 2048 then
    String (chr (192 + cp / 64)) (String (chr (128 + cp mod 64)) "")
  else if cp <? 65536 then
    String (chr (224 + cp / 4096))
      (String (chr (128 + (cp / 64) mod 64))
         (String (chr (128 + cp mod 64)) ""))
  else
    String (chr (240 + cp / 262144))
      (String (chr (128 + (cp / 4096) mod 64))
         (String (chr (128 + (cp / 64) mod 64))
            (String (chr (128 + cp mod 64)) ""))).

(** A code point that is a character: not a surrogate, at most
    U+10FFFF. *)
Definition scalar (cp : Z) : Prop :=
  0 <= cp < 55296 \/ 57344 <= cp < 1114112.

Definition is_text (s : string) : bool :=
  match code_points s with Some _ => true | None => false end.

(** The characters of a Python string; bytes that are no UTF-8 are taken
    one by one. *)
Definition characters (s : string) : list Z :=
  match code_points s with
  | Some cps => cps
  | None => map byte_of (list_ascii_of_string s)
  end.

(** *** [json.dumps(v, indent=2)] *)

Definition dquote : string := String (ascii_of_nat 34) "".
Definition backslash : string := String (ascii_of_nat 92) "".

Definition hex_digit (d : Z) : ascii :=
  chr (if d <? 10 then 48 + d else 87 + d).

(** ['{0:04x}'.format(n)] for [n] below 65536 *)
Definition hex4 (n : Z) : string :=
  String (hex_digit (n / 4096))
    (String (hex_digit ((n / 256) mod 16))
       (String (hex_digit ((n / 16) mod 16))
          (String (hex_digit (n mod 16)) ""))).

(** What the encoder writes for one character with [ensure_ascii]: the
    short escapes, the printable ASCII characters as they are, and
    [\uXXXX] for the rest, a surrogate pair above U+FFFF. *)
Definition escape (cp : Z) : string :=
  if cp =? 34 then backslash ++ dquote
  else if cp =? 92 then backslash ++ backslash
  else if cp =? 10 then backslash ++ "n"
  else if cp =? 13 then backslash ++ "r"
  else if cp =? 9 then backslash ++ "t"
  else if cp =? 8 then backslash ++ "b"
  else if cp =? 12 then backslash ++ "f"
  else if (32 <=? cp) && (cp <=? 126) then String (chr cp) ""
  else if cp <? 65536 then backslash ++ "u" ++ hex4 cp
  else
    let n := cp - 65536 in
    backslash ++ "u" ++ hex4 (55296 + n / 1024)
    ++ backslash ++ "u" ++ hex4 (56320 + n mod 1024).

Local Close Scope Z_scope.

(** [''.join(pieces)] *)
Fixpoint flatten (pieces : list string) : string :=
  match pieces with
  | [] => ""
  | piece :: pieces' => piece ++ flatten pieces'
  end.

Definition encode_string (s : string) : string :=
  dquote ++ flatten (map escape (characters s)) ++ dquote.

(** ['\n' + indent * level] *)
Definition newline_indent (level : nat) : string :=
  nl ++ repeat_str "  " level.

(** [sep.join(pieces)] *)
Fixpoint str_join (sep : string) (pieces : list string) : string :=
  match pieces with
  | [] => ""
  | [piece] => piece
  | piece :: pieces' => piece ++ sep ++ str_join sep pieces'
  end.

(** The text of [v] at nesting depth [level]: an empty container on one
    line, the items of another one per line, two spaces deeper, with
    [','] between them and [': '] after a key. *)
Fixpoint encode (level : nat) (v : json) : string :=
  match v with
  | JNull => "null"
  | JBool true => "true"
  | JBool false => "false"
  | JInt z => str_of_Z z
  | JStr s => encode_string s
  | JList [] => "[]"
  | JList l =>
      "[" ++ newline_indent (S level)
      ++ str_join ("," ++ newline_indent (S level)) (map (encode (S level)) l)
      ++ newline_indent level ++ "]"
  | JObj [] => "{}"
  | JObj d =>
      "{" ++ newline_indent (S level)
      ++ str_join ("," ++ newline_indent (S level))
           (map (fun kv => (encode_string (fst kv) ++ ": "
                            ++ encode (S level) (snd kv))%string) d)
      ++ newline_indent level ++ "}"
  end.

Definition dumps (v : json) : string := encode 0 v.

(** *** [json.loads] *)

Definition is_ws (c : ascii) : bool :=
  Ascii.eqb c " " || Ascii.eqb c (ascii_of_nat 9)
  || Ascii.eqb c (ascii_of_nat 10) || Ascii.eqb c (ascii_of_nat 13).

Fixpoint skip_ws (s : string) : string :=
  match s with
  | String c s' => if is_ws c then skip_ws s' else s
  | EmptyString => EmptyString
  end.

Definition hex_value (c : ascii) : option Z :=
  let n := byte_of c in
  if ((48 <=? n) && (n <=? 57))%Z then Some (n - 48)%Z
  else if ((97 <=? n) && (n <=? 102))%Z then Some (n - 87)%Z
  else if ((65 <=? n) && (n <=? 70))%Z then Some (n - 55)%Z
  else None.

Definition hex4_value (a b c d : ascii) : option Z :=
  match hex_value a, hex_value b, hex_value c, hex_value d with
  | Some x, Some y, Some z, Some w => Some (((x * 16 + y) * 16 + z) * 16 + w)%Z
  | _, _, _, _ => None
  end.

(** The character after a backslash, for the escapes of one letter. *)
Definition short_escape (c : ascii) : option ascii :=
  if Ascii.eqb c (ascii_of_nat 34) then Some c
  else if Ascii.eqb c (ascii_of_nat 92) then Some c
  else if Ascii.eqb c "/" then Some c
  else if Ascii.eqb c "b" then Some (ascii_of_nat 8)
  else if Ascii.eqb c "f" then Some (ascii_of_nat 12)
  else if Ascii.eqb c "n" then Some (ascii_of_nat 10)
  else if Ascii.eqb c "r" then Some (ascii_of_nat 13)
  else if Ascii.eqb c "t" then Some (ascii_of_nat 9)
  else None.

Definition prepend (piece : string) (r : option (string * string))
  : option (string * string) :=
  match r with
  | Some (content, rest) => Some ((piece ++ content)%string, rest)
  | None => None
  end.

(** The string whose opening quote was read: its content and what
    follows its closing quote.  A control character is refused (the
    decoder is strict); [\uXXXX] is one character, or the high half of a
    pair whose low half must follow (alone it is no character of a UTF-8
    string). *)
Fixpoint scanstring (s : string) : option (string * string) :=
  match s with
  | EmptyString => None
  | String c s1 =>
      if Ascii.eqb c (ascii_of_nat 34) then Some ("", s1)
      else if Ascii.eqb c (ascii_of_nat 92) then
        match s1 with
        | EmptyString => None
        | String e s2 =>
            if Ascii.eqb e "u" then
              match s2 with
              | String h1 (String h2 (String h3 (String h4 s6))) =>
                  match hex4_value h1 h2 h3 h4 with
                  | None => None
                  | Some uni =>
                      if ((55296 <=? uni) && (uni <? 56320))%Z then
                        match s6 with
                        | String b (String u (String l1 (String l2
                            (String l3 (String l4 s12))))) =>
                            if Ascii.eqb b (ascii_of_nat 92) && Ascii.eqb u "u"
                            then
                              match hex4_value l1 l2 l3 l4 with
                              | Some low =>
                                  if ((56320 <=? low) && (low <? 57344))%Z
                                  then prepend
                                         (utf8 (65536 + (uni - 55296) * 1024
                                                + (low - 56320))%Z)
                                         (scanstring s12)
                                  else None
                              | None => None
                              end
                            else None
                        | _ => None
                        end
                      else if ((56320 <=? uni) && (uni <? 57344))%Z then None
                      else prepend (utf8 uni) (scanstring s6)
                  end
              | _ => None
              end
            else
              match short_escape e with
              | Some ch => prepend (String ch "") (scanstring s2)
              | None => None
              end
        end
      else if (byte_of c <? 32)%Z then None
      else prepend (String c "") (scanstring s1)
  end.

Definition is_digit (c : ascii) : bool :=
  let n := byte_of c in ((48 <=? n) && (n <=? 57))%Z.

Fixpoint span_digits (s : string) : string * string :=
  match s with
  | String c s' =>
      if is_digit c
      then let (ds, rest) := span_digits s' in (String c ds, rest)
      else ("", s)
  | EmptyString => ("", "")
  end.

(** A fraction or an exponent follows: the number is a float. *)
Definition float_follows (s : string) : bool :=
  match s with
  | String c _ => Ascii.eqb c "." || Ascii.eqb c "e" || Ascii.eqb c "E"
  | EmptyString => false
  end.

(** An integer: an optional minus sign and digits without a leading
    zero.  A number with a fraction or an exponent is a float, for which
    [json] has no value. *)
Definition parse_number (s : string) : option (json * string) :=
  let (negative, s1) :=
    match s with
    | String c s' => if Ascii.eqb c "-" then (true, s') else (false, s)
    | EmptyString => (false, s)
    end in
  let (ds, rest) := span_digits s1 in
  if float_follows rest then None
  else
    match ds with
    | String "0" (String _ _) => None
    | _ =>
        match NilZero.uint_of_string ds with
        | Some u =>
            Some (JInt (Z.of_int (if negative : bool then Decimal.Neg u
                                  else Decimal.Pos u)), rest)
        | None => None
        end
    end.

(** [s] after its prefix [word] *)
Fixpoint after (word s : string) : option string :=
  match word with
  | EmptyString => Some s
  | String c word' =>
      match s with
      | String c' s' => if Ascii.eqb c c' then after word' s' else None
      | EmptyString => None
      end
  end.

Definition literal (word : string) (v : json) (s : string)
  : option (json * string) :=
  match after word s with
  | Some rest => Some (v, rest)
  | None => None
  end.

(** [dict(pairs)]: a key that comes again keeps its place and takes the
    later value. *)
Definition dict_of (pairs : list (string * json)) : dict :=
  fold_left (fun d kv => dict_set (fst kv) (snd kv) d) pairs [].

Definition on_value {A B} (f : A -> B) (r : option (A * string))
  : option (B * string) :=
  match r with
  | Some (a, rest) => Some (f a, rest)
  | None => None
  end.

(** The decoder, by recursive descent; [fuel] bounds the depth of the
    calls, and the length of the text is enough of it. *)
Fixpoint parse_value (fuel : nat) (s : string) {struct fuel}
  : option (json * string) :=
  match fuel with
  | O => None
  | S fuel' =>
      match s with
      | EmptyString => None
      | String c s1 =>
          if Ascii.eqb c (ascii_of_nat 34) then on_value JStr (scanstring s1)
          else if Ascii.eqb c "{" then
            match skip_ws s1 with
            | String c1 s2 =>
                if Ascii.eqb c1 "}" then Some (JObj [], s2)
                else on_value (fun pairs => JObj (dict_of pairs))
                       (parse_members fuel' (String c1 s2))
            | EmptyString => None
            end
          else if Ascii.eqb c "[" then
            match skip_ws s1 with
            | String c1 s2 =>
                if Ascii.eqb c1 "]" then Some (JList [], s2)
                else on_value JList (parse_elements fuel' (String c1 s2))
            | EmptyString => None
            end
          else if Ascii.eqb c "n" then literal "null" JNull s
          else if Ascii.eqb c "t" then literal "true" (JBool true) s
          else if Ascii.eqb c "f" then literal "false" (JBool false) s
          else parse_number s
      end
  end
with parse_elements (fuel : nat) (s : string) {struct fuel}
  : option (list json * string) :=
  match fuel with
  | O => None
  | S fuel' =>
      match parse_value fuel' s with
      | Some (x, r) =>
          match skip_ws r with
          | String c r1 =>
              if Ascii.eqb c "]" then Some ([x], r1)
              else if Ascii.eqb c "," then
                on_value (cons x) (parse_elements fuel' (skip_ws r1))
              else None
          | EmptyString => None
          end
      | None => None
      end
  end
with parse_members (fuel : nat) (s : string) {struct fuel}
  : option (list (string * json) * string) :=
  match fuel with
  | O => None
  | S fuel' =>
      match s with
      | String q s1 =>
          if Ascii.eqb q (ascii_of_nat 34) then
            match scanstring s1 with
            | Some (key, r) =>
                match skip_ws r with
                | String c r1 =>
                    if Ascii.eqb c ":" then
                      match parse_value fuel' (skip_ws r1) with
                      | Some (x, r2) =>
                          match skip_ws r2 with
                          | String c2 r3 =>
                              if Ascii.eqb c2 "}" then Some ([(key, x)], r3)
                              else if Ascii.eqb c2 "," then
                                on_value (cons (key, x))
                                  (parse_members fuel' (skip_ws r3))
                              else None
                          | EmptyString => None
                          end
                      | None => None
                      end
                    else None
                | EmptyString => None
                end
            | None => None
            end
          else None
      | EmptyString => None
      end
  end.

(** [json.loads(text)]: one value, with nothing but white space around
    it. *)
Definition loads (text : string) : option json :=
  match parse_value (String.length text) (skip_ws text) with
  | Some (v, rest) =>
      match skip_ws rest with
      | EmptyString => Some v
      | String _ _ => None
      end
  | None => None
  end.

(** The values that stand for Python values: every string is text, and
    the keys of a dictionary are distinct. *)
Fixpoint distinct (l : list string) : bool :=
  match l with
  | [] => true
  | k :: l' => negb (existsb (String.eqb k) l') && distinct l'
  end.

Fixpoint well_formed (v : json) : bool :=
  match v with
  | JStr s => is_text s
  | JList l => forallb well_formed l
  | JObj d =>
      distinct (keys d)
      && forallb (fun kv => is_text (fst kv) && well_formed (snd kv)) d
  | _ => true
  end.

(** ** The state of a run *)

(** What a run does to the outside world, in order. *)
Inductive event : Type :=
| Request (url : string)                    (* session.get(url) *)
| Stdout (text : string)                    (* print(text) *)
| Stderr (text : string)                    (* print(text, file=sys.stderr) *)
| Prompt (text : string)                    (* input(text), getpass(text) *)
| WriteFile (path : string) (text : string).
                           (* with open(path, 'w') as f: f.write(text) *)

(** What the session answers to a GET: the decoded body, or a
    [RequestException] (no connection, a status that [raise_for_status]
    rejects, a body that is not JSON) with [str(e)] and, when the
    exception carries a response, its text. *)
Inductive response : Type :=
| Ok (body : json)
| Failed (msg : string) (text : option string).

Record state : Type := State {
  dependencies : dict;   (* the dictionary [_find_dependencies] fills *)
  trace : list event
}.

Definition M (A : Type) : Type := state -> state * result A.

Definition ret {A} (a : A) : M A := fun st => (st, Ret a).

Definition bind {A B} (m : M A) (k : A -> M B) : M B :=
  fun st =>
    match m st with
    | (st', Ret a) => k a st'
    | (st', Raise e) => (st', Raise e)
    | (st', Exit c) => (st', Exit c)
    end.

Definition raise {A} (e : exn) : M A := fun st => (st, Raise e).

(** [sys.exit(code)] *)
Definition sys_exit {A} (code : Z) : M A := fun st => (st, Exit code).

(** A pure Python operation run inside [M]. *)
Definition lift {A} (r : outcome A) : M A :=
  fun st => (st, match r with Val a => Ret a | Err e => Raise e end).

(** [try: m  except <classes> as e: h e].  What [m] did to the state
    before it raised stays done. *)
Definition try_except {A} (m : M A) (catches : exn_kind -> bool)
  (h : exn -> M A) : M A :=
  fun st =>
    match m st with
    | (st', Raise e) => if catches (exn_class e) then h e st' else (st', Raise e)
    | other => other
    end.

Definition any_exception (k : exn_kind) : bool := true.

Definition value_error (k : exn_kind) : bool :=
  match k with ValueError => true | _ => false end.

Definition emit (e : event) : M unit :=
  fun st => (State (dependencies st) (trace st ++ [e]), Ret tt).

Definition print (text : string) : M unit := emit (Stdout text).
Definition eprint (text : string) : M unit := emit (Stderr text).

Definition get_dependencies : M dict := fun st => (st, Ret (dependencies st)).

Definition set_dependencies (d : dict) : M unit :=
  fun st => (State d (trace st), Ret tt).

Declare Scope py_scope.
Delimit Scope py_scope with py.
Notation "x <- c1 ;; c2" := (bind c1 (fun x => c2))
  (at level 61, c1 at next level, right associativity) : py_scope.
Notation "c1 ;; c2" := (bind c1 (fun _ => c2))
  (at level 61, right associativity) : py_scope.
Local Open Scope py_scope.

(** [for x in l: body x] *)
Fixpoint for_each {A} (l : list A) (body : A -> M unit) : M unit :=
  match l with
  | [] => ret tt
  | x :: l' => body x ;; for_each l' body
  end.

(** [dependencies[key] = v] *)
Definition dep_set (key : string) (v : json) : M unit :=
  d <- get_dependencies ;; set_dependencies (dict_set key v d).

(** [dependencies[key].append(x)] *)
Definition dep_append (key : string) (x : json) : M unit :=
  d <- get_dependencies ;;
  match dict_get key d with
  | Some (JList l) => set_dependencies (dict_set key (JList (l ++ [x])) d)
  | Some v => raise (Py.no_attribute v "append")
  | None => raise (Exn KeyError (squote ++ key ++ squote))
  end.

(** The exit status of the process for the outcome of [main]: an
    exception nobody caught ends the interpreter with status 1. *)
Definition exit_code {A} (r : result A) : Z :=
  match r with
  | Ret _ => 0
  | Raise _ => 1
  | Exit c => c
  end.

(** The URLs a trace asked for, in order. *)
Definition requests (t : list event) : list string :=
  flat_map (fun e => match e with Request url => [url] | _ => [] end) t.

Definition is_write (e : event) : bool :=
  match e with WriteFile _ _ => true | _ => false end.

Definition api_marker : string := "/api/v2/".

(** The catalogue of [_find_dependencies]. *)
Definition resource_types : list (string * string) :=
  [ ("teams", "Teams");
    ("users", "Users");
    ("projects", "Projects");
    ("inventories", "Inventories");
    ("job_templates", "Job Templates");
    ("workflow_job_templates", "Workflow Job Templates");
    ("credentials", "Credentials");
    ("notification_templates", "Notification Templates");
    ("instance_groups", "Instance Groups");
    ("applications", "Applications");
    ("activity_stream", "Activity Stream");
    ("access_list", "Access List") ].

Definition important_fields : list string :=
  [ "id"; "name"; "description"; "created"; "modified";
    "max_hosts"; "custom_virtualenv"; "default_environment" ].

Definition cross_key : string := "cross_org_credentials".

(** [class AAPClient]: the two attributes the methods read.  The session
    (authentication, TLS) is on the other side of [server] below. *)
Record AAPClient : Type := Client { base_url : string; api_base : string }.

(** [AAPClient.__init__] *)
Definition new_client (url : string) : AAPClient :=
  let base := rstrip_slash url in Client base (base ++ api_marker).

(** Command-line arguments, as [argparse] hands them over. *)
Record arguments : Type := Args {
  arg_organization : string;
  arg_url : string;
  arg_username : option string;
  arg_password : option string;
  arg_export : option string
}.

(** What [parser.parse_args()] does with a command line: it hands over
    the arguments; or it writes the usage and an error message to the
    error stream and exits with status 2; or, for [-h], it prints the
    help and exits with status 0. *)
Inductive parsed : Type :=
| Parsed (args : arguments)
| Usage (message : string)
| Help (text : string).

(** ** The program *)

Section Inspector.

(** Python's [int] on a string: [None] stands for [ValueError]. *)
Variable py_int : string -> option Z.
(** Python's [repr] on a list or a dictionary. *)
Variable py_repr : json -> string.
(** [urllib.parse.urljoin]: the joined URL, or the exception ([ValueError]
    for a base or a reference it cannot parse) that it raises. *)
Variable urljoin : string -> string -> outcome string.
(** The API behind the session: what a GET of a URL yields during the
    run. *)
Variable server : string -> response.
(** [open(path, 'w')]: the file system creates or truncates the file, or
    the call raises (an [OSError]: no such directory, a directory, no
    permission). *)
Variable open_for_writing : string -> outcome unit.
(** [argparse] with the options of [main]. *)
Variable parse_args : list string -> parsed.

(** [str(v)], which an f-string applies to [{v}]. *)
Definition py_str (v : json) : string :=
  match v with
  | JNull => "None"
  | JBool true => "True"
  | JBool false => "False"
  | JInt z => str_of_Z z
  | JStr s => s
  | JList _ | JObj _ => py_repr v
  end.

(** *** class AAPClient *)

Definition get (self : AAPClient) (endpoint : string) : M json :=
  url <- lift (urljoin (api_base self) endpoint) ;;
  emit (Request url) ;;
  match server url with
  | Ok body => ret body
  | Failed msg text =>
      eprint ("Error making request to " ++ url ++ ": " ++ msg) ;;
      match text with
      | Some t => eprint ("Response: " ++ t)
      | None => ret tt
      end ;;
      sys_exit 1
  end.

Definition get_organizations (self : AAPClient) : M json :=
  get self "organizations/".

Definition get_organization_by_name (self : AAPClient) (org_name : string)
  : M json :=
  response <- get self ("organizations/?name=" ++ org_name) ;;
  results <- lift (Py.get response "results" (JList [])) ;;
  if Py.truthy results then lift (Py.first results) else ret JNull.

Definition get_organization_by_id (self : AAPClient) (org_id : Z) : M json :=
  get self ("organizations/" ++ str_of_Z org_id ++ "/").

(** The endpoint [get_related_data] asks for, [None] when it returns
    without a request. *)
Definition related_endpoint (related_url : string) : option string :=
  if startswith "http" related_url then
    match split api_marker related_url with
    | _ :: part :: _ => Some part
    | _ => None
    end
  else Some (lstrip_slash related_url).

Definition get_related_data (self : AAPClient) (related_url : json) : M json :=
  match related_url with
  | JStr url =>
      match related_endpoint url with
      | Some endpoint => get self endpoint
      | None => ret JNull
      end
  | _ => raise (Py.no_attribute related_url "startswith")
  end.

(** *** class OrganizationInspector *)

Definition _display_org_details (org : json) : M unit :=
  print "Basic Information:" ;;
  print (repeat_str "-" 80) ;;
  for_each important_fields (fun field =>
    present <- lift (Py.contains field org) ;;
    if present : bool then
      value <- lift (Py.getitem org field) ;;
      let value :=
        match value with
        | JNull => JStr "N/A"
        | _ => if Py.eq value (JStr "") then JStr "N/A" else value
        end in
      print ("  " ++ pad_dots 30 field ++ " " ++ py_str value)
    else ret tt) ;;
  print "".

(** One turn of the preview loop: print the item, append its summary. *)
Definition record_item (field : string) (item : json) : M unit :=
  fallback <- lift (Py.get item "username" (JStr "N/A")) ;;
  name <- lift (Py.get item "name" fallback) ;;
  item_id <- lift (Py.get item "id" (JStr "N/A")) ;;
  print ("    - [" ++ py_str item_id ++ "] " ++ py_str name) ;;
  dep_append field (JObj [("id", item_id); ("name", name)]).

(** The body of the [try] for one resource type. *)
Definition list_resource (self : AAPClient) (related_fields : json)
  (field : string) : M unit :=
  link <- lift (Py.getitem related_fields field) ;;
  data <- get_related_data self link ;;
  count <- lift (Py.get data "count" (JInt 0)) ;;
  print ("  Count: " ++ py_str count) ;;
  positive <- lift (Py.gt count 0) ;;
  listed <- (if positive : bool then lift (Py.contains "results" data)
             else ret false) ;;
  if listed : bool then
    dep_set field (JList []) ;;
    results <- lift (Py.getitem data "results") ;;
    items <- lift (Py.slice_to 5 results) ;;
    for_each items (record_item field) ;;
    more <- lift (Py.gt count 5) ;;
    if more : bool then
      rest <- lift (Py.sub count 5) ;;
      print ("    ... and " ++ py_str rest ++ " more")
    else ret tt
  else ret tt.

(** One turn of the loop over the catalogue. *)
Definition visit_resource (self : AAPClient) (related_fields : json)
  (entry : string * string) : M unit :=
  let (field, label) := entry in
  present <- lift (Py.contains field related_fields) ;;
  if present : bool then
    print (nl ++ label ++ ":") ;;
    try_except (list_resource self related_fields field) any_exception
      (fun e => print ("  Error retrieving " ++ label ++ ": " ++ exn_str e))
  else ret tt.

(** The body of the [try] for one previewed credential. *)
Definition check_credential (self : AAPClient) (org cred : json) : M unit :=
  cred_id <- lift (Py.getitem cred "id") ;;
  cred_detail <- get self ("credentials/" ++ py_str cred_id ++ "/") ;;
  cred_org_id <- lift (Py.get cred_detail "organization" JNull) ;;
  differs <- (if Py.truthy cred_org_id then
                org_id <- lift (Py.getitem org "id") ;;
                ret (negb (Py.eq cred_org_id org_id))
              else ret false) ;;
  if differs : bool then
    cred_name <- lift (Py.getitem cred "name") ;;
    print ("  ⚠️  Credential '" ++ py_str cred_name
           ++ "' belongs to different organization (ID: "
           ++ py_str cred_org_id ++ ")") ;;
    d <- get_dependencies ;;
    (if dict_mem cross_key d then ret tt else dep_set cross_key (JList [])) ;;
    dep_append cross_key
      (JObj [("credential", cred); ("organization_id", cred_org_id)])
  else ret tt.

(** One turn of the loop over the previewed credentials. *)
Definition credential_turn (self : AAPClient) (org cred : json) : M unit :=
  try_except (check_credential self org cred) any_exception
    (fun e =>
       cred_id <- lift (Py.getitem cred "id") ;;
       print ("  Error checking credential " ++ py_str cred_id ++ ": "
              ++ exn_str e)).

Definition check_credentials (self : AAPClient) (org : json) : M unit :=
  d <- get_dependencies ;;
  if dict_mem "credentials" d then
    print (nl ++ "Checking credentials for cross-organization dependencies...") ;;
    creds <- lift (Py.getitem (JObj d) "credentials") ;;
    creds <- lift (Py.iter creds) ;;
    for_each creds (credential_turn self org)
  else ret tt.

Definition _find_dependencies (self : AAPClient) (org : json) : M dict :=
  set_dependencies [] ;;
  print "DEPENDENCIES & RELATED RESOURCES:" ;;
  print (repeat_str "-" 80) ;;
  related_fields <- lift (Py.get org "related" (JObj [])) ;;
  _ <- lift (Py.get org "summary_fields" (JObj [])) ;;
  for_each resource_types (visit_resource self related_fields) ;;
  check_credentials self org ;;
  print "" ;;
  get_dependencies.

(** The [try] that opens [inspect_organization]: by ID when [int]
    accepts the identifier, by name when it raises [ValueError]. *)
Definition resolve_organization (self : AAPClient) (org_identifier : string)
  : M json :=
  try_except
    (match py_int org_identifier with
     | Some org_id => get_organization_by_id self org_id
     | None =>
         raise (Exn ValueError
                  ("invalid literal for int() with base 10: "
                   ++ py_repr (JStr org_identifier)))
     end)
    value_error
    (fun _ => get_organization_by_name self org_identifier).

Definition inspect_organization (self : AAPClient) (org_identifier : string)
  : M json :=
  org <- resolve_organization self org_identifier ;;
  (if Py.truthy org then ret tt
   else eprint ("Organization '" ++ org_identifier ++ "' not found.") ;;
        sys_exit 1) ;;
  print (nl ++ repeat_str "=" 80) ;;
  name <- lift (Py.getitem org "name") ;;
  print ("ORGANIZATION DETAILS: " ++ py_str name) ;;
  print (repeat_str "=" 80 ++ nl) ;;
  _display_org_details org ;;
  deps <- _find_dependencies self org ;;
  ret (JObj [("organization", org); ("dependencies", JObj deps)]).

Definition export_to_json (data : json) (filename : string) : M unit :=
  lift (open_for_writing filename) ;;
  emit (WriteFile filename (dumps data)) ;;
  print (nl ++ "Data exported to: " ++ filename).

(** [value or input(prompt)] *)
Definition or_prompt (value : option string) (prompt : string) : M unit :=
  match value with
  | Some (String _ _) => ret tt
  | _ => emit (Prompt prompt)
  end.

(** [args = parser.parse_args()] *)
Definition run_parser (argv : list string) : M arguments :=
  match parse_args argv with
  | Parsed args => ret args
  | Usage message => eprint message ;; sys_exit 2
  | Help text => print text ;; sys_exit 0
  end.

Definition main (argv : list string) : M unit :=
  args <- run_parser argv ;;
  or_prompt (arg_username args) "AAP Username: " ;;
  or_prompt (arg_password args) "AAP Password: " ;;
  let client := new_client (arg_url args) in
  result <- inspect_organization client (arg_organization args) ;;
  match arg_export args with
  | Some (String _ _ as path) => export_to_json result path
  | _ => ret tt
  end ;;
  print (nl ++ repeat_str "=" 80) ;;
  print "Inspection complete!" ;;
  print (repeat_str "=" 80 ++ nl).

(** A run starts with nothing done. *)
Definition initial : state := State [] [].

End Inspector.

(** ** Notions the statements use *)

(** No occurrence of [sep] starts inside [pre] when [tail] follows it. *)
Fixpoint starts_nowhere (sep pre tail : string) : bool :=
  match pre with
  | EmptyString => true
  | String c pre' =>
      negb (String.prefix sep (pre ++ tail)) && starts_nowhere sep pre' tail
  end.

(** The state after some more events. *)
Definition log (st : state) (evs : list event) : state :=
  State (dependencies st) (trace st ++ evs).

(** What [get] writes to the error stream before it exits. *)
Definition failure_report (url msg : string) (text : option string) : list event :=
  Stderr ("Error making request to " ++ url ++ ": " ++ msg)
  :: match text with
     | Some t => [Stderr ("Response: " ++ t)]
     | None => []
     end.

(** The prompts of [main]. *)
Definition prompts (args : arguments) : list event :=
  match arg_username args with
  | Some (String _ _) => []
  | _ => [Prompt "AAP Username: "]
  end ++
  match arg_password args with
  | Some (String _ _) => []
  | _ => [Prompt "AAP Password: "]
  end.

Definition default {A} (d : A) (o : option A) : A :=
  match o with Some a => a | None => d end.

(** The shape of a preview item: [{'id': ..., 'name': ...}]. *)
Definition is_summary (v : json) : Prop :=
  exists item_id name, v = JObj [("id", item_id); ("name", name)].

(** The summary [record_item] appends for a dictionary. *)
Definition summary_of (d : dict) : json :=
  JObj [("id", default (JStr "N/A") (dict_get "id" d));
        ("name", default (default (JStr "N/A") (dict_get "username" d))
                         (dict_get "name" d))].

Section Pages.

Variable urljoin : string -> string -> outcome string.
Variable server : string -> response.
Variable self : AAPClient.

(** The first page of a resource type: what the server answers at the
    endpoint of the type's link, when the link is a string with an
    endpoint, [urljoin] builds the URL and the request succeeds. *)
Definition page_of (related_fields : json) (field : string) : option json :=
  match Py.getitem related_fields field with
  | Val (JStr link) =>
      match related_endpoint link with
      | Some endpoint =>
          match urljoin (api_base self) endpoint with
          | Val url =>
              match server url with
              | Ok body => Some body
              | Failed _ _ => None
              end
          | Err _ => None
          end
      | None => None
      end
  | _ => None
  end.

(** The page is a dictionary whose count (0 when it has none) is above
    zero and which has a 'results' key. *)
Definition listed (page : json) : bool :=
  match page with
  | JObj d =>
      match Py.gt (default (JInt 0) (dict_get "count" d)) 0 with
      | Val true => dict_mem "results" d
      | _ => false
      end
  | _ => false
  end.

(** The catalogue entries whose key is [in] the related links. *)
Definition present (related_fields : json) (entry : string * string) : bool :=
  match Py.contains (fst entry) related_fields with
  | Val true => true
  | _ => false
  end.

(** What the traversal over the catalogue keeps true of [dependencies],
    however a turn ends: distinct keys, each a catalogue type present in
    the related links whose first page is listed, each value a list of
    at most five summaries. *)
Definition previews_ok (related_fields : json) (d : dict) : Prop :=
  NoDup (keys d) /\
  forall k v, In (k, v) d ->
    In k (map fst (filter (present related_fields) resource_types)) /\
    (exists page, page_of related_fields k = Some page /\ listed page = true) /\
    exists l, v = JList l /\ Forall is_summary l /\ (List.length l <= 5)%nat.

Variable py_repr : json -> string.

Definition cross_entry (cred owner : json) : json :=
  JObj [("credential", cred); ("organization_id", owner)].

(** The owner [check_credential] reports for a previewed credential:
    the 'organization' of its detail record, when the request for the
    record yields a dictionary and that owner is truthy and [!=] the
    ID of the inspected organization. *)
Definition mismatched_owner (org cred : json) : option json :=
  match Py.getitem cred "id", Py.getitem cred "name" with
  | Val cred_id, Val _ =>
      match urljoin (api_base self)
              ("credentials/" ++ py_str py_repr cred_id ++ "/") with
      | Val url =>
          match server url with
          | Ok (JObj detail) =>
              let owner := default JNull (dict_get "organization" detail) in
              if Py.truthy owner then
                match Py.getitem org "id" with
                | Val org_id => if Py.eq owner org_id then None else Some owner
                | Err _ => None
                end
              else None
          | _ => None
          end
      | Err _ => None
      end
  | _, _ => None
  end.

Definition cross_entries (org : json) (creds : list json) : list json :=
  flat_map (fun cred =>
              match mismatched_owner org cred with
              | Some owner => [cross_entry cred owner]
              | None => []
              end) creds.

End Pages.

(** [base] with the cross-organization entries [xs] under their key, a
    key that exists only for a non-empty [xs]. *)
Definition with_cross (base : dict) (xs : list json) : dict :=
  match xs with
  | [] => base
  | _ => dict_set cross_key (JList xs) base
  end.

(** The previewed credentials of a dependency map. *)
Definition creds_of (d : dict) : list json :=
  match dict_get "credentials" d with
  | Some (JList l) => l
  | _ => []
  end.

(** ** A concrete environment for the scenarios *)

Module Scenario.

Definition digit_of (c : ascii) : option Z :=
  let n := nat_of_ascii c in
  if ((48 <=? n) && (n <=? 57))%nat then Some (Z.of_nat (n - 48)) else None.

Fixpoint digits (acc : Z) (s : string) : option Z :=
  match s with
  | EmptyString => Some acc
  | String c s' =>
      match digit_of c with
      | Some d => digits (10 * acc + d) s'
      | None => None
      end
  end.

(** [int] on the identifiers of the scenarios: a plain run of decimal
    digits is a number, a string with any other byte is not. *)
Definition decimal (s : string) : option Z :=
  match s with
  | EmptyString => None
  | _ => digits 0 s
  end.

(** No scenario prints a list or a dictionary. *)
Definition no_repr (v : json) : string := "".

(** The host of a URL: what stands between ["://"] and the next
    slash. *)
Definition host_of (url : string) : string :=
  match split "://" url with
  | _ :: rest :: _ =>
      match split "/" rest with
      | host :: _ => host
      | [] => ""
      end
  | _ => ""
  end.

(** [urljoin] of a base that ends in a slash and a relative endpoint
    that neither starts with a slash nor has dot segments; it raises
    [ValueError] for a base whose host has one square bracket without
    the other. *)
Definition join (base endpoint : string) : outcome string :=
  let host := host_of base in
  if xorb (substring_of "[" host) (substring_of "]" host)
  then Err (Exn ValueError "Invalid IPv6 URL")
  else Val (base ++ endpoint)%string.

(** [open(path, 'w')] in a directory that can be written to and has no
    subdirectory: a path with a slash names a file in a directory that
    does not exist. *)
Definition open_file (path : string) : outcome unit :=
  if String.eqb path "." then Err (Exn OSError "[Errno 21] Is a directory: '.'")
  else if substring_of "/" path
  then Err (Exn OSError
             ("[Errno 2] No such file or directory: '" ++ path ++ "'")%string)
  else Val tt.

Definition usage : string :=
  ("usage: aap_org_inspector.py [-h] --url URL [--username USERNAME] "
   ++ "[--password PASSWORD] [--no-verify-ssl] [--export EXPORT] organization")%string.

Definition usage_error (message : string) : parsed :=
  Usage (usage ++ nl ++ "aap_org_inspector.py: error: " ++ message ++ nl)%string.

Record options : Type := Options {
  opt_organization : option string;
  opt_url : option string;
  opt_username : option string;
  opt_password : option string;
  opt_export : option string
}.

Definition set_option (name value : string) (o : options) : option options :=
  if String.eqb name "--url" then
    Some (Options (opt_organization o) (Some value) (opt_username o)
                  (opt_password o) (opt_export o))
  else if String.eqb name "--username" then
    Some (Options (opt_organization o) (opt_url o) (Some value)
                  (opt_password o) (opt_export o))
  else if String.eqb name "--password" then
    Some (Options (opt_organization o) (opt_url o) (opt_username o)
                  (Some value) (opt_export o))
  else if String.eqb name "--export" then
    Some (Options (opt_organization o) (opt_url o) (opt_username o)
                  (opt_password o) (Some value))
  else None.

(** [argparse] on the command lines of the scenarios: an option takes
    its value from the next word, [-h] asks for the help, a word that
    is no option is the organization. *)
Fixpoint parse_from (argv : list string) (o : options) : parsed :=
  match argv with
  | [] =>
      match opt_organization o, opt_url o with
      | Some organization, Some url =>
          Parsed (Args organization url (opt_username o) (opt_password o)
                       (opt_export o))
      | None, _ =>
          usage_error "the following arguments are required: organization"
      | _, None => usage_error "the following arguments are required: --url"
      end
  | word :: rest =>
      if String.eqb word "-h" || String.eqb word "--help" then Help usage
      else if String.eqb word "--no-verify-ssl" then parse_from rest o
      else if startswith "-" word then
        match rest with
        | value :: rest' =>
            match set_option word value o with
            | Some o' => parse_from rest' o'
            | None => usage_error ("unrecognized arguments: " ++ word)%string
            end
        | [] =>
            usage_error ("argument " ++ word ++ ": expected one argument")%string
        end
      else
        match opt_organization o with
        | None =>
            parse_from rest
              (Options (Some word) (opt_url o) (opt_username o)
                       (opt_password o) (opt_export o))
        | Some _ => usage_error ("unrecognized arguments: " ++ word)%string
        end
  end.

Definition parse (argv : list string) : parsed :=
  parse_from argv (Options None None None None None).

Definition not_found : response :=
  Failed "404 Client Error: Not Found" (Some "{'detail': 'Not found.'}").

(** A server that knows the listed URLs. *)
Fixpoint serve (pages : list (string * response)) (url : string) : response :=
  match pages with
  | [] => not_found
  | (u, r) :: pages' => if String.eqb url u then r else serve pages' url
  end.

Definition client : AAPClient := new_client "https://aap.example.com/".

(** A client whose base URL has a host with an opening square bracket
    and no closing one. *)
Definition bracket_client : AAPClient := new_client "https://[bad/]".


Definition summary (id : Z) (name : string) : json :=
  JObj [("id", JInt id); ("name", JStr name)].

Definition page (count : Z) (items : list json) : response :=
  Ok (JObj [("count", JInt count); ("results", JList items)]).

Definition run {A} (server : string -> response) (m : (string -> option Z) ->
    (json -> string) -> (string -> string -> outcome string) ->
    (string -> response) -> M A) : state * result A :=
  m decimal no_repr join server initial.

(** [main] on a command line. *)
Definition run_main (server : string -> response) (argv : list string)
  : state * result unit :=
  main decimal no_repr join server open_file parse argv initial.

(** The scenario of the specification: organization "Engineering"
    (id 5) with 7 projects and 3 credentials, credential 42 owned by
    organization 9. *)
Definition engineering : json :=
  JObj [("id", JInt 5); ("name", JStr "Engineering"); ("description", JStr "");
        ("related",
          JObj [("projects", JStr "/organizations/5/projects/");
                ("credentials",
                  JStr "https://aap.example.com/api/v2/organizations/5/credentials/")])].

Definition engineering_api : string -> response :=
  serve
    [ ("https://aap.example.com/api/v2/organizations/?name=Engineering",
        page 1 [engineering]);
      ("https://aap.example.com/api/v2/organizations/?name=not-found-org",
        page 0 []);
      ("https://aap.example.com/api/v2/organizations/5/", Ok engineering);
      ("https://aap.example.com/api/v2/organizations/5/projects/",
        page 7 [summary 1 "p1"; summary 2 "p2"; summary 3 "p3"; summary 4 "p4";
                summary 5 "p5"; summary 6 "p6"; summary 7 "p7"]);
      ("https://aap.example.com/api/v2/organizations/5/credentials/",
        page 3 [summary 41 "vault"; summary 42 "galaxy"; summary 43 "scm"]);
      ("https://aap.example.com/api/v2/credentials/41/",
        Ok (JObj [("id", JInt 41); ("organization", JInt 5)]));
      ("https://aap.example.com/api/v2/credentials/42/",
        Ok (JObj [("id", JInt 42); ("organization", JInt 9)]));
      ("https://aap.example.com/api/v2/credentials/43/",
        Ok (JObj [("id", JInt 43); ("organization", JNull)])) ].

Definition engineering_related : json :=
  JObj [("projects", JStr "/organizations/5/projects/");
        ("credentials",
          JStr "https://aap.example.com/api/v2/organizations/5/credentials/")].

Definition engineering_run : state * result dict :=
  run engineering_api (fun _ r j s => _find_dependencies r j s client engineering).

(** The dependency map of the scenario. *)
Definition engineering_deps : dict :=
  [ ("projects",
      JList [summary 1 "p1"; summary 2 "p2"; summary 3 "p3"; summary 4 "p4";
             summary 5 "p5"]);
    ("credentials",
      JList [summary 41 "vault"; summary 42 "galaxy"; summary 43 "scm"]);
    ("cross_org_credentials",
      JList [cross_entry (summary 42 "galaxy") (JInt 9)]) ].

(** An organization whose teams cannot be fetched while its users
    can. *)
Definition operations_related : json :=
  JObj [("teams", JStr "/organizations/7/teams/");
        ("users", JStr "/organizations/7/users/")].

Definition operations : json :=
  JObj [("id", JInt 7); ("name", JStr "Operations");
        ("related", operations_related)].

Definition outage_api : string -> response :=
  serve
    [ ("https://aap.example.com/api/v2/organizations/7/users/",
        page 1 [JObj [("id", JInt 3); ("username", JStr "ada")]]) ].

Definition outage_run : state * result dict :=
  run outage_api (fun _ r j s => _find_dependencies r j s client operations).

(** An organization (id 5) with two credentials that no organization
    owns: the owner of one is null, the owner of the other is 0. *)
Definition governance : json :=
  JObj [("id", JInt 5); ("name", JStr "Governance");
        ("related", JObj [("credentials", JStr "/organizations/5/credentials/")])].

Definition governance_api : string -> response :=
  serve
    [ ("https://aap.example.com/api/v2/organizations/5/credentials/",
        page 2 [summary 43 "personal"; summary 44 "legacy"]);
      ("https://aap.example.com/api/v2/credentials/43/",
        Ok (JObj [("id", JInt 43); ("organization", JNull)]));
      ("https://aap.example.com/api/v2/credentials/44/",
        Ok (JObj [("id", JInt 44); ("organization", JInt 0)])) ].

Definition governance_run : state * result dict :=
  run governance_api (fun _ r j s => _find_dependencies r j s client governance).

Definition governance_deps : dict :=
  [ ("credentials", JList [summary 43 "personal"; summary 44 "legacy"]) ].

End Scenario.

(** ** Notions for the behaviour of a whole run *)

(** How a computation ended. *)
Inductive ending : Type :=
| Returned
| Raised
| Exited (code : Z).

Definition ending_of {A} (r : result A) : ending :=
  match r with
  | Ret _ => Returned
  | Raise _ => Raised
  | Exit code => Exited code
  end.

Definition is_stderr (e : event) : bool :=
  match e with Stderr _ => true | _ => false end.

(** A request or a line on the output stream. *)
Definition is_quiet (e : event) : bool :=
  match e with Request _ | Stdout _ => true | _ => false end.

(** The events [evs] hold at most [n] requests; when the computation
    returned or raised they are requests and output lines only; when it
    left the process, the status is 1, a diagnostic is on the error
    stream, and nothing but requests, output lines and diagnostics
    happened. *)
Definition orderly (n : nat) (evs : list event) (e : ending) : Prop :=
  (List.length (requests evs) <= n)%nat /\
  match e with
  | Exited code =>
      code = 1%Z /\
      forallb (fun ev => is_quiet ev || is_stderr ev) evs = true /\
      existsb is_stderr evs = true
  | _ => forallb is_quiet evs = true
  end.

(** Every run of [m] adds an orderly run of events to the trace. *)
Definition runs {A} (m : M A) (n : nat) : Prop :=
  forall st st' r,
    m st = (st', r) ->
    exists evs, trace st' = trace st ++ evs /\ orderly n evs (ending_of r).

(** The requests a turn of the catalogue loop may make. *)
Definition turn_cost (related : json) (entry : string * string) : nat :=
  if present related entry then 1 else 0.

(** Values that support [in]. *)
Definition is_container (v : json) : bool :=
  match v with
  | JObj _ | JList _ | JStr _ => true
  | _ => false
  end.




(** The line [record_item] prints for a dictionary. *)
Definition item_line (py_repr : json -> string) (d : dict) : event :=
  Stdout ("    - [" ++ py_str py_repr (default (JStr "N/A") (dict_get "id" d))
          ++ "] "
          ++ py_str py_repr
               (default (default (JStr "N/A") (dict_get "username" d))
                        (dict_get "name" d))).

(** The three events that open the turn of a resource type whose page
    was fetched: the label, the request, the count. *)
Definition page_opening (py_repr : json -> string) (label url : string)
  (count : json) : list event :=
  [Stdout (nl ++ label ++ ":"); Request url;
   Stdout ("  Count: " ++ py_str py_repr count)].

(** What [_display_org_details] shows for a value: 'N/A' for null and
    for the empty string. *)
Definition shown (value : json) : json :=
  match value with
  | JNull => JStr "N/A"
  | _ => if Py.eq value (JStr "") then JStr "N/A" else value
  end.

(** The line of a field of the organization, when it has the field. *)
Definition detail_line (py_repr : json -> string) (o : dict) (field : string)
  : list event :=
  match dict_get field o with
  | Some value =>
      [Stdout ("  " ++ pad_dots 30 field ++ " " ++ py_str py_repr (shown value))]
  | None => []
  end.

Definition detail_lines (py_repr : json -> string) (o : dict) : list event :=
  flat_map (detail_line py_repr o) important_fields.

(** ** Notions for the report as a value that can be exported *)

(** Every value of a dictionary is well formed. *)
Definition values_ok (d : dict) : Prop :=
  forallb (fun kv => well_formed (snd kv)) d = true.

(** A dictionary among the items a loop goes through is well formed; an
    item that is no dictionary is never stored. *)
Definition object_ok (v : json) : Prop :=
  match v with
  | JObj _ => well_formed v = true
  | _ => True
  end.

(** [m] keeps the values of [dependencies] well formed, and what it
    returns has the property [Q]. *)
Definition keeps {A} (m : M A) (Q : A -> Prop) : Prop :=
  forall st st' r,
    values_ok (dependencies st) -> m st = (st', r) ->
    values_ok (dependencies st') /\ forall a, r = Ret a -> Q a.

(** Every body the server answers with is well formed, as a body that
    [response.json()] decoded is. *)
Definition decoded (server : string -> response) : Prop :=
  forall url body, server url = Ok body -> well_formed body = true.

(** The bodies of the listed pages are well formed. *)
Definition pages_ok (pages : list (string * response)) : bool :=
  forallb (fun p => match snd p with
                    | Ok body => well_formed body
                    | Failed _ _ => true
                    end) pages.

(** ** The examples of [example_usage.py] *)

(** [len(v)] *)
Definition py_len (v : json) : outcome Z :=
  match v with
  | JList l => Val (Z.of_nat (List.length l))
  | JObj d => Val (Z.of_nat (List.length d))
  | JStr s => Val (Z.of_nat (List.length (utf8_chars s)))
  | _ =>
      Err (Exn TypeError
             ("object of type '" ++ Py.type_name v ++ "' has no len()"))
  end.

(** [v.items()] *)
Definition py_items (v : json) : outcome dict :=
  match v with
  | JObj d => Val d
  | _ => Err (Py.no_attribute v "items")
  end.

(** The loop that adds up [len(items)] over the values that are lists. *)
Definition count_resources (d : dict) : Z :=
  fold_left (fun total entry =>
               match snd entry with
               | JList items => (total + Z.of_nat (List.length items))%Z
               | _ => total
               end) d 0%Z.

Section Examples.

Variable py_int : string -> option Z.
Variable py_repr : json -> string.
Variable urljoin : string -> string -> outcome string.
Variable server : string -> response.
Variable open_for_writing : string -> outcome unit.

Definition example_programmatic_usage : M unit :=
  let client := new_client "https://aap.example.com" in
  result <- inspect_organization py_int py_repr urljoin server client
              "My Organization" ;;
  org <- lift (Py.getitem result "organization") ;;
  dependencies <- lift (Py.getitem result "dependencies") ;;
  name <- lift (Py.getitem org "name") ;;
  types <- lift (py_len dependencies) ;;
  print (nl ++ "Organization '" ++ py_str py_repr name ++ "' has "
         ++ str_of_Z types ++ " dependency types") ;;
  entries <- lift (py_items dependencies) ;;
  print ("Total resources: " ++ str_of_Z (count_resources entries)) ;;
  export_to_json open_for_writing result "org_report.json".

(** One turn of the loop of [example_list_all_organizations]. *)
Definition print_organization (org : json) : M unit :=
  org_id <- lift (Py.getitem org "id") ;;
  name <- lift (Py.getitem org "name") ;;
  print ("  [" ++ py_str py_repr org_id ++ "] " ++ py_str py_repr name).

Definition example_list_all_organizations : M unit :=
  let client := new_client "https://aap.example.com" in
  orgs_data <- get_organizations urljoin server client ;;
  count <- lift (Py.getitem orgs_data "count") ;;
  print (nl ++ "Total organizations: " ++ py_str py_repr count) ;;
  print (nl ++ "Organizations:") ;;
  results <- lift (Py.getitem orgs_data "results") ;;
  orgs <- lift (Py.iter results) ;;
  for_each orgs print_organization.

End Examples.

(** The line [example_list_all_organizations] prints for a record with
    an 'id' and a 'name'. *)
Definition organization_line (py_repr : json -> string) (o : dict) : event :=
  Stdout ("  [" ++ py_str py_repr (default JNull (dict_get "id" o)) ++ "] "
          ++ py_str py_repr (default JNull (dict_get "name" o))).

(** ** More scenarios *)

Module Cases.

Import Scenario.

Definition engineering_inspection : state * result json :=
  run engineering_api
    (fun i r j s => inspect_organization i r j s client "Engineering").

Definition engineering_report_value : json :=
  JObj [("organization", engineering); ("dependencies", JObj engineering_deps)].



Definition not_found_args : arguments :=
  Args "not-found-org" "https://aap.example.com" (Some "admin") None None.


(** The command line of the scenario with an export path in a directory
    that does not exist. *)
Definition unwritable_argv : list string :=
  ["Engineering"; "--url"; "https://aap.example.com/"; "--username"; "admin";
   "--password"; "secret"; "--export"; "missing/report.json"].

(** The seven projects of the scenario, as dictionaries. *)
Definition project (id : Z) (name : string) : dict :=
  [("id", JInt id); ("name", JStr name)].

Definition projects : list dict :=
  [project 1 "p1"; project 2 "p2"; project 3 "p3"; project 4 "p4";
   project 5 "p5"; project 6 "p6"; project 7 "p7"].

Definition projects_page : dict :=
  [("count", JInt 7); ("results", JList (map JObj projects))].

(** A page whose second result is null. *)
Definition ragged_related : json :=
  JObj [("teams", JStr "/organizations/6/teams/")].

Definition ragged_page : dict :=
  [("count", JInt 3);
   ("results", JList (map JObj [project 1 "core"] ++ JNull :: [summary 3 "web"]))].

(** Records and pages for the edge cases: a detail record that is a
    list, lookups that answer an empty object or a record without a
    name, the list of all organizations, and the organization of the
    example. *)
Definition nameless : dict := [("id", JInt 8)].

Definition my_organization : json :=
  JObj [("id", JInt 3); ("name", JStr "My Organization")].

Definition all_organizations : list dict :=
  [ [("id", JInt 3); ("name", JStr "My Organization")];
    [("id", JInt 5); ("name", JStr "Engineering")] ].

Definition edge_api : string -> response :=
  serve
    [ ("https://aap.example.com/api/v2/organizations/6/teams/", Ok (JObj ragged_page));
      ("https://aap.example.com/api/v2/credentials/41/", Ok (JList []));
      ("https://aap.example.com/api/v2/organizations/9/", Ok (JObj []));
      ("https://aap.example.com/api/v2/organizations/8/", Ok (JObj nameless));
      ("https://aap.example.com/api/v2/organizations/",
        Ok (JObj [("count", JInt 2); ("results", JList (map JObj all_organizations))]));
      ("https://aap.example.com/api/v2/organizations/?name=My Organization",
        page 1 [my_organization]) ].

(** The organization of the scenario without its 'id'. *)
Definition anonymous : json :=
  JObj [("name", JStr "Engineering"); ("related", engineering_related)].

Definition anonymous_run : state * result dict :=
  run engineering_api (fun _ r j s => _find_dependencies r j s client anonymous).

Definition engineering_previews : dict :=
  [ ("projects",
      JList [summary 1 "p1"; summary 2 "p2"; summary 3 "p3"; summary 4 "p4";
             summary 5 "p5"]);
    ("credentials",
      JList [summary 41 "vault"; summary 42 "galaxy"; summary 43 "scm"]) ].

Definition example_client : AAPClient := new_client "https://aap.example.com".

Definition my_organization_inspection : state * result json :=
  run edge_api
    (fun i r j s => inspect_organization i r j s example_client "My Organization").

Definition my_organization_report : json :=
  JObj [("organization", my_organization); ("dependencies", JObj [])].

End Cases.

(** ** Notions for the text of a value *)

(** The depth of calls the decoder needs for the text of a value. *)
Fixpoint cost (v : json) : nat :=
  match v with
  | JList l => S (fold_right (fun x n => S (cost x + n)) 0 l)
  | JObj d => S (fold_right (fun kv n => S (cost (snd kv) + n)) 0 d)
  | _ => 1
  end.

(** What may follow the digits of an integer: no digit, no fraction, no
    exponent. *)
Definition ends_number (s : string) : bool :=
  match s with
  | String c _ => negb (is_digit c) && negb (float_follows s)
  | EmptyString => true
  end.

(** Where a value starts: no white space, no closing bracket. *)
Definition starts_value (s : string) : Prop :=
  exists c t, s = String c t /\ is_ws c = false /\
              Ascii.eqb c "]" = false /\ Ascii.eqb c "}" = false.

(** The same for the items of a list and the members of an object. *)
Definition costs (l : list json) : nat :=
  fold_right (fun x n => S (cost x + n)) 0 l.

Definition member_costs (d : list (string * json)) : nat :=
  fold_right (fun kv n => S (cost (snd kv) + n)) 0 d.

(** The decoder reads the text of [v] back as [v], whatever follows the
    text, when [v] is well formed and the fuel is enough. *)
Definition reads (v : json) : Prop :=
  well_formed v = true ->
  forall level fuel (rest : string),
    cost v <= fuel -> ends_number rest = true ->
    parse_value fuel (encode level v ++ rest) = Some (v, rest).

(** * Properties *)

(** ** The string operations on examples *)

Example split_twice :
  split "/api/v2/" "http://h/api/v2/a/api/v2/b" = ["http://h"; "a"; "b"].
Proof. reflexivity. Qed.

Example split_trailing : split "/api/v2/" "x/api/v2/" = ["x"; ""].
Proof. reflexivity. Qed.

Example rstrip_slash_ex : rstrip_slash "https://aap.example.com//" = "https://aap.example.com".
Proof. reflexivity. Qed.

Example str_of_Z_ex : str_of_Z 42 = "42" /\ str_of_Z (-7) = "-7" /\ str_of_Z 0 = "0".
Proof. repeat split. Qed.

(** ** Dictionaries *)

Lemma dict_get_set_same k v d : dict_get k (dict_set k v d) = Some v.
Proof.
  induction d as [|[k' v'] d IH]; simpl.
  - now rewrite String.eqb_refl.
  - destruct (String.eqb k k') eqn:E; simpl; rewrite E; auto.
Qed.

Lemma dict_get_set_other k k' v d :
  k' <> k -> dict_get k' (dict_set k v d) = dict_get k' d.
Proof.
  intros Hne. induction d as [|[k0 v0] d IH]; simpl.
  - destruct (String.eqb k' k) eqn:E; auto.
    apply String.eqb_eq in E. contradiction.
  - destruct (String.eqb k k0) eqn:E; simpl.
    + apply String.eqb_eq in E. subst k0.
      destruct (String.eqb k' k) eqn:E'; auto.
      apply String.eqb_eq in E'. contradiction.
    + now rewrite IH.
Qed.

Lemma dict_set_set k v w d : dict_set k w (dict_set k v d) = dict_set k w d.
Proof.
  induction d as [|[k' v'] d IH]; simpl.
  - now rewrite String.eqb_refl.
  - destruct (String.eqb k k') eqn:E; simpl; rewrite E; auto.
    now rewrite IH.
Qed.

Lemma dict_set_same k v d : dict_get k d = Some v -> dict_set k v d = d.
Proof.
  induction d as [|[k' v'] d IH]; simpl; [discriminate|].
  destruct (String.eqb k k') eqn:E.
  - intros H. inversion H. reflexivity.
  - intros H. now rewrite IH.
Qed.

Lemma dict_set_In k v k' v' d :
  In (k', v') (dict_set k v d) -> (k' = k /\ v' = v) \/ In (k', v') d.
Proof.
  induction d as [|[k0 v0] d IH]; simpl.
  - intros [H|[]]. inversion H. auto.
  - destruct (String.eqb k k0) eqn:E; simpl.
    + apply String.eqb_eq in E. subst k0.
      intros [H|H]; [inversion H; auto | auto].
    + intros [H|H]; [auto | destruct (IH H); auto].
Qed.

Lemma dict_set_keys_In k v k' d :
  In k' (keys (dict_set k v d)) -> k' = k \/ In k' (keys d).
Proof.
  unfold keys. intros H. apply in_map_iff in H as [[k0 v0] [Hk Hin]].
  simpl in Hk. subst k0. apply dict_set_In in Hin as [[-> _]|Hin]; auto.
  right. apply in_map_iff. now exists (k', v0).
Qed.

Lemma dict_set_NoDup k v d : NoDup (keys d) -> NoDup (keys (dict_set k v d)).
Proof.
  induction d as [|[k' v'] d IH]; simpl; intros Hnd.
  - constructor; [intros [] | constructor].
  - inversion Hnd as [|? ? Hnotin Hnd']; subst.
    destruct (String.eqb k k') eqn:E; simpl.
    + constructor; auto.
    + constructor; auto.
      intros Hin. apply dict_set_keys_In in Hin as [->|Hin]; auto.
      now rewrite String.eqb_refl in E.
Qed.

Lemma dict_get_In k v d : dict_get k d = Some v -> In (k, v) d.
Proof.
  induction d as [|[k' v'] d IH]; simpl; [discriminate|].
  destruct (String.eqb k k') eqn:E.
  - apply String.eqb_eq in E. subst k'. intros H. inversion H. auto.
  - auto.
Qed.

Lemma dict_mem_keys k d : dict_mem k d = true <-> In k (keys d).
Proof.
  unfold dict_mem. induction d as [|[k' v'] d IH]; simpl.
  - split; [discriminate | intros []].
  - destruct (String.eqb k k') eqn:E.
    + apply String.eqb_eq in E. subst k'. split; auto.
    + rewrite IH. split; auto. intros [H|H]; auto.
      subst k'. now rewrite String.eqb_refl in E.
Qed.

Lemma dict_get_None_keys k d : dict_get k d = None <-> ~ In k (keys d).
Proof.
  rewrite <- dict_mem_keys. unfold dict_mem.
  destruct (dict_get k d); split; intros H; try discriminate; auto.
  exfalso. now apply H.
Qed.

Lemma dict_set_length_le k v d :
  (List.length (dict_set k v d) <= S (List.length d))%nat.
Proof.
  induction d as [|[k' v'] d IH]; simpl; auto.
  destruct (String.eqb k k'); simpl; lia.
Qed.

Lemma dict_set_length_mem k v d :
  dict_mem k d = true -> List.length (dict_set k v d) = List.length d.
Proof.
  unfold dict_mem. induction d as [|[k' v'] d IH]; simpl; [discriminate|].
  destruct (String.eqb k k') eqn:E; simpl; auto.
Qed.

(** ** The version-root marker in a related link *)

Lemma split_from_absent sep : forall s cur,
  substring_of sep s = false -> split_from sep 0 cur s = [(cur ++ s)%string].
Proof.
  induction s as [|c s IH]; intros cur H.
  - simpl. f_equal. clear H. induction cur; simpl; congruence.
  - cbn [substring_of] in H. apply orb_false_iff in H as [Hp Hs].
    cbn [split_from]. rewrite Hp. rewrite (IH _ Hs). f_equal.
    clear. induction cur; simpl; congruence.
Qed.

Lemma related_endpoint_relative url :
  startswith "http" url = false -> related_endpoint url = Some (lstrip_slash url).
Proof. unfold related_endpoint. now intros ->. Qed.

Lemma related_endpoint_no_marker url :
  startswith "http" url = true -> substring_of api_marker url = false ->
  related_endpoint url = None.
Proof.
  unfold related_endpoint, split. intros -> H.
  now rewrite (split_from_absent _ _ _ H).
Qed.

Lemma append_assoc (a b c : string) : ((a ++ b) ++ c = a ++ (b ++ c))%string.
Proof. induction a; simpl; congruence. Qed.

Lemma append_empty_r (a : string) : (a ++ "")%string = a.
Proof. induction a; simpl; congruence. Qed.

Lemma prefix_append (a b : string) : String.prefix a (a ++ b) = true.
Proof.
  induction a as [|c a IH]; simpl; [now destruct b|].
  destruct (ascii_dec c c); [assumption | contradiction].
Qed.

Lemma split_from_skip sep : forall rest cur suf,
  split_from sep (String.length rest) cur (rest ++ suf) = split_from sep 0 cur suf.
Proof. induction rest as [|c rest IH]; intros; simpl; auto. Qed.

(** [split] up to the first separator: the piece before it, then the
    pieces of what follows it. *)
Lemma split_from_first c0 sep' : forall pre cur suf,
  starts_nowhere (String c0 sep') pre (String c0 sep' ++ suf) = true ->
  split_from (String c0 sep') 0 cur (pre ++ String c0 sep' ++ suf)
  = (cur ++ pre)%string :: split_from (String c0 sep') 0 "" suf.
Proof.
  induction pre as [|c pre IH]; intros cur suf H.
  - rewrite append_empty_r.
    change ("" ++ String c0 sep' ++ suf)%string with (String c0 (sep' ++ suf)).
    cbn [split_from].
    change (String c0 (sep' ++ suf)) with (String c0 sep' ++ suf)%string.
    rewrite prefix_append. f_equal.
    cbn [String.length]. rewrite Nat.sub_succ, Nat.sub_0_r.
    apply split_from_skip.
  - cbn [starts_nowhere] in H. apply andb_true_iff in H as [Hp Hs].
    apply negb_true_iff in Hp.
    change ((String c pre) ++ String c0 sep' ++ suf)%string
      with (String c (pre ++ String c0 sep' ++ suf)) in *.
    cbn [split_from]. rewrite Hp. rewrite (IH _ _ Hs).
    f_equal. rewrite append_assoc. reflexivity.
Qed.

(** With the marker exactly once in an absolute link, the endpoint is
    what follows it. *)
Lemma related_endpoint_single_marker pre suf :
  startswith "http" (pre ++ api_marker ++ suf) = true ->
  starts_nowhere api_marker pre (api_marker ++ suf) = true ->
  substring_of api_marker suf = false ->
  related_endpoint (pre ++ api_marker ++ suf) = Some suf.
Proof.
  intros Hh Hpre Hsuf. unfold related_endpoint. rewrite Hh.
  unfold split, api_marker in *.
  rewrite (split_from_first _ _ _ _ _ Hpre).
  now rewrite (split_from_absent _ _ _ Hsuf).
Qed.

Example related_endpoint_absolute :
  related_endpoint "https://aap.example.com/api/v2/organizations/5/teams/"
  = Some "organizations/5/teams/".
Proof. reflexivity. Qed.

(** C5, at an absolute link that holds the marker twice:
    [get_related_data] asks for the piece between the two markers,
    ["teams/?next="], where the suffix after the marker is
    ["teams/?next=/api/v2/teams/?page=2"]. *)
Theorem get_related_data_marker_twice :
  forall urljoin server self st,
    let link := "https://aap.example.com/api/v2/teams/?next=/api/v2/teams/?page=2" in
    startswith "http" link = true /\
    link = ("https://aap.example.com" ++ api_marker
            ++ "teams/?next=/api/v2/teams/?page=2")%string /\
    related_endpoint link = Some "teams/?next=" /\
    get_related_data urljoin server self (JStr link) st
    = get urljoin server self "teams/?next=" st /\
    "teams/?next=" <> "teams/?next=/api/v2/teams/?page=2".
Proof. intros. repeat split. discriminate. Qed.

(** ** The text of a value and its reading *)

Lemma chr_byte_of c : chr (byte_of c) = c.
Proof. unfold chr, byte_of. rewrite N2Z.id. apply ascii_N_embedding. Qed.

Lemma byte_of_range c : (0 <= byte_of c < 256)%Z.
Proof. unfold byte_of. pose proof (N_ascii_bounded (c)). lia. Qed.

Lemma byte_of_chr b : (0 <= b < 256)%Z -> byte_of (chr b) = b.
Proof.
  intros H. unfold chr, byte_of. rewrite N_ascii_embedding by lia. lia.
Qed.

Lemma chr_eq c b : byte_of c = b -> chr b = c.
Proof. intros <-. apply chr_byte_of. Qed.

Ltac bools :=
  repeat match goal with
         | H : (_ && _)%bool = true |- _ => apply andb_true_iff in H as [? ?]
         | H : negb _ = true |- _ => apply negb_true_iff in H
         | H : (_ && _)%bool = false |- _ => apply andb_false_iff in H
         | H : (_ <? _)%Z = true |- _ => apply Z.ltb_lt in H
         | H : (_ <? _)%Z = false |- _ => apply Z.ltb_ge in H
         | H : (_ <=? _)%Z = true |- _ => apply Z.leb_le in H
         | H : (_ <=? _)%Z = false |- _ => apply Z.leb_gt in H
         | H : (_ =? _)%Z = true |- _ => apply Z.eqb_eq in H
         | H : (_ =? _)%Z = false |- _ => apply Z.eqb_neq in H
         end.

Ltac arith := Z.div_mod_to_equations; lia.

Lemma utf8_one cp : (cp < 128)%Z -> utf8 cp = String (chr cp) "".
Proof.
  intros H. unfold utf8.
  now replace (_ <? 128)%Z with true by (symmetry; apply Z.ltb_lt; lia).
Qed.

Lemma utf8_two b0 b1 :
  (194 <= b0 < 224)%Z -> (128 <= b1 < 192)%Z ->
  utf8 ((b0 - 192) * 64 + (b1 - 128))
  = String (chr b0) (String (chr b1) "").
Proof.
  intros H0 H1. unfold utf8.
  replace (_ <? 128)%Z with false by (symmetry; apply Z.ltb_ge; lia).
  replace (_ <? 2048)%Z with true by (symmetry; apply Z.ltb_lt; lia).
  repeat f_equal; arith.
Qed.

Lemma utf8_three b0 b1 b2 :
  (224 <= b0 < 240)%Z -> (128 <= b1 < 192)%Z -> (128 <= b2 < 192)%Z ->
  (2048 <= (b0 - 224) * 4096 + (b1 - 128) * 64 + (b2 - 128))%Z ->
  utf8 ((b0 - 224) * 4096 + (b1 - 128) * 64 + (b2 - 128))
  = String (chr b0) (String (chr b1) (String (chr b2) "")).
Proof.
  intros H0 H1 H2 H. unfold utf8.
  replace (_ <? 128)%Z with false by (symmetry; apply Z.ltb_ge; lia).
  replace (_ <? 2048)%Z with false by (symmetry; apply Z.ltb_ge; lia).
  replace (_ <? 65536)%Z with true by (symmetry; apply Z.ltb_lt; lia).
  repeat f_equal; arith.
Qed.

Lemma utf8_four b0 b1 b2 b3 :
  (240 <= b0 < 256)%Z -> (128 <= b1 < 192)%Z -> (128 <= b2 < 192)%Z ->
  (128 <= b3 < 192)%Z ->
  (65536 <= (b0 - 240) * 262144 + (b1 - 128) * 4096 + (b2 - 128) * 64
            + (b3 - 128))%Z ->
  utf8 ((b0 - 240) * 262144 + (b1 - 128) * 4096 + (b2 - 128) * 64 + (b3 - 128))
  = String (chr b0) (String (chr b1) (String (chr b2) (String (chr b3) ""))).
Proof.
  intros H0 H1 H2 H3 H. unfold utf8.
  replace (_ <? 128)%Z with false by (symmetry; apply Z.ltb_ge; lia).
  replace (_ <? 2048)%Z with false by (symmetry; apply Z.ltb_ge; lia).
  replace (_ <? 65536)%Z with false by (symmetry; apply Z.ltb_ge; lia).
  repeat f_equal; arith.
Qed.

(** The bytes of a text are the UTF-8 forms of its code points, which
    are characters. *)
Lemma code_points_utf8 : forall n s cps,
  (String.length s <= n)%nat ->
  code_points s = Some cps ->
  flatten (map utf8 cps) = s /\ Forall scalar cps.
Proof.
  induction n as [|n IH]; intros s cps Hlen H.
  { destruct s; [|simpl in Hlen; lia]. inversion H. split; constructor. }
  destruct s as [|a s1]; [inversion H; split; constructor|].
  cbn [code_points] in H. cbv zeta in H.
  pose proof (byte_of_range a) as Ra.
  cbn [String.length] in Hlen.
  destruct (byte_of a <? 128)%Z eqn:E0.
  { destruct (code_points s1) as [cps1|] eqn:E1; [|discriminate].
    inversion H; subst. destruct (IH s1 cps1) as [I1 I2]; [lia|assumption|].
    bools. split.
    - cbn [map flatten]. rewrite utf8_one by lia.
      cbn [append]. now rewrite chr_byte_of, I1.
    - constructor; [left; lia | assumption]. }
  destruct s1 as [|b s2]; [discriminate|].
  pose proof (byte_of_range b) as Rb.
  cbn [String.length] in Hlen.
  destruct (byte_of a <? 224)%Z eqn:E1.
  { destruct ((194 <=? byte_of a)%Z && is_trail (byte_of b)) eqn:E2;
      [|discriminate].
    destruct (code_points s2) as [cps1|] eqn:E3; [|discriminate].
    inversion H; subst. destruct (IH s2 cps1) as [I1 I2]; [lia|assumption|].
    unfold is_trail in E2. bools. split.
    - cbn [map flatten]. rewrite utf8_two by lia.
      cbn [append]. now rewrite !chr_byte_of, I1.
    - constructor; [left; lia | assumption]. }
  destruct s2 as [|c s3]; [discriminate|].
  pose proof (byte_of_range c) as Rc.
  cbn [String.length] in Hlen.
  destruct (byte_of a <? 240)%Z eqn:E2.
  { match type of H with (if ?g then _ else _) = _ => destruct g eqn:E3 end;
      [|discriminate].
    destruct (code_points s3) as [cps1|] eqn:E4; [|discriminate].
    inversion H; subst. destruct (IH s3 cps1) as [I1 I2]; [lia|assumption|].
    unfold is_trail in E3. bools. split.
    - cbn [map flatten]. rewrite utf8_three by lia.
      cbn [append]. now rewrite !chr_byte_of, I1.
    - constructor; [|assumption]. unfold scalar.
      match goal with H : _ \/ _ |- _ => destruct H end; bools; lia. }
  destruct s3 as [|d s4]; [discriminate|].
  pose proof (byte_of_range d) as Rd.
  cbn [String.length] in Hlen.
  match type of H with (if ?g then _ else _) = _ => destruct g eqn:E3 end;
    [|discriminate].
  destruct (code_points s4) as [cps1|] eqn:E4; [|discriminate].
  inversion H; subst. destruct (IH s4 cps1) as [I1 I2]; [lia|assumption|].
  unfold is_trail in E3. bools. split.
  - cbn [map flatten]. rewrite utf8_four by lia.
    cbn [append]. now rewrite !chr_byte_of, I1.
  - constructor; [right; lia | assumption].
Qed.

Lemma characters_text s :
  is_text s = true ->
  flatten (map utf8 (characters s)) = s /\ Forall scalar (characters s).
Proof.
  unfold is_text, characters. destruct (code_points s) as [cps|] eqn:E;
    [|discriminate].
  intros _. now apply (code_points_utf8 (String.length s)).
Qed.

(** *** Reading back what the encoder wrote *)

Ltac decide_cmp :=
  repeat match goal with
         | |- context [(?a <=? ?b)%Z] => destruct (Z.leb_spec a b); try lia
         | |- context [(?a <? ?b)%Z] => destruct (Z.ltb_spec a b); try lia
         | |- context [(?a =? ?b)%Z] => destruct (Z.eqb_spec a b); try lia
         end.

Lemma hex_value_digit d :
  (0 <= d < 16)%Z -> hex_value (hex_digit d) = Some d.
Proof.
  intros H. unfold hex_value, hex_digit.
  destruct (Z.ltb_spec d 10); rewrite byte_of_chr by lia;
    decide_cmp; cbn [andb]; f_equal; lia.
Qed.

Lemma hex4_value_hex n :
  (0 <= n < 65536)%Z ->
  hex4_value (hex_digit (n / 4096)) (hex_digit ((n / 256) mod 16))
             (hex_digit ((n / 16) mod 16)) (hex_digit (n mod 16)) = Some n.
Proof.
  intros H. unfold hex4_value.
  rewrite !hex_value_digit by arith. f_equal. arith.
Qed.


Lemma chr_eqb a b :
  (0 <= a < 256)%Z -> (0 <= b < 256)%Z ->
  Ascii.eqb (chr a) (chr b) = (a =? b)%Z.
Proof.
  intros Ha Hb. destruct (Z.eqb_spec a b) as [->|Hne].
  - apply Ascii.eqb_refl.
  - apply Ascii.eqb_neq. intros E. apply Hne.
    rewrite <- (byte_of_chr a Ha), <- (byte_of_chr b Hb). now rewrite E.
Qed.

Lemma scanstring_plain c t :
  Ascii.eqb c (ascii_of_nat 34) = false ->
  Ascii.eqb c (ascii_of_nat 92) = false ->
  (byte_of c <? 32)%Z = false ->
  scanstring (String c t) = prepend (String c "") (scanstring t).
Proof. intros H1 H2 H3. cbn [scanstring]. now rewrite H1, H2, H3. Qed.

Lemma scanstring_short e ch t :
  Ascii.eqb e "u" = false ->
  short_escape e = Some ch ->
  scanstring (String (ascii_of_nat 92) (String e t))
  = prepend (String ch "") (scanstring t).
Proof.
  intros H1 H2. cbn [scanstring].
  change (Ascii.eqb (ascii_of_nat 92) (ascii_of_nat 34)) with false.
  change (Ascii.eqb (ascii_of_nat 92) (ascii_of_nat 92)) with true.
  cbv iota. now rewrite H1, H2.
Qed.

Lemma scanstring_u h1 h2 h3 h4 uni t :
  hex4_value h1 h2 h3 h4 = Some uni ->
  (uni < 55296 \/ 57344 <= uni)%Z ->
  scanstring (String (ascii_of_nat 92)
               (String "u" (String h1 (String h2 (String h3 (String h4 t))))))
  = prepend (utf8 uni) (scanstring t).
Proof.
  intros H1 H2. cbn [scanstring].
  change (Ascii.eqb (ascii_of_nat 92) (ascii_of_nat 34)) with false.
  change (Ascii.eqb (ascii_of_nat 92) (ascii_of_nat 92)) with true.
  change (Ascii.eqb "u" "u") with true.
  cbv iota. rewrite H1.
  destruct H2.
  - replace ((55296 <=? uni)%Z) with false by (symmetry; apply Z.leb_gt; lia).
    replace ((56320 <=? uni)%Z) with false by (symmetry; apply Z.leb_gt; lia).
    reflexivity.
  - replace ((uni <? 56320)%Z) with false by (symmetry; apply Z.ltb_ge; lia).
    replace ((uni <? 57344)%Z) with false by (symmetry; apply Z.ltb_ge; lia).
    now rewrite !andb_false_r.
Qed.

Lemma scanstring_pair h1 h2 h3 h4 l1 l2 l3 l4 high low t :
  hex4_value h1 h2 h3 h4 = Some high ->
  (55296 <= high < 56320)%Z ->
  hex4_value l1 l2 l3 l4 = Some low ->
  (56320 <= low < 57344)%Z ->
  scanstring (String (ascii_of_nat 92)
               (String "u" (String h1 (String h2 (String h3 (String h4
                 (String (ascii_of_nat 92)
                    (String "u" (String l1 (String l2 (String l3
                      (String l4 t))))))))))))
  = prepend (utf8 (65536 + (high - 55296) * 1024 + (low - 56320))%Z)
            (scanstring t).
Proof.
  intros H1 R1 H2 R2. cbn [scanstring].
  change (Ascii.eqb (ascii_of_nat 92) (ascii_of_nat 34)) with false.
  change (Ascii.eqb (ascii_of_nat 92) (ascii_of_nat 92)) with true.
  change (Ascii.eqb "u" "u") with true.
  cbv iota. rewrite H1.
  replace ((55296 <=? high)%Z) with true by (symmetry; apply Z.leb_le; lia).
  replace ((high <? 56320)%Z) with true by (symmetry; apply Z.ltb_lt; lia).
  cbn [andb]. cbv iota. rewrite H2.
  replace ((56320 <=? low)%Z) with true by (symmetry; apply Z.leb_le; lia).
  replace ((low <? 57344)%Z) with true by (symmetry; apply Z.ltb_lt; lia).
  reflexivity.
Qed.

(** One escaped character is read back as the character. *)
Lemma scanstring_escape cp (t : string) :
  scalar cp ->
  scanstring (escape cp ++ t)%string = prepend (utf8 cp) (scanstring t).
Proof.
  intros Hs. unfold escape.
  destruct (Z.eqb_spec cp 34) as [->|N1]; [reflexivity|].
  destruct (Z.eqb_spec cp 92) as [->|N2]; [reflexivity|].
  destruct (Z.eqb_spec cp 10) as [->|N3]; [reflexivity|].
  destruct (Z.eqb_spec cp 13) as [->|N4]; [reflexivity|].
  destruct (Z.eqb_spec cp 9) as [->|N5]; [reflexivity|].
  destruct (Z.eqb_spec cp 8) as [->|N6]; [reflexivity|].
  destruct (Z.eqb_spec cp 12) as [->|N7]; [reflexivity|].
  destruct ((32 <=? cp)%Z && (cp <=? 126)%Z) eqn:Hp.
  { bools. cbn [append]. rewrite utf8_one by lia.
    apply scanstring_plain.
    - change (ascii_of_nat 34) with (chr 34). rewrite chr_eqb by lia.
      now apply Z.eqb_neq.
    - change (ascii_of_nat 92) with (chr 92). rewrite chr_eqb by lia.
      now apply Z.eqb_neq.
    - rewrite byte_of_chr by lia. apply Z.ltb_ge. lia. }
  destruct (Z.ltb_spec cp 65536) as [Hb|Hb].
  { unfold backslash, hex4. cbn [append].
    apply scanstring_u.
    - apply hex4_value_hex. destruct Hs; lia.
    - destruct Hs; lia. }
  cbv zeta. unfold backslash, hex4. cbn [append].
  assert (R : (0 <= cp - 65536 < 1048576)%Z) by (destruct Hs; lia).
  rewrite (scanstring_pair _ _ _ _ _ _ _ _ (55296 + (cp - 65536) / 1024)%Z
             (56320 + (cp - 65536) mod 1024)%Z).
  - f_equal. f_equal. arith.
  - apply hex4_value_hex. arith.
  - arith.
  - apply hex4_value_hex. arith.
  - arith.
Qed.

Lemma scanstring_escapes : forall cps (rest : string),
  Forall scalar cps ->
  scanstring (flatten (map escape cps) ++ dquote ++ rest)%string
  = Some (flatten (map utf8 cps), rest).
Proof.
  induction cps as [|cp cps IH]; intros rest H.
  - reflexivity.
  - inversion H; subst. cbn [map flatten]. rewrite append_assoc.
    rewrite scanstring_escape by assumption. now rewrite IH.
Qed.

(** A string the encoder wrote is read back as it was. *)
Lemma scanstring_encoded s (rest : string) :
  is_text s = true ->
  (encode_string s ++ rest)%string
  = String (ascii_of_nat 34)
      (flatten (map escape (characters s)) ++ dquote ++ rest)%string /\
  scanstring (flatten (map escape (characters s)) ++ dquote ++ rest)%string
  = Some (s, rest).
Proof.
  intros H. apply characters_text in H as [H1 H2]. split.
  - unfold encode_string, dquote at 1. cbn [append]. now rewrite append_assoc.
  - rewrite scanstring_escapes by assumption. now rewrite H1.
Qed.

(** *** Numbers *)


Lemma span_digits_uint u (rest : string) :
  ends_number rest = true ->
  span_digits (NilEmpty.string_of_uint u ++ rest)%string
  = (NilEmpty.string_of_uint u, rest).
Proof.
  intros H. induction u; cbn [NilEmpty.string_of_uint append span_digits];
    try (change (is_digit _) with true; cbv iota; now rewrite IHu).
  destruct rest as [|c rest]; [reflexivity|].
  cbn [span_digits]. cbn [ends_number] in H. bools.
  now rewrite H.
Qed.

Lemma normal_no_leading_zero u u' :
  Decimal.nzhead u = u \/ Decimal.unorm u = u ->
  u = Decimal.D0 u' -> u' = Decimal.Nil.
Proof.
  intros H ->. destruct H as [H|H].
  - exfalso. exact (DecimalFacts.nzhead_nonzero _ _ H).
  - unfold Decimal.unorm in H. cbn [Decimal.nzhead] in H.
    destruct (Decimal.nzhead u') eqn:E; try (exfalso; rewrite <- E in H;
      exact (DecimalFacts.nzhead_nonzero _ _ H)).
    now inversion H.
Qed.

Lemma to_int_normal z : Decimal.norm (Z.to_int z) = Z.to_int z.
Proof. rewrite <- (DecimalZ.of_to z) at 2. now rewrite DecimalZ.to_of. Qed.

Lemma parse_digits u (rest : string) negative :
  u <> Decimal.Nil ->
  Decimal.nzhead u = u \/ Decimal.unorm u = u ->
  ends_number rest = true ->
  (let (ds, rest') := span_digits (NilEmpty.string_of_uint u ++ rest)%string in
   if float_follows rest' then None
   else
     match ds with
     | String "0" (String _ _) => None
     | _ =>
         match NilZero.uint_of_string ds with
         | Some u =>
             Some (JInt (Z.of_int (if negative : bool then Decimal.Neg u
                                   else Decimal.Pos u)), rest')
         | None => None
         end
     end)
  = Some (JInt (Z.of_int (if negative then Decimal.Neg u else Decimal.Pos u)),
          rest).
Proof.
  intros Hnil Hnorm Hend. rewrite span_digits_uint by assumption.
  assert (F : float_follows rest = false).
  { destruct rest; [reflexivity|]. cbn [ends_number] in Hend. bools.
    assumption. }
  rewrite F.
  assert (U : NilZero.uint_of_string (NilEmpty.string_of_uint u) = Some u).
  { rewrite <- (NilZero.usu u Hnil). now destruct u. }
  destruct u as [|u'|u'|u'|u'|u'|u'|u'|u'|u'|u']; try contradiction;
    try (cbn [NilEmpty.string_of_uint] in *; now rewrite U).
  rewrite (normal_no_leading_zero _ u' Hnorm eq_refl). reflexivity.
Qed.

Lemma uint_head_not_minus u (rest : string) :
  u <> Decimal.Nil ->
  exists c t, (NilEmpty.string_of_uint u ++ rest)%string = String c t /\
              is_digit c = true.
Proof.
  destruct u; try contradiction; intros _;
    cbn [NilEmpty.string_of_uint append]; eauto.
Qed.

Lemma parse_number_str z (rest : string) :
  ends_number rest = true ->
  parse_number (str_of_Z z ++ rest)%string = Some (JInt z, rest).
Proof.
  intros Hend. unfold str_of_Z.
  pose proof (to_int_normal z) as Hn. pose proof (DecimalZ.of_to z) as Hz.
  destruct (Z.to_int z) as [u|u]; cbn [NilZero.string_of_int].
  - cbn [Decimal.norm] in Hn.
    assert (Hu : Decimal.unorm u = u) by congruence.
    assert (Hnil : u <> Decimal.Nil).
    { intros ->. exact (DecimalFacts.unorm_nonnil _ Hu). }
    replace (NilZero.string_of_uint u) with (NilEmpty.string_of_uint u)
      by now destruct u.
    unfold parse_number.
    destruct (uint_head_not_minus u rest Hnil) as (c & t & E & D).
    rewrite E.
    assert (M : Ascii.eqb c "-" = false).
    { destruct (Ascii.eqb_spec c "-"); [subst c; discriminate | reflexivity]. }
    rewrite M, <- E.
    rewrite (parse_digits u rest false Hnil (or_intror Hu) Hend).
    now rewrite Hz.
  - cbn [Decimal.norm] in Hn.
    assert (Hu : Decimal.nzhead u = u /\ u <> Decimal.Nil).
    { destruct (Decimal.nzhead u) eqn:E; try discriminate;
        split; try congruence; intros ->; discriminate. }
    destruct Hu as [Hu Hnil].
    replace (NilZero.string_of_uint u) with (NilEmpty.string_of_uint u)
      by now destruct u.
    unfold parse_number. cbn [append].
    change (Ascii.eqb "-" "-") with true. cbv iota.
    rewrite (parse_digits u rest true Hnil (or_introl Hu) Hend).
    now rewrite Hz.
Qed.

(** *** Values *)

Lemma json_induction (P : json -> Prop) :
  P JNull -> (forall b, P (JBool b)) -> (forall z, P (JInt z)) ->
  (forall s, P (JStr s)) ->
  (forall l, Forall P l -> P (JList l)) ->
  (forall d, Forall (fun kv => P (snd kv)) d -> P (JObj d)) ->
  forall v, P v.
Proof.
  intros HN HB HI HS HL HO. fix IH 1. intros [| b | z | s | l | d].
  - exact HN.
  - apply HB.
  - apply HI.
  - apply HS.
  - apply HL. induction l as [|x l IHl]; constructor; [apply IH | exact IHl].
  - apply HO. induction d as [|[k x] d IHd]; constructor;
      [apply IH | exact IHd].
Qed.

Lemma length_append (a b : string) :
  String.length (a ++ b) = String.length a + String.length b.
Proof. induction a; simpl; congruence. Qed.

Lemma skip_ws_newline_indent level (t : string) :
  skip_ws (newline_indent level ++ t) = skip_ws t.
Proof.
  unfold newline_indent, nl. cbn [append skip_ws].
  change (is_ws (ascii_of_nat 10)) with true. cbv iota.
  induction level as [|level IH]; [reflexivity|].
  cbn [repeat_str append skip_ws]. change (is_ws " ") with true.
  cbv iota. exact IH.
Qed.

Lemma ends_number_newline_indent level (t : string) :
  ends_number (newline_indent level ++ t) = true.
Proof. reflexivity. Qed.


Lemma str_of_Z_head z (t : string) :
  exists c t', (str_of_Z z ++ t)%string = String c t' /\
               (c = "-"%char \/ is_digit c = true).
Proof.
  unfold str_of_Z. pose proof (to_int_normal z) as Hn.
  destruct (Z.to_int z) as [u|u]; cbn [NilZero.string_of_int].
  - destruct u; cbn [NilZero.string_of_uint NilEmpty.string_of_uint append];
      eauto.
  - cbn [append]. eauto.
Qed.

Lemma encode_string_head s (t : string) :
  (encode_string s ++ t)%string
  = String (ascii_of_nat 34)
      (flatten (map escape (characters s)) ++ dquote ++ t)%string.
Proof.
  unfold encode_string, dquote at 1. cbn [append]. now rewrite append_assoc.
Qed.

Lemma encode_head level v (t : string) :
  starts_value (encode level v ++ t).
Proof.
  unfold starts_value.
  destruct v as [| [|] | z | s | [|x l] | [|kv d]];
    try (cbn [encode append]; do 2 eexists; split; [reflexivity|];
         repeat split; reflexivity).
  - cbn [encode]. destruct (str_of_Z_head z t) as (c & t' & E & H).
    exists c, t'. split; [exact E|].
    destruct H as [->|H]; [repeat split; reflexivity|].
    unfold is_digit in H. cbv zeta in H. bools.
    assert (B : byte_of c <> 32%Z /\ byte_of c <> 9%Z /\ byte_of c <> 10%Z
                /\ byte_of c <> 13%Z /\ byte_of c <> 93%Z
                /\ byte_of c <> 125%Z) by lia.
    repeat split; unfold is_ws;
      repeat match goal with
             | |- context [Ascii.eqb c ?k] =>
                 destruct (Ascii.eqb_spec c k); [subst c; cbn in B; lia|]
             end; reflexivity.
Qed.

Lemma skip_ws_value (s : string) : starts_value s -> skip_ws s = s.
Proof. intros (c & t & -> & W & _). cbn [skip_ws]. now rewrite W. Qed.

Lemma join_head sep a l (t : string) :
  exists t', (str_join sep (a :: l) ++ t)%string = (a ++ t')%string.
Proof.
  destruct l as [|b l]; cbn [str_join]; [eauto|].
  rewrite append_assoc. eauto.
Qed.


Lemma parse_elements_items level : forall l,
  Forall reads l -> forallb well_formed l = true -> l <> [] ->
  forall fuel (rest : string),
    costs l <= fuel ->
    parse_elements fuel
      (str_join ("," ++ newline_indent (S level)) (map (encode (S level)) l)
       ++ newline_indent level ++ "]" ++ rest)
    = Some (l, rest).
Proof.
  induction l as [|x l IH]; intros HP Hwf Hne fuel rest Hfuel;
    [contradiction|].
  inversion HP as [|? ? Hx Hl]; subst.
  cbn [forallb] in Hwf. apply andb_true_iff in Hwf as [Wx Wl].
  unfold costs in Hfuel. cbn [fold_right] in Hfuel. fold (costs l) in Hfuel.
  destruct fuel as [|fuel]; [lia|]. cbn [parse_elements].
  destruct l as [|y l].
  - cbn [map str_join].
    rewrite (Hx Wx (S level) fuel) by (try lia; reflexivity).
    rewrite skip_ws_newline_indent. reflexivity.
  - set (J := str_join ("," ++ newline_indent (S level))
                (map (encode (S level)) (y :: l))) in *.
    assert (E : (str_join ("," ++ newline_indent (S level))
                   (map (encode (S level)) (x :: y :: l))
                 ++ newline_indent level ++ "]" ++ rest)%string
                = (encode (S level) x
                   ++ String "," (newline_indent (S level)
                                  ++ (J ++ newline_indent level ++ "]" ++ rest)))%string).
    { change (map (encode (S level)) (x :: y :: l))
        with (encode (S level) x :: map (encode (S level)) (y :: l)).
      change (str_join ?sep (?a :: map ?f (y :: l)))
        with (a ++ sep ++ str_join sep (map f (y :: l)))%string.
      fold J. now rewrite !append_assoc. }
    rewrite E.
    rewrite (Hx Wx (S level) fuel) by (try lia; reflexivity).
    cbn [skip_ws]. change (is_ws ",") with false. cbv iota.
    change (Ascii.eqb "," "]") with false.
    change (Ascii.eqb "," ",") with true. cbv iota.
    rewrite skip_ws_newline_indent.
    assert (S_ : skip_ws (J ++ newline_indent level ++ "]" ++ rest)
                 = (J ++ newline_indent level ++ "]" ++ rest)%string).
    { subst J. cbn [map].
      destruct (join_head ("," ++ newline_indent (S level))
                  (encode (S level) y) (map (encode (S level)) l)
                  (newline_indent level ++ "]" ++ rest))
        as [t' ->].
      apply skip_ws_value, encode_head. }
    rewrite S_. subst J.
    rewrite (IH Hl Wl) by (try discriminate; lia).
    reflexivity.
Qed.

Lemma parse_members_items level : forall d,
  Forall (fun kv => reads (snd kv)) d ->
  forallb (fun kv => is_text (fst kv) && well_formed (snd kv)) d = true ->
  d <> [] ->
  forall fuel (rest : string),
    member_costs d <= fuel ->
    parse_members fuel
      (str_join ("," ++ newline_indent (S level))
         (map (fun kv => (encode_string (fst kv) ++ ": "
                          ++ encode (S level) (snd kv))%string) d)
       ++ newline_indent level ++ "}" ++ rest)
    = Some (d, rest).
Proof.
  induction d as [|[k x] d IH]; intros HP Hwf Hne fuel rest Hfuel;
    [contradiction|].
  inversion HP as [|? ? Hx Hd]; subst. cbn [snd] in Hx.
  cbn [forallb fst snd] in Hwf. apply andb_true_iff in Hwf as [Wx Wd].
  apply andb_true_iff in Wx as [Wk Wx].
  unfold member_costs in Hfuel. cbn [fold_right snd] in Hfuel.
  fold (member_costs d) in Hfuel.
  destruct fuel as [|fuel]; [lia|].
  set (member := fun kv : string * json =>
                   (encode_string (fst kv) ++ ": "
                    ++ encode (S level) (snd kv))%string) in *.
  assert (Step : forall tail : string,
             ends_number tail = true ->
             exists body,
               (member (k, x) ++ tail)%string
               = String (ascii_of_nat 34) body /\
               scanstring body
               = Some (k, String ":" (String " " (encode (S level) x ++ tail)))
               /\ parse_value fuel (encode (S level) x ++ tail)
                  = Some (x, tail)).
  { intros tail Htail. subst member. cbn [fst snd].
    rewrite append_assoc.
    destruct (scanstring_encoded k
                (": " ++ encode (S level) x ++ tail) Wk) as [E1 E2].
    rewrite append_assoc. rewrite E1. eexists. split; [reflexivity|].
    split; [exact E2|]. apply Hx; [assumption | lia | assumption]. }
  assert (Skip : forall tail : string,
             skip_ws (String " " (encode (S level) x ++ tail))
             = (encode (S level) x ++ tail)%string).
  { intros tail. cbn [skip_ws]. change (is_ws " ") with true. cbv iota.
    apply skip_ws_value, encode_head. }
  destruct d as [|kv d].
  - cbn [map str_join].
    destruct (Step (newline_indent level ++ "}" ++ rest)%string eq_refl)
      as (body & E & Sc & Pv).
    rewrite E. cbn [parse_members].
    change (Ascii.eqb (ascii_of_nat 34) (ascii_of_nat 34)) with true.
    cbv iota. rewrite Sc. cbn [skip_ws]. change (is_ws ":") with false.
    cbv iota. change (Ascii.eqb ":" ":") with true. cbv iota.
    rewrite Skip, Pv. rewrite skip_ws_newline_indent. reflexivity.
  - set (J := str_join ("," ++ newline_indent (S level)) (map member (kv :: d)))
      in *.
    assert (E0 : (str_join ("," ++ newline_indent (S level))
                    (map member ((k, x) :: kv :: d))
                  ++ newline_indent level ++ "}" ++ rest)%string
                 = (member (k, x)
                    ++ String "," (newline_indent (S level)
                                   ++ (J ++ newline_indent level ++ "}" ++ rest)))%string).
    { change (map member ((k, x) :: kv :: d))
        with (member (k, x) :: map member (kv :: d)).
      change (str_join ?sep (?a :: map ?f (kv :: d)))
        with (a ++ sep ++ str_join sep (map f (kv :: d)))%string.
      fold J. now rewrite !append_assoc. }
    rewrite E0.
    destruct (Step (String "," (newline_indent (S level)
                                ++ (J ++ newline_indent level ++ "}" ++ rest)))%string
                eq_refl) as (body & E & Sc & Pv).
    rewrite E. cbn [parse_members].
    change (Ascii.eqb (ascii_of_nat 34) (ascii_of_nat 34)) with true.
    cbv iota. rewrite Sc. cbn [skip_ws]. change (is_ws ":") with false.
    cbv iota. change (Ascii.eqb ":" ":") with true. cbv iota.
    rewrite Skip, Pv. cbn [skip_ws]. change (is_ws ",") with false.
    cbv iota. change (Ascii.eqb "," "}") with false.
    change (Ascii.eqb "," ",") with true. cbv iota.
    rewrite skip_ws_newline_indent.
    assert (S_ : skip_ws (J ++ newline_indent level ++ "}" ++ rest)
                 = (J ++ newline_indent level ++ "}" ++ rest)%string).
    { subst J. cbn [map].
      destruct (join_head ("," ++ newline_indent (S level))
                  (member kv) (map member d)
                  (newline_indent level ++ "}" ++ rest))
        as [t' ->].
      subst member. cbv beta. rewrite append_assoc, encode_string_head.
      cbn [skip_ws]. reflexivity. }
    rewrite S_. subst J.
    rewrite (IH Hd Wd) by (try discriminate; lia).
    reflexivity.
Qed.

Lemma dict_set_fresh k v : forall acc,
  (forall a, In a (keys acc) -> String.eqb k a = false) ->
  dict_set k v acc = acc ++ [(k, v)].
Proof.
  induction acc as [|[a w] acc IH]; intros H; [reflexivity|].
  cbn [dict_set]. rewrite (H a) by now left.
  cbn [app]. f_equal. apply IH. intros b Hb. apply H. now right.
Qed.

Lemma distinct_fresh k : forall l l',
  distinct (l ++ k :: l') = true ->
  forall a, In a l -> String.eqb k a = false.
Proof.
  induction l as [|b l IH]; intros l' H a Ha; [contradiction|].
  cbn [app distinct] in H. apply andb_true_iff in H as [H1 H2].
  destruct Ha as [->|Ha]; [|now apply (IH l')].
  apply negb_true_iff in H1.
  destruct (String.eqb k a) eqn:E; [|reflexivity].
  apply String.eqb_eq in E. subst k.
  assert (X : existsb (String.eqb a) (l ++ a :: l') = true).
  { apply existsb_exists. exists a. split.
    - apply in_or_app. right. now left.
    - apply String.eqb_refl. }
  congruence.
Qed.

(** [dict(pairs)] of pairs with distinct keys is the pairs. *)
Lemma dict_of_distinct : forall pairs acc,
  distinct (keys (acc ++ pairs)) = true ->
  fold_left (fun d kv => dict_set (fst kv) (snd kv) d) pairs acc
  = acc ++ pairs.
Proof.
  induction pairs as [|[k v] pairs IH]; intros acc H.
  - now rewrite app_nil_r.
  - cbn [fold_left fst snd].
    rewrite dict_set_fresh.
    + rewrite IH; rewrite <- app_assoc; [reflexivity | exact H].
    + unfold keys in H. rewrite map_app in H. cbn [map fst] in H.
      exact (distinct_fresh k _ _ H).
Qed.

(** The decoder reads the text of a well-formed value back as the
    value, whatever follows it. *)
Lemma parse_value_encode : forall v, reads v.
Proof.
  induction v as [| b | z | s | l IHl | d IHd] using json_induction;
    intros Hwf level fuel rest Hfuel Hend;
    (destruct fuel as [|fuel]; [cbn [cost] in Hfuel; lia|]).
  - reflexivity.
  - destruct b; reflexivity.
  - cbn [encode]. destruct (str_of_Z_head z rest) as (c & t & E & H).
    cbn [parse_value]. rewrite E.
    assert (D : Ascii.eqb c (ascii_of_nat 34) = false
                /\ Ascii.eqb c "{" = false /\ Ascii.eqb c "[" = false
                /\ Ascii.eqb c "n" = false /\ Ascii.eqb c "t" = false
                /\ Ascii.eqb c "f" = false).
    { destruct H as [->|H]; [repeat split; reflexivity|].
      unfold is_digit in H. cbv zeta in H. bools.
      repeat split;
        match goal with
        | |- Ascii.eqb c ?k = false =>
            destruct (Ascii.eqb_spec c k); [subst c; cbn in *; lia|]
        end; reflexivity. }
    destruct D as (-> & -> & -> & -> & -> & ->).
    rewrite <- E. now apply parse_number_str.
  - cbn [encode well_formed] in *.
    destruct (scanstring_encoded s rest Hwf) as [E1 E2].
    rewrite E1. cbn [parse_value].
    change (Ascii.eqb (ascii_of_nat 34) (ascii_of_nat 34)) with true.
    cbv iota. now rewrite E2.
  - cbn [well_formed] in Hwf.
    destruct l as [|x l]; [reflexivity|].
    cbn [cost] in Hfuel. fold (costs (x :: l)) in Hfuel.
    set (J := str_join ("," ++ newline_indent (S level))
                (map (encode (S level)) (x :: l))).
    assert (E : (encode level (JList (x :: l)) ++ rest)%string
                = String "[" (newline_indent (S level)
                              ++ (J ++ newline_indent level ++ "]" ++ rest))%string).
    { cbn [encode]. fold J. cbn [append]. now rewrite !append_assoc. }
    rewrite E. cbn [parse_value].
    change (Ascii.eqb "[" (ascii_of_nat 34)) with false.
    change (Ascii.eqb "[" "{") with false.
    change (Ascii.eqb "[" "[") with true. cbv iota.
    rewrite skip_ws_newline_indent.
    assert (H : starts_value (J ++ newline_indent level ++ "]" ++ rest)).
    { subst J. cbn [map].
      destruct (join_head ("," ++ newline_indent (S level))
                  (encode (S level) x) (map (encode (S level)) l)
                  (newline_indent level ++ "]" ++ rest))
        as [t' ->].
      apply encode_head. }
    rewrite (skip_ws_value _ H).
    destruct H as (c & t & Ec & _ & Hc & _). rewrite Ec, Hc, <- Ec.
    subst J. rewrite (parse_elements_items level (x :: l) IHl Hwf)
      by (try discriminate; lia).
    reflexivity.
  - cbn [well_formed] in Hwf. apply andb_true_iff in Hwf as [Hk Hwf].
    destruct d as [|kv d]; [reflexivity|].
    cbn [cost] in Hfuel. fold (member_costs (kv :: d)) in Hfuel.
    set (member := fun kv : string * json =>
                     (encode_string (fst kv) ++ ": "
                      ++ encode (S level) (snd kv))%string).
    set (J := str_join ("," ++ newline_indent (S level))
                (map member (kv :: d))).
    assert (E : (encode level (JObj (kv :: d)) ++ rest)%string
                = String "{" (newline_indent (S level)
                              ++ (J ++ newline_indent level ++ "}" ++ rest))%string).
    { cbn [encode]. fold member. fold J. cbn [append].
      now rewrite !append_assoc. }
    rewrite E. cbn [parse_value].
    change (Ascii.eqb "{" (ascii_of_nat 34)) with false.
    change (Ascii.eqb "{" "{") with true. cbv iota.
    rewrite skip_ws_newline_indent.
    assert (H : exists t, (J ++ newline_indent level ++ "}" ++ rest)%string
                          = String (ascii_of_nat 34) t).
    { subst J. cbn [map].
      destruct (join_head ("," ++ newline_indent (S level))
                  (member kv) (map member d)
                  (newline_indent level ++ "}" ++ rest))
        as [t' ->].
      subst member. cbv beta. rewrite append_assoc, encode_string_head.
      eauto. }
    destruct H as [t Et]. rewrite Et. cbn [skip_ws].
    change (is_ws (ascii_of_nat 34)) with false. cbv iota.
    change (Ascii.eqb (ascii_of_nat 34) "}") with false. cbv iota.
    rewrite <- Et. subst J member.
    rewrite (parse_members_items level (kv :: d) IHd Hwf)
      by (try discriminate; lia).
    cbn [on_value]. unfold dict_of.
    rewrite (dict_of_distinct (kv :: d) []) by exact Hk.
    reflexivity.
Qed.

Lemma encode_nonempty level v : 1 <= String.length (encode level v).
Proof.
  destruct (encode_head level v "") as (c & t & E & _).
  assert (A : forall a : string, (a ++ "")%string = a)
    by (induction a; simpl; congruence).
  rewrite A in E. rewrite E. simpl. lia.
Qed.

Lemma join_length sep (enc : json -> string) (count : json -> nat) :
  1 <= String.length sep ->
  forall l, Forall (fun x => count x <= String.length (enc x)) l ->
    fold_right (fun x n => S (count x + n)) 0 l
    <= S (String.length (str_join sep (map enc l))).
Proof.
  intros Hsep. induction l as [|x l IH]; intros H; [simpl; lia|].
  inversion H as [|? ? Hx Hl]; subst. specialize (IH Hl).
  cbn [fold_right map]. destruct l as [|y l].
  - cbn [fold_right str_join map]. lia.
  - change (str_join sep (enc x :: map enc (y :: l)))
      with (enc x ++ sep ++ str_join sep (map enc (y :: l)))%string.
    rewrite !length_append. lia.
Qed.

(** The length of the text is fuel enough. *)
Lemma cost_le_length : forall v level,
  cost v <= String.length (encode level v).
Proof.
  induction v as [| b | z | s | l IHl | d IHd] using json_induction;
    intros level; try exact (encode_nonempty level _).
  - destruct l as [|x l]; [simpl; lia|].
    cbn [cost]. 
    pose proof (join_length ("," ++ newline_indent (S level))
                  (encode (S level)) cost) as J.
    specialize (J ltac:(simpl; lia) (x :: l)).
    assert (F : Forall (fun x => cost x <= String.length (encode (S level) x))
                  (x :: l)).
    { eapply Forall_impl; [|exact IHl]. intros a Ha. apply Ha. }
    specialize (J F).
    change (encode level (JList (x :: l)))
      with ("[" ++ newline_indent (S level)
            ++ str_join ("," ++ newline_indent (S level))
                 (map (encode (S level)) (x :: l))
            ++ newline_indent level ++ "]")%string.
    rewrite !length_append. cbn [String.length]. lia.
  - destruct d as [|kv d]; [simpl; lia|].
    cbn [cost].
    set (member := fun kv : string * json =>
                     (encode_string (fst kv) ++ ": "
                      ++ encode (S level) (snd kv))%string).
    assert (J : fold_right (fun kv n => S (cost (snd kv) + n)) 0 (kv :: d)
                <= S (String.length
                        (str_join ("," ++ newline_indent (S level))
                           (map member (kv :: d))))).
    { clear - IHd. set (sep := ("," ++ newline_indent (S level))%string).
      assert (Hsep : 1 <= String.length sep) by (simpl; lia).
      clearbody sep.
      induction IHd as [|a l Ha Hl IH]; [simpl; lia|].
      cbn [fold_right map]. destruct l as [|b l].
      - cbn [fold_right str_join map]. subst member. cbv beta.
        rewrite !length_append. specialize (Ha (S level)). lia.
      - change (str_join sep (member a :: map member (b :: l)))
          with (member a ++ sep ++ str_join sep (map member (b :: l)))%string.
        rewrite !length_append. subst member. cbv beta.
        rewrite !length_append. specialize (Ha (S level)). lia. }
    change (encode level (JObj (kv :: d)))
      with ("{" ++ newline_indent (S level)
            ++ str_join ("," ++ newline_indent (S level))
                 (map member (kv :: d))
            ++ newline_indent level ++ "}")%string.
    rewrite !length_append. cbn [String.length]. lia.
Qed.

Theorem loads_dumps v : well_formed v = true -> loads (dumps v) = Some v.
Proof.
  intros Hwf. unfold loads, dumps.
  assert (A : forall a : string, (a ++ "")%string = a)
    by (induction a; simpl; congruence).
  pose proof (encode_head 0 v "") as H. rewrite A in H.
  rewrite (skip_ws_value _ H).
  pose proof (parse_value_encode v Hwf 0 (String.length (encode 0 v)) ""
                (cost_le_length v 0) eq_refl) as P.
  rewrite A in P. rewrite P. reflexivity.
Qed.

(** ** The GET helper *)

Section Verification.

Variable py_int : string -> option Z.
Variable py_repr : json -> string.
Variable urljoin : string -> string -> outcome string.
Variable server : string -> response.

Lemma log_log st a b : log (log st a) b = log st (a ++ b).
Proof. unfold log. simpl. now rewrite app_assoc. Qed.

Lemma log_nil st : log st [] = st.
Proof. unfold log. rewrite app_nil_r. now destruct st. Qed.

(** [get] in closed form: the exception of [urljoin], raised before
    anything is done; or one request, then the body, or the report on
    the error stream and [sys.exit(1)]. *)
Lemma get_run self endpoint st :
  get urljoin server self endpoint st =
  match urljoin (api_base self) endpoint with
  | Val url =>
      match server url with
      | Ok body => (log st [Request url], Ret body)
      | Failed msg text =>
          (log st (Request url :: failure_report url msg text), Exit 1)
      end
  | Err e => (st, Raise e)
  end.
Proof.
  unfold get, bind, lift, emit, eprint, sys_exit, ret, failure_report, log.
  destruct (urljoin _ _) as [url|e]; [|reflexivity].
  destruct (server _) as [body|msg [t|]]; simpl; try reflexivity;
    repeat rewrite <- app_assoc; reflexivity.
Qed.

(** [get] raises only what [urljoin] raises, and then it has done
    nothing. *)
Lemma get_raise_inv self endpoint st st' e :
  get urljoin server self endpoint st = (st', Raise e) ->
  st' = st /\ urljoin (api_base self) endpoint = Err e.
Proof.
  rewrite get_run. destruct (urljoin _ _) as [url|e'].
  - destruct (server _); discriminate.
  - intros H. inversion H. auto.
Qed.

Lemma get_joined self endpoint url st :
  urljoin (api_base self) endpoint = Val url ->
  get urljoin server self endpoint st =
  match server url with
  | Ok body => (log st [Request url], Ret body)
  | Failed msg text =>
      (log st (Request url :: failure_report url msg text), Exit 1)
  end.
Proof. intros H. rewrite get_run. now rewrite H. Qed.


Lemma requests_failure_report url msg text :
  requests (failure_report url msg text) = [].
Proof. now destruct text. Qed.


(** ** Resolving the identifier *)


Lemma resolve_by_id_run self ident n url st :
  py_int ident = Some n ->
  urljoin (api_base self) ("organizations/" ++ str_of_Z n ++ "/") = Val url ->
  resolve_organization py_int py_repr urljoin server self ident st = get_organization_by_id urljoin server self n st.
Proof.
  intros Hn Hjoin. unfold resolve_organization, try_except. rewrite Hn.
  destruct (get_organization_by_id _ _ _ _ _) as [st1 [a|e|c]] eqn:G;
    try reflexivity.
  exfalso. apply get_raise_inv in G as [_ G]. congruence.
Qed.


Lemma resolve_by_name_run self ident st :
  py_int ident = None ->
  resolve_organization py_int py_repr urljoin server self ident st = get_organization_by_name urljoin server self ident st.
Proof.
  intros Hn. unfold resolve_organization, try_except, raise.
  now rewrite Hn.
Qed.

Lemma get_organization_by_name_run self name url body results st :
  urljoin (api_base self) ("organizations/?name=" ++ name) = Val url ->
  server url = Ok body ->
  Py.get body "results" (JList []) = Val (JList results) ->
  get_organization_by_name urljoin server self name st
  = (log st [Request url],
     match results with first :: _ => Ret first | [] => Ret JNull end).
Proof.
  intros Hjoin Hbody Hres.
  unfold get_organization_by_name, bind, lift, ret.
  rewrite (get_joined _ _ _ _ Hjoin). rewrite Hbody, Hres.
  now destruct results.
Qed.

Lemma inspect_not_found_run self ident url body st :
  py_int ident = None ->
  urljoin (api_base self) ("organizations/?name=" ++ ident) = Val url ->
  server url = Ok body ->
  Py.get body "results" (JList []) = Val (JList []) ->
  inspect_organization py_int py_repr urljoin server self ident st
  = (log st [Request url; Stderr ("Organization '" ++ ident ++ "' not found.")],
     Exit 1).
Proof.
  intros Hn Hjoin Hbody Hres.
  unfold inspect_organization.
  unfold bind at 1. fold (resolve_organization py_int py_repr urljoin server self ident).
  rewrite (resolve_by_name_run _ _ _ Hn).
  rewrite (get_organization_by_name_run _ _ _ _ _ _ Hjoin Hbody Hres).
  unfold bind, eprint, emit, sys_exit, log. simpl.
  now rewrite <- app_assoc.
Qed.


(** ** The process *)

Lemma or_prompt_run value text st :
  or_prompt value text st
  = (log st match value with
            | Some (String _ _) => []
            | _ => [Prompt text]
            end, Ret tt).
Proof.
  unfold or_prompt, emit, ret.
  destruct value as [[|c s]|]; now rewrite ?log_nil.
Qed.

Variable open_for_writing : string -> outcome unit.
Variable parse_args : list string -> parsed.

Lemma run_parser_parsed argv args st :
  parse_args argv = Parsed args ->
  run_parser parse_args argv st = (st, Ret args).
Proof. intros H. unfold run_parser. now rewrite H. Qed.

(** C7: when [int] rejects the identifier and the name query yields an
    empty result list, [main] exits with status 1; the last thing it
    did was to print the diagnostic on the error stream, and it wrote
    no file, whatever [--export] says. *)
Theorem main_not_found argv args st url body :
  parse_args argv = Parsed args ->
  py_int (arg_organization args) = None ->
  urljoin (api_base (new_client (arg_url args)))
    ("organizations/?name=" ++ arg_organization args) = Val url ->
  server url = Ok body ->
  Py.get body "results" (JList []) = Val (JList []) ->
  let st' := log st (prompts args
                     ++ [Request url;
                         Stderr ("Organization '" ++ arg_organization args
                                 ++ "' not found.")]) in
  main py_int py_repr urljoin server open_for_writing parse_args argv st
  = (st', Exit 1) /\
  exit_code (snd (main py_int py_repr urljoin server open_for_writing
                    parse_args argv st)) = 1%Z /\
  filter is_write (trace st') = filter is_write (trace st).
Proof.
  intros Hargs Hint Hjoin Hbody Hres st'.
  assert (E : main py_int py_repr urljoin server open_for_writing parse_args
                argv st = (st', Exit 1)).
  { unfold main. unfold bind at 1. rewrite (run_parser_parsed _ _ _ Hargs).
    unfold bind at 1. rewrite or_prompt_run.
    unfold bind at 1. rewrite or_prompt_run.
    unfold bind at 1.
    rewrite (inspect_not_found_run _ _ _ _ _ Hint Hjoin Hbody Hres).
    f_equal. subst st'. rewrite !log_log. unfold prompts.
    now rewrite <- app_assoc. }
  split; [exact E|]. split; [now rewrite E|].
  subst st'. unfold log. cbn [trace]. rewrite filter_app.
  assert (P : filter is_write (prompts args ++ [Request url;
                Stderr ("Organization '" ++ arg_organization args ++ "' not found.")])
              = []).
  { unfold prompts. destruct (arg_username args) as [[|? ?]|];
      destruct (arg_password args) as [[|? ?]|]; reflexivity. }
  rewrite P. apply app_nil_r.
Qed.

(** ** The exported file *)

Lemma export_to_json_run data path st :
  export_to_json open_for_writing data path st
  = match open_for_writing path with
    | Val _ =>
        (log st [WriteFile path (dumps data);
                 Stdout (nl ++ "Data exported to: " ++ path)], Ret tt)
    | Err e => (st, Raise e)
    end.
Proof.
  unfold export_to_json, bind, lift, print, emit, log.
  destruct (open_for_writing path); [|reflexivity].
  cbn [trace dependencies]. now rewrite <- app_assoc.
Qed.

(** C8: what [export_to_json] writes for a report is a text that
    [json.loads] reads back as that very report, so with the same
    organization fields and the same dependency keys and values. *)
Theorem export_round_trip report path st :
  well_formed report = true ->
  open_for_writing path = Val tt ->
  exists text,
    export_to_json open_for_writing report path st
    = (log st [WriteFile path text;
               Stdout (nl ++ "Data exported to: " ++ path)], Ret tt) /\
    loads text = Some report /\
    forall organization dependencies,
      report = JObj [("organization", organization);
                     ("dependencies", JObj dependencies)] ->
      exists loaded,
        loads text = Some loaded /\
        Py.getitem loaded "organization" = Val organization /\
        Py.getitem loaded "dependencies" = Val (JObj dependencies).
Proof.
  intros Hwf Hopen. exists (dumps report).
  rewrite export_to_json_run, Hopen.
  split; [reflexivity|]. split; [now apply loads_dumps|].
  intros organization dependencies ->. eexists.
  split; [now apply loads_dumps|]. split; reflexivity.
Qed.

(** ** Running monadic code *)

Lemma bind_inv {A B} (m : M A) (k : A -> M B) st st' r :
  bind m k st = (st', r) ->
  (exists a st1, m st = (st1, Ret a) /\ k a st1 = (st', r)) \/
  (exists e, m st = (st', Raise e) /\ r = Raise e) \/
  (exists c, m st = (st', Exit c) /\ r = Exit c).
Proof.
  unfold bind. destruct (m st) as [st1 [a|e|c]]; intros H.
  - left. eauto.
  - right. left. inversion H. eauto.
  - right. right. inversion H. eauto.
Qed.

Lemma bind_ret_run {A B} (m : M A) (k : A -> M B) st st1 a :
  m st = (st1, Ret a) -> bind m k st = k a st1.
Proof. unfold bind. now intros ->. Qed.

(** A property of the state that a loop body keeps, whatever its
    outcome, is kept by the loop. *)
Lemma for_each_keeps {A} (P : state -> Prop) (body : A -> M unit) :
  forall l,
    (forall x st st' r, In x l -> P st -> body x st = (st', r) -> P st') ->
    forall st st' r, P st -> for_each l body st = (st', r) -> P st'.
Proof.
  induction l as [|x l IH]; intros Hbody st st' r HP H.
  - inversion H. now subst.
  - cbn [for_each] in H.
    apply bind_inv in H as [(a & st1 & H1 & H2) | [(e & H1 & _) | (c & H1 & _)]].
    + eapply IH; [| |exact H2].
      * intros. eapply Hbody; eauto. now right.
      * eapply Hbody; eauto. now left.
    + eapply Hbody; eauto. now left.
    + eapply Hbody; eauto. now left.
Qed.

(** ** The preview of one resource type *)

Lemma record_item_run field item st l :
  dict_get field (dependencies st) = Some (JList l) ->
  record_item py_repr field item st =
  match item with
  | JObj d =>
      (State (dict_set field (JList (l ++ [summary_of d])) (dependencies st))
             (trace st ++
              [Stdout ("    - [" ++ py_str py_repr (default (JStr "N/A") (dict_get "id" d))
                       ++ "] "
                       ++ py_str py_repr
                            (default (default (JStr "N/A") (dict_get "username" d))
                                     (dict_get "name" d)))]),
       Ret tt)
  | _ => (st, Raise (Py.no_attribute item "get"))
  end.
Proof.
  intros Hl. unfold record_item.
  destruct item; try reflexivity.
  unfold dep_append, get_dependencies, set_dependencies, print, emit, lift, bind.
  cbn [Py.get dependencies trace]. rewrite Hl. reflexivity.
Qed.

Lemma summary_of_is_summary d : is_summary (summary_of d).
Proof. unfold is_summary, summary_of. eauto. Qed.

(** The preview loop appends a summary per item, up to the first item
    that is not a dictionary; it never leaves the process. *)
Lemma record_items_spec field : forall items st l st' r,
  dict_get field (dependencies st) = Some (JList l) ->
  for_each items (record_item py_repr field) st = (st', r) ->
  exists sums,
    Forall is_summary sums /\
    (List.length sums <= List.length items)%nat /\
    dependencies st' = dict_set field (JList (l ++ sums)) (dependencies st) /\
    (forall c, r <> Exit c).
Proof.
  induction items as [|item items IH]; intros st l st' r Hl H.
  - inversion H; subst. exists []. repeat split; auto.
    + rewrite app_nil_r. symmetry. now apply dict_set_same.
    + discriminate.
  - cbn [for_each] in H. unfold bind in H.
    rewrite (record_item_run _ _ _ _ Hl) in H.
    assert (Stop : forall e, (st, Raise e) = (st', r) ->
              exists sums,
                Forall is_summary sums /\
                (List.length sums <= List.length (item :: items))%nat /\
                dependencies st' = dict_set field (JList (l ++ sums)) (dependencies st) /\
                (forall c, r <> Exit c)).
    { intros e He. inversion He; subst. exists []. repeat split.
      - constructor.
      - simpl. lia.
      - rewrite app_nil_r. symmetry. now apply dict_set_same.
      - discriminate. }
    destruct item as [| | | | |d]; try (eapply Stop; exact H). clear Stop.
    eapply IH in H; [|simpl; apply dict_get_set_same].
    destruct H as (sums & Hs & Hlen & Hd & Hx).
    exists (summary_of d :: sums). repeat split; auto.
    + constructor; auto. apply summary_of_is_summary.
    + simpl. lia.
    + rewrite Hd. simpl. rewrite dict_set_set, <- app_assoc. reflexivity.
Qed.

Lemma lift_ret_inv {A} (x : outcome A) st st' a :
  lift x st = (st', Ret a) -> st' = st /\ x = Val a.
Proof. unfold lift. destruct x; intros H; inversion H; auto. Qed.

Lemma lift_raise_inv {A} (x : outcome A) st st' e :
  lift x st = (st', Raise e) -> st' = st /\ x = Err e.
Proof. unfold lift. destruct x; intros H; inversion H; auto. Qed.

Lemma lift_exit_inv {A} (x : outcome A) st st' c :
  lift x st = (st', Exit c) -> False.
Proof. unfold lift. destruct x; intros H; inversion H. Qed.

Lemma print_run text st : print text st = (log st [Stdout text], Ret tt).
Proof. reflexivity. Qed.

Lemma firstn_length_le {A} n (l : list A) : (List.length (firstn n l) <= n)%nat.
Proof. rewrite length_firstn. lia. Qed.

Lemma slice_to_length n v items :
  Py.slice_to n v = Val items -> (List.length items <= n)%nat.
Proof.
  destruct v; simpl; intros H; inversion H; subst.
  - rewrite length_map. apply firstn_length_le.
  - apply firstn_length_le.
Qed.

(** What the body of the [try] does for one resource type: it leaves
    [dependencies] alone, or, the first page being listed, sets the
    type's key to a list of at most five summaries; it leaves the
    process only when the request for the page fails, with status 1. *)
Lemma list_resource_spec self related field st st' r :
  list_resource py_repr urljoin server self related field st = (st', r) ->
  (dependencies st' = dependencies st \/
   exists page sums,
     page_of urljoin server self related field = Some page /\
     listed page = true /\
     Forall is_summary sums /\ (List.length sums <= 5)%nat /\
     dependencies st' = dict_set field (JList sums) (dependencies st)) /\
  (forall c, r = Exit c ->
     c = 1%Z /\
     exists link endpoint url msg text,
       Py.getitem related field = Val (JStr link) /\
       related_endpoint link = Some endpoint /\
       urljoin (api_base self) endpoint = Val url /\
       server url = Failed msg text).
Proof.
  intros H. unfold list_resource in H.
  (* link = related_fields[field] *)
  apply bind_inv in H as [(link & st1 & H1 & H) | [(e & H1 & ->) | (c & H1 & ->)]];
    [ apply lift_ret_inv in H1 as [-> Hlink]
    | apply lift_raise_inv in H1 as [-> _]; split; [now left | discriminate]
    | now apply lift_exit_inv in H1 ].
  (* data = get_related_data(link) *)
  apply bind_inv in H as [(data & st1 & H1 & H) | [(e & H1 & ->) | (c & H1 & ->)]].
  2: { split; [|discriminate]. left.
       unfold get_related_data in H1.
       destruct link; try (now inversion H1).
       destruct (related_endpoint s); [|now inversion H1].
       now apply get_raise_inv in H1 as [-> _]. }
  2: { unfold get_related_data in H1.
       destruct link as [| | |url| |]; try (now inversion H1).
       destruct (related_endpoint url) as [endpoint|] eqn:Hend; [|now inversion H1].
       rewrite get_run in H1.
       destruct (urljoin _ _) as [u|e] eqn:Hjoin; [|discriminate].
       destruct (server _) as [body|msg text] eqn:Hsrv; inversion H1; subst.
       split; [now left|]. intros c' Hc. inversion Hc. split; [reflexivity|].
       exists url, endpoint, u, msg, text. auto. }
  assert (Hdata : dependencies st1 = dependencies st /\
                  (forall d, data = JObj d ->
                     page_of urljoin server self related field = Some data)).
  { unfold get_related_data in H1.
    destruct link as [| | |url| |]; try (now inversion H1).
    unfold page_of. rewrite Hlink.
    destruct (related_endpoint url) as [endpoint|] eqn:Hend.
    - rewrite get_run in H1.
      destruct (urljoin _ _) as [u|e] eqn:Hjoin; [|discriminate].
      destruct (server _) as [body|msg text] eqn:Hsrv; inversion H1; subst.
      split; auto.
    - inversion H1; subst. split; [reflexivity|]. discriminate. }
  destruct Hdata as [Hdeps Hpage]. clear H1.
  (* count = data.get('count', 0) *)
  apply bind_inv in H as [(count & st2 & H1 & H) | [(e & H1 & ->) | (c & H1 & ->)]];
    [ apply lift_ret_inv in H1 as [-> Hcount]
    | apply lift_raise_inv in H1 as [-> _]; split; [now left | discriminate]
    | now apply lift_exit_inv in H1 ].
  destruct data as [| | | | |d]; try discriminate. simpl in Hcount.
  inversion Hcount as [Hc]. clear Hcount.
  specialize (Hpage d eq_refl).
  (* print, count > 0 *)
  apply bind_inv in H as [([] & st2 & H1 & H) | [(e & H1 & ->) | (c & H1 & ->)]];
    rewrite print_run in H1; inversion H1; subst st2; clear H1.
  apply bind_inv in H as [(positive & st2 & H1 & H) | [(e & H1 & ->) | (c & H1 & ->)]];
    [ apply lift_ret_inv in H1 as [-> Hpos]
    | apply lift_raise_inv in H1 as [-> _]; split; [now left | discriminate]
    | now apply lift_exit_inv in H1 ].
  set (st2 := log st1 _) in H.
  assert (Hd2 : dependencies st2 = dependencies st) by exact Hdeps.
  clearbody st2. clear Hdeps st1.
  (* 'results' in data *)
  apply bind_inv in H as [(is_listed & st3 & H1 & H) | [(e & H1 & ->) | (c & H1 & ->)]].
  2: { destruct positive; [apply lift_raise_inv in H1 as [-> _] | inversion H1];
       split; [now left | discriminate]. }
  2: { destruct positive; [now apply lift_exit_inv in H1 | inversion H1]. }
  assert (Hl : st3 = st2 /\ is_listed = (positive && dict_mem "results" d)%bool).
  { destruct positive.
    - apply lift_ret_inv in H1 as [-> H1]. inversion H1. auto.
    - inversion H1. auto. }
  destruct Hl as [-> ->]. clear H1.
  destruct (positive && dict_mem "results" d)%bool eqn:Hlisted.
  2: { inversion H; subst. split; [now left | discriminate]. }
  apply andb_true_iff in Hlisted as [-> Hres].
  assert (Hlst : listed (JObj d) = true).
  { unfold listed, default. rewrite Hc, Hpos. exact Hres. }
  assert (Set_ : forall st4 sums,
             Forall is_summary sums -> (List.length sums <= 5)%nat ->
             dependencies st4 = dict_set field (JList sums) (dependencies st) ->
             dependencies st4 = dependencies st \/
             exists page sums,
               page_of urljoin server self related field = Some page /\
               listed page = true /\
               Forall is_summary sums /\ (List.length sums <= 5)%nat /\
               dependencies st4 = dict_set field (JList sums) (dependencies st)).
  { intros st4 sums F L E. right. exists (JObj d), sums. auto. }
  (* dependencies[field] = [] *)
  apply bind_inv in H as [([] & st3 & H1 & H) | [(e & H1 & ->) | (c & H1 & ->)]];
    inversion H1; subst st3; clear H1.
  set (st3 := State _ _) in H.
  assert (Hd3 : dependencies st3 = dict_set field (JList []) (dependencies st)).
  { subst st3. simpl. now rewrite Hd2. }
  clearbody st3. clear Hd2 st2.
  (* data['results'][:5] *)
  apply bind_inv in H as [(results & st4 & H1 & H) | [(e & H1 & ->) | (c & H1 & ->)]];
    [ apply lift_ret_inv in H1 as [-> _]
    | apply lift_raise_inv in H1 as [-> _];
      split; [apply (Set_ _ []); auto; simpl; lia | discriminate]
    | now apply lift_exit_inv in H1 ].
  apply bind_inv in H as [(items & st4 & H1 & H) | [(e & H1 & ->) | (c & H1 & ->)]];
    [ apply lift_ret_inv in H1 as [-> Hitems]
    | apply lift_raise_inv in H1 as [-> _];
      split; [apply (Set_ _ []); auto; simpl; lia | discriminate]
    | now apply lift_exit_inv in H1 ].
  apply slice_to_length in Hitems.
  (* the preview loop *)
  assert (Loop : forall st4 r4,
             for_each items (record_item py_repr field) st3 = (st4, r4) ->
             (exists sums, Forall is_summary sums /\ (List.length sums <= 5)%nat /\
                dependencies st4 = dict_set field (JList sums) (dependencies st)) /\
             (forall c, r4 <> Exit c)).
  { intros st4 r4 H4.
    eapply record_items_spec in H4 as (sums & F & L & E & X);
      [|rewrite Hd3; apply dict_get_set_same].
    split; [|exact X]. exists sums. repeat split; auto; [lia|].
    rewrite E, Hd3, dict_set_set. reflexivity. }
  apply bind_inv in H as [([] & st4 & H1 & H) | [(e & H1 & ->) | (c & H1 & ->)]];
    apply Loop in H1 as [(sums & F & L & E) X].
  2: { split; [eapply Set_; eauto | discriminate]. }
  2: { exfalso. now apply (X c). }
  clear Loop X Hd3 st3.
  (* count > 5 *)
  apply bind_inv in H as [(more & st5 & H1 & H) | [(e & H1 & ->) | (c & H1 & ->)]];
    [ apply lift_ret_inv in H1 as [-> _]
    | apply lift_raise_inv in H1 as [-> _];
      split; [eapply Set_; eauto | discriminate]
    | now apply lift_exit_inv in H1 ].
  destruct more.
  2: { inversion H; subst. split; [eapply Set_; eauto | discriminate]. }
  apply bind_inv in H as [(rest & st5 & H1 & H) | [(e & H1 & ->) | (c & H1 & ->)]];
    [ apply lift_ret_inv in H1 as [-> _]
    | apply lift_raise_inv in H1 as [-> _];
      split; [eapply Set_; eauto | discriminate]
    | now apply lift_exit_inv in H1 ].
  rewrite print_run in H. inversion H; subst.
  split; [eapply Set_; eauto | discriminate].
Qed.

(** ** One turn of the loop over the catalogue *)

Lemma visit_absent self related field label st :
  Py.contains field related = Val false ->
  visit_resource py_repr urljoin server self related (field, label) st
  = (st, Ret tt).
Proof. intros H. unfold visit_resource, bind, lift. now rewrite H. Qed.

Lemma visit_present self related field label st :
  Py.contains field related = Val true ->
  visit_resource py_repr urljoin server self related (field, label) st
  = match list_resource py_repr urljoin server self related field
            (log st [Stdout (nl ++ label ++ ":")]) with
    | (st2, Raise e) =>
        (log st2 [Stdout ("  Error retrieving " ++ label ++ ": " ++ exn_str e)],
         Ret tt)
    | other => other
    end.
Proof.
  intros H. unfold visit_resource, bind, lift. rewrite H.
  rewrite print_run. unfold try_except, any_exception.
  destruct (list_resource _ _ _ _ _ _ _) as [st2 [[]|e|c]]; reflexivity.
Qed.

Lemma visit_keeps_previews self related field label st st' r :
  In (field, label) resource_types ->
  previews_ok urljoin server self related (dependencies st) ->
  visit_resource py_repr urljoin server self related (field, label) st = (st', r) ->
  previews_ok urljoin server self related (dependencies st').
Proof.
  intros Hin Hok H.
  destruct (Py.contains field related) as [[|]|e] eqn:Hc.
  - rewrite (visit_present _ _ _ _ _ Hc) in H.
    destruct (list_resource _ _ _ _ _ _ _) as [st2 r2] eqn:L.
    assert (D : dependencies st' = dependencies st2).
    { destruct r2; inversion H; reflexivity. }
    rewrite D. clear D H.
    apply list_resource_spec in L as [[E | (page & sums & Hp & Hl & F & Len & E)] _];
      simpl in E; rewrite E; [exact Hok|].
    destruct Hok as [Hnd Hall]. split; [now apply dict_set_NoDup|].
    intros k v Hkv. apply dict_set_In in Hkv as [[-> ->] | Hkv]; [|now apply Hall].
    split; [|split].
    + apply in_map_iff. exists (field, label). split; [reflexivity|].
      apply filter_In. split; [exact Hin|]. unfold present. simpl. now rewrite Hc.
    + eauto.
    + eauto.
  - rewrite (visit_absent _ _ _ _ _ Hc) in H. inversion H; subst. exact Hok.
  - unfold visit_resource, bind, lift in H. rewrite Hc in H.
    inversion H; subst. exact Hok.
Qed.

Lemma catalogue_keeps_previews self related st st' r :
  previews_ok urljoin server self related (dependencies st) ->
  for_each resource_types (visit_resource py_repr urljoin server self related) st
  = (st', r) ->
  previews_ok urljoin server self related (dependencies st').
Proof.
  intros Hok H.
  eapply (for_each_keeps
            (fun s => previews_ok urljoin server self related (dependencies s)));
    [|exact Hok|exact H].
  intros [field label] s s' r' Hin Hs Hv. eapply visit_keeps_previews; eauto.
Qed.

Lemma previews_ok_empty self related : previews_ok urljoin server self related [].
Proof. split; [constructor | intros k v []]. Qed.

Lemma cross_key_not_catalogued : ~ In cross_key (map fst resource_types).
Proof.
  simpl. intros H.
  repeat (destruct H as [H|H]; [discriminate|]). exact H.
Qed.

Lemma previews_ok_no_cross self related d :
  previews_ok urljoin server self related d -> dict_get cross_key d = None.
Proof.
  intros [_ Hall]. apply dict_get_None_keys. intros Hin.
  apply in_map_iff in Hin as [[k v] [Hk Hkv]]. simpl in Hk. subst k.
  destruct (Hall _ _ Hkv) as [Hcat _].
  apply cross_key_not_catalogued.
  apply in_map_iff in Hcat as [entry [Hf Hentry]].
  apply filter_In in Hentry as [Hentry _].
  rewrite <- Hf. now apply in_map.
Qed.

(** ** The cross-organization check *)

Lemma with_cross_push base xs e :
  dict_get cross_key base = None ->
  dict_set cross_key (JList (xs ++ [e]))
    (if dict_mem cross_key (with_cross base xs) then with_cross base xs
     else dict_set cross_key (JList []) (with_cross base xs))
  = with_cross base (xs ++ [e]) /\
  dict_get cross_key
    (if dict_mem cross_key (with_cross base xs) then with_cross base xs
     else dict_set cross_key (JList []) (with_cross base xs))
  = Some (JList xs).
Proof.
  intros Hb. destruct xs as [|x xs]; simpl.
  - unfold dict_mem. rewrite Hb. rewrite dict_set_set, dict_get_set_same. auto.
  - unfold dict_mem. rewrite dict_get_set_same, dict_set_set.
    split; [reflexivity | apply dict_get_set_same].
Qed.

(** The body of the [try] for one credential appends the entry of a
    mismatched owner and nothing else; it leaves the process only with
    status 1. *)
Lemma check_credential_spec self org cred base xs st st' r :
  dict_get cross_key base = None ->
  dependencies st = with_cross base xs ->
  check_credential py_repr urljoin server self org cred st = (st', r) ->
  dependencies st'
  = with_cross base
      (xs ++ match mismatched_owner urljoin server self py_repr org cred with
             | Some owner => [cross_entry cred owner]
             | None => []
             end) /\
  (forall c, r = Exit c -> c = 1%Z).
Proof.
  intros Hb Hd H. unfold check_credential in H. unfold mismatched_owner.
  assert (Same : forall s, dependencies s = dependencies st ->
                   dependencies s = with_cross base (xs ++ [])).
  { intros s E. now rewrite app_nil_r, E. }
  (* cred['id'] *)
  apply bind_inv in H as [(cid & st1 & H1 & H) | [(e & H1 & ->) | (c & H1 & ->)]];
    [ apply lift_ret_inv in H1 as [-> Hid]
    | apply lift_raise_inv in H1 as [-> Hid]; rewrite Hid;
      split; [now apply Same | discriminate]
    | now apply lift_exit_inv in H1 ].
  rewrite Hid.
  (* the detail record *)
  apply bind_inv in H as [(detail & st1 & H1 & H) | [(e & H1 & ->) | (c & H1 & ->)]];
    rewrite get_run in H1;
    destruct (urljoin _ _) as [url|e'] eqn:Hjoin;
    try destruct (server _) as [body|msg text] eqn:Hsrv;
    inversion H1; subst; clear H1.
  2, 3: split; [|intros c' Hc; now inversion Hc];
        destruct (Py.getitem cred "name"); now apply Same.
  set (st1 := log st _) in H.
  assert (Hd1 : dependencies st1 = dependencies st) by reflexivity.
  clearbody st1.
  (* its owner *)
  apply bind_inv in H as [(owner & st2 & H1 & H) | [(e & H1 & ->) | (c & H1 & ->)]];
    [ apply lift_ret_inv in H1 as [-> Hown]
    | apply lift_raise_inv in H1 as [-> Hown];
      split; [|discriminate];
      destruct detail; try discriminate;
      destruct (Py.getitem cred "name"); now apply Same
    | now apply lift_exit_inv in H1 ].
  destruct detail as [| | | | |d]; try discriminate.
  simpl in Hown. inversion Hown as [Ho]. clear Hown.
  fold (default JNull (dict_get "organization" d)) in Ho. rewrite Ho. cbv zeta.
  (* the test *)
  apply bind_inv in H as [(differs & st2 & H1 & H) | [(e & H1 & ->) | (c & H1 & ->)]].
  2: { split; [|discriminate]. destruct (Py.truthy owner); [|inversion H1].
       apply bind_inv in H1 as [(oid & st2 & H2 & H1) | [(e' & H2 & _) | (c & H2 & _)]];
         [ inversion H1
         | apply lift_raise_inv in H2 as [-> Hoid]; rewrite Hoid;
           destruct (Py.getitem cred "name"); now apply Same
         | now apply lift_exit_inv in H2 ]. }
  2: { exfalso. destruct (Py.truthy owner); [|inversion H1].
       apply bind_inv in H1 as [(oid & st2 & H2 & H1) | [(e' & H2 & E) | (c' & H2 & E)]];
         [ inversion H1 | inversion E | now apply lift_exit_inv in H2 ]. }
  assert (Hdiff : st2 = st1 /\
            differs = match Py.truthy owner, Py.getitem org "id" with
                      | true, Val oid => negb (Py.eq owner oid)
                      | _, _ => false
                      end /\
            (Py.truthy owner = true -> exists oid, Py.getitem org "id" = Val oid)).
  { destruct (Py.truthy owner).
    - apply bind_inv in H1 as [(oid & st3 & H2 & H1) | [(e' & H2 & E) | (c' & H2 & E)]];
        [ | inversion E | inversion E ].
      apply lift_ret_inv in H2 as [-> Hoid]. rewrite Hoid.
      inversion H1; subst. eauto.
    - inversion H1; subst. repeat split. discriminate. }
  destruct Hdiff as (-> & -> & Hex). clear H1.
  destruct (Py.truthy owner) eqn:Ht.
  2: { inversion H; subst. split; [|discriminate].
       destruct (Py.getitem cred "name"); now apply Same. }
  destruct (Hex eq_refl) as [oid Hoid]. rewrite Hoid in *. clear Hex.
  destruct (Py.eq owner oid) eqn:Heq; simpl in H.
  { inversion H; subst. split; [|discriminate].
    destruct (Py.getitem cred "name"); now apply Same. }
  (* the warning and the entry *)
  apply bind_inv in H as [(name & st2 & H1 & H) | [(e & H1 & ->) | (c & H1 & ->)]];
    [ apply lift_ret_inv in H1 as [-> Hname]
    | apply lift_raise_inv in H1 as [-> Hname]; rewrite Hname;
      split; [now apply Same | discriminate]
    | now apply lift_exit_inv in H1 ].
  rewrite Hname.
  apply bind_inv in H as [([] & st2 & H1 & H) | [(e & H1 & ->) | (c & H1 & ->)]];
    rewrite print_run in H1; inversion H1; subst st2; clear H1.
  set (st2 := log st1 _) in H.
  assert (Hd2 : dependencies st2 = with_cross base xs).
  { subst st2. simpl. now rewrite Hd1. }
  clearbody st2.
  destruct (with_cross_push base xs (cross_entry cred owner) Hb) as [Hpush Hget].
  unfold dep_append, dep_set, get_dependencies, set_dependencies, bind, ret in H.
  rewrite Hd2 in H.
  destruct (dict_mem cross_key (with_cross base xs)); cbn [dependencies] in H;
    rewrite ?Hd2 in H; rewrite Hget in H; inversion H; subst;
    cbn [dependencies]; (split; [exact Hpush | discriminate]).
Qed.

Lemma credential_turn_spec self org cred base xs st st' r :
  dict_get cross_key base = None ->
  dependencies st = with_cross base xs ->
  credential_turn py_repr urljoin server self org cred st = (st', r) ->
  dependencies st'
  = with_cross base (xs ++ cross_entries urljoin server self py_repr org [cred]) /\
  (forall c, r = Exit c -> c = 1%Z).
Proof.
  intros Hb Hd H. unfold cross_entries. simpl. rewrite app_nil_r.
  unfold credential_turn, try_except in H.
  destruct (check_credential _ _ _ _ _ _ _) as [st1 r1] eqn:B.
  apply (check_credential_spec _ _ _ _ _ _ _ _ Hb Hd) in B as [E X].
  destruct r1 as [u|e|c].
  - inversion H; subst. split; [exact E | discriminate].
  - unfold any_exception in H.
    apply bind_inv in H as [(cid & st2 & H1 & H) | [(e' & H1 & ->) | (c & H1 & ->)]];
      [ apply lift_ret_inv in H1 as [-> _]
      | apply lift_raise_inv in H1 as [-> _]; split; [exact E | discriminate]
      | now apply lift_exit_inv in H1 ].
    rewrite print_run in H. inversion H; subst. split; [exact E | discriminate].
  - inversion H; subst. split; [exact E | exact X].
Qed.

Lemma cross_entries_cons self org cred creds :
  cross_entries urljoin server self py_repr org (cred :: creds)
  = cross_entries urljoin server self py_repr org [cred]
    ++ cross_entries urljoin server self py_repr org creds.
Proof. unfold cross_entries. simpl. now rewrite app_nil_r. Qed.

(** The loop over the previewed credentials: the entries of the
    credentials it went through, in order. *)
Lemma credential_loop_spec self org base :
  dict_get cross_key base = None ->
  forall creds xs st st' r,
    dependencies st = with_cross base xs ->
    for_each creds (credential_turn py_repr urljoin server self org) st = (st', r) ->
    exists n,
      (n <= List.length creds)%nat /\
      dependencies st'
      = with_cross base
          (xs ++ cross_entries urljoin server self py_repr org (firstn n creds)) /\
      (r = Ret tt -> n = List.length creds) /\
      (forall c, r = Exit c -> c = 1%Z).
Proof.
  intros Hb. induction creds as [|cred creds IH]; intros xs st st' r Hd H.
  - inversion H; subst. exists 0%nat. simpl. rewrite app_nil_r.
    repeat split; auto. discriminate.
  - cbn [for_each] in H.
    apply bind_inv in H as [([] & st1 & H1 & H) | [(e & H1 & ->) | (c & H1 & ->)]];
      apply (credential_turn_spec _ _ _ _ _ _ _ _ Hb Hd) in H1 as [E X].
    + apply (IH _ _ _ _ E) in H as (n & Hn & E' & Hret & Hexit).
      exists (S n). cbn [firstn List.length]. rewrite cross_entries_cons.
      rewrite app_assoc.
      split; [lia|]. split; [exact E'|]. split; [|exact Hexit].
      intros Hr. now rewrite (Hret Hr).
    + exists 1%nat. simpl firstn. cbn [List.length].
      split; [lia|]. split; [exact E|]. split; discriminate.
    + exists 1%nat. simpl firstn. cbn [List.length].
      split; [lia|]. split; [exact E|]. split; [discriminate | exact X].
Qed.

Lemma check_credentials_spec self org related st st' r :
  previews_ok urljoin server self related (dependencies st) ->
  check_credentials py_repr urljoin server self org st = (st', r) ->
  exists n,
    (n <= List.length (creds_of (dependencies st)))%nat /\
    dependencies st'
    = with_cross (dependencies st)
        (cross_entries urljoin server self py_repr org
           (firstn n (creds_of (dependencies st)))) /\
    (r = Ret tt -> n = List.length (creds_of (dependencies st))) /\
    (forall c, r = Exit c -> c = 1%Z).
Proof.
  intros Hok H. unfold check_credentials in H.
  unfold bind at 1 in H. unfold get_dependencies in H.
  unfold creds_of, dict_mem in *.
  destruct (dict_get "credentials" (dependencies st)) as [v|] eqn:Hcreds.
  2: { inversion H; subst. exists 0%nat. simpl.
       split; [lia|]. split; [reflexivity|]. split; [reflexivity | discriminate]. }
  destruct Hok as [Hnd Hall].
  destruct (Hall _ _ (dict_get_In _ _ _ Hcreds)) as (_ & _ & l & -> & _ & _).
  apply bind_inv in H as [([] & st1 & H1 & H) | [(e & H1 & ->) | (c & H1 & ->)]];
    rewrite print_run in H1; inversion H1; subst st1; clear H1.
  unfold bind at 1 in H. unfold lift at 1 in H. simpl in H. rewrite Hcreds in H.
  unfold bind at 1 in H. unfold lift at 1 in H. simpl in H.
  eapply credential_loop_spec with (xs := []) in H; [exact H | | reflexivity].
  eapply previews_ok_no_cross. split; eauto.
Qed.

(** [_find_dependencies] in two stages: the previews, then the
    cross-organization entries of the previewed credentials. *)
Lemma find_dependencies_stages self org related st st' deps :
  Py.get org "related" (JObj []) = Val related ->
  _find_dependencies py_repr urljoin server self org st = (st', Ret deps) ->
  exists previews,
    previews_ok urljoin server self related previews /\
    deps = with_cross previews
             (cross_entries urljoin server self py_repr org (creds_of previews)).
Proof.
  intros Hrel H. unfold _find_dependencies in H.
  unfold bind at 1 in H. unfold set_dependencies at 1 in H.
  unfold bind at 1 in H. rewrite print_run in H.
  unfold bind at 1 in H. rewrite print_run in H.
  unfold bind at 1 in H. unfold lift at 1 in H. rewrite Hrel in H.
  assert (Hsum : exists w, Py.get org "summary_fields" (JObj []) = Val w).
  { destruct org; try discriminate. simpl. eauto. }
  destruct Hsum as [w Hsum].
  unfold bind at 1 in H. unfold lift at 1 in H. rewrite Hsum in H.
  apply bind_inv in H as [([] & st1 & H1 & H) | [(e & _ & E) | (c & _ & E)]];
    [ | discriminate | discriminate ].
  apply catalogue_keeps_previews in H1; [|apply previews_ok_empty].
  apply bind_inv in H as [([] & st2 & H2 & H) | [(e & _ & E) | (c & _ & E)]];
    [ | discriminate | discriminate ].
  apply (check_credentials_spec _ _ _ _ _ _ H1) in H2 as (n & Hn & E & Hret & _).
  rewrite (Hret eq_refl), firstn_all in E.
  unfold bind, print, emit, get_dependencies in H. simpl in H.
  inversion H; subst. exists (dependencies st1). split; [exact H1 | exact E].
Qed.

(** ** The returned dependency map *)

Lemma with_cross_keys base es k :
  In k (keys (with_cross base es)) -> k = cross_key \/ In k (keys base).
Proof.
  destruct es; simpl; [now right|]. apply dict_set_keys_In.
Qed.

Lemma with_cross_In base es k v :
  In (k, v) (with_cross base es) ->
  (k = cross_key /\ v = JList es) \/ In (k, v) base.
Proof.
  destruct es; [now right|]. apply dict_set_In.
Qed.

Lemma with_cross_get_other base es k :
  k <> cross_key -> dict_get k (with_cross base es) = dict_get k base.
Proof.
  intros Hk. destruct es; [reflexivity|]. now apply dict_get_set_other.
Qed.

Lemma with_cross_get base es :
  dict_get cross_key base = None ->
  dict_get cross_key (with_cross base es)
  = match es with [] => None | _ => Some (JList es) end.
Proof.
  intros Hb. destruct es; [exact Hb|]. apply dict_get_set_same.
Qed.

Lemma with_cross_creds base es : creds_of (with_cross base es) = creds_of base.
Proof.
  unfold creds_of. rewrite with_cross_get_other; [reflexivity|discriminate].
Qed.

Lemma previews_ok_key self related previews k :
  previews_ok urljoin server self related previews ->
  In k (keys previews) ->
  In k (map fst resource_types) /\
  Py.contains k related = Val true /\
  exists page, page_of urljoin server self related k = Some page /\
               listed page = true.
Proof.
  intros [_ Hall] Hin.
  apply in_map_iff in Hin as [[k' v] [Hk Hkv]]. simpl in Hk. subst k'.
  destruct (Hall _ _ Hkv) as (Hcat & Hpage & _).
  apply in_map_iff in Hcat as [[f l] [Hf Hentry]]. simpl in Hf. subst f.
  apply filter_In in Hentry as [Hentry Hpres].
  split; [|split; [|exact Hpage]].
  - apply in_map_iff. now exists (k, l).
  - unfold present in Hpres. simpl in Hpres.
    destruct (Py.contains k related) as [[|]|]; congruence.
Qed.

Lemma catalogued_not_cross field label :
  In (field, label) resource_types -> field <> cross_key.
Proof.
  intros Hin ->. apply cross_key_not_catalogued.
  apply in_map_iff. now exists (cross_key, label).
Qed.

(** C6: a catalogue type that is not [in] the related links takes a
    turn that does nothing at all, so no request, no line, no change of
    [dependencies]; and the map [_find_dependencies] returns has no
    entry under that type's key. *)
Theorem absent_type_untouched self org related field label :
  In (field, label) resource_types ->
  Py.contains field related = Val false ->
  (forall st,
     visit_resource py_repr urljoin server self related (field, label) st
     = (st, Ret tt)) /\
  (Py.get org "related" (JObj []) = Val related ->
   forall st st' deps,
     _find_dependencies py_repr urljoin server self org st = (st', Ret deps) ->
     dict_get field deps = None).
Proof.
  intros Hin Habs. split.
  - intros st. now apply visit_absent.
  - intros Hrel st st' deps H.
    destruct (find_dependencies_stages _ _ _ _ _ _ Hrel H) as (previews & Hok & ->).
    apply dict_get_None_keys. intros Hk.
    apply with_cross_keys in Hk as [Hk | Hk].
    + now apply (catalogued_not_cross _ _ Hin).
    + destruct (previews_ok_key _ _ _ _ Hok Hk) as (_ & Hc & _). congruence.
Qed.

Lemma listed_inv page :
  listed page = true ->
  exists d count,
    page = JObj d /\
    Py.get page "count" (JInt 0) = Val count /\
    Py.gt count 0 = Val true /\
    dict_mem "results" d = true.
Proof.
  unfold listed. destruct page as [| | | | |d]; try discriminate.
  destruct (Py.gt _ 0) as [[|]|] eqn:G; try discriminate.
  intros Hres. exists d, (default (JInt 0) (dict_get "count" d)).
  repeat split; auto.
Qed.

(** C10: the returned map has a key for a catalogue type only when the
    type's first page is a dictionary that reports a count above zero
    and has a 'results' field; a type whose page reports a count of zero
    or less, or has no 'results', has no key. *)
Theorem key_only_for_listed_page self org related field label st st' deps :
  Py.get org "related" (JObj []) = Val related ->
  In (field, label) resource_types ->
  _find_dependencies py_repr urljoin server self org st = (st', Ret deps) ->
  (dict_mem field deps = true ->
   Py.contains field related = Val true /\
   exists d count,
     page_of urljoin server self related field = Some (JObj d) /\
     Py.get (JObj d) "count" (JInt 0) = Val count /\
     Py.gt count 0 = Val true /\
     dict_mem "results" d = true) /\
  (forall d count,
     page_of urljoin server self related field = Some (JObj d) ->
     Py.get (JObj d) "count" (JInt 0) = Val count ->
     Py.gt count 0 = Val false \/ dict_mem "results" d = false ->
     dict_get field deps = None).
Proof.
  intros Hrel Hin H.
  destruct (find_dependencies_stages _ _ _ _ _ _ Hrel H) as (previews & Hok & ->).
  assert (Key : dict_mem field (with_cross previews
                  (cross_entries urljoin server self py_repr org (creds_of previews)))
                = true ->
                Py.contains field related = Val true /\
                exists d count,
                  page_of urljoin server self related field = Some (JObj d) /\
                  Py.get (JObj d) "count" (JInt 0) = Val count /\
                  Py.gt count 0 = Val true /\
                  dict_mem "results" d = true).
  { intros Hmem. apply dict_mem_keys in Hmem.
    apply with_cross_keys in Hmem as [Hk | Hk];
      [now apply (catalogued_not_cross _ _ Hin) in Hk|].
    destruct (previews_ok_key _ _ _ _ Hok Hk) as (_ & Hc & page & Hp & Hl).
    split; [exact Hc|].
    destruct (listed_inv _ Hl) as (d & count & -> & Hcount & Hgt & Hres).
    exists d, count. auto. }
  split; [exact Key|].
  intros d count Hp Hcount Hno.
  destruct (dict_get field (with_cross previews _)) as [v|] eqn:G; [|reflexivity].
  exfalso.
  assert (Hmem : dict_mem field (with_cross previews
                   (cross_entries urljoin server self py_repr org (creds_of previews)))
                 = true).
  { unfold dict_mem. now rewrite G. }
  destruct (Key Hmem) as (_ & d' & count' & Hp' & Hcount' & Hgt & Hres).
  rewrite Hp in Hp'. inversion Hp'; subst d'.
  rewrite Hcount in Hcount'. inversion Hcount'; subst count'.
  destruct Hno as [Hno | Hno]; congruence.
Qed.

Lemma cross_entries_length self org creds :
  (List.length (cross_entries urljoin server self py_repr org creds)
   <= List.length creds)%nat.
Proof.
  induction creds as [|cred creds IH]; [apply le_n|].
  rewrite cross_entries_cons, length_app. unfold cross_entries at 1. simpl.
  destruct (mismatched_owner _ _ _ _ _ _); simpl; lia.
Qed.

Lemma creds_of_previews self related previews :
  previews_ok urljoin server self related previews ->
  Forall is_summary (creds_of previews) /\
  (List.length (creds_of previews) <= 5)%nat.
Proof.
  intros [_ Hall]. unfold creds_of.
  destruct (dict_get "credentials" previews) as [v|] eqn:G.
  - destruct (Hall _ _ (dict_get_In _ _ _ G)) as (_ & _ & l & -> & F & L). auto.
  - split; [constructor | simpl; lia].
Qed.

Lemma previews_length self related previews :
  previews_ok urljoin server self related previews ->
  (List.length previews
   <= List.length (filter (present related) resource_types))%nat.
Proof.
  intros [Hnd Hall].
  rewrite <- (length_map fst previews).
  rewrite <- (length_map fst (filter (present related) resource_types)).
  apply NoDup_incl_length; [exact Hnd|].
  intros k Hk. apply in_map_iff in Hk as [[k' v] [E Hkv]]. simpl in E. subst k'.
  now destruct (Hall _ _ Hkv).
Qed.

(** C4, as the traversal has it: with N catalogue types [in] the
    related links, the returned map has at most N keys for resource
    types, and one more key, 'cross_org_credentials', exactly when the
    check found a mismatch; every value is a list of at most five
    items, whatever count the page reports. *)
Theorem dependency_map_bounds self org related st st' deps :
  Py.get org "related" (JObj []) = Val related ->
  _find_dependencies py_repr urljoin server self org st = (st', Ret deps) ->
  (List.length deps
   <= List.length (filter (present related) resource_types)
      + (if dict_mem cross_key deps then 1 else 0))%nat /\
  (forall k v, In (k, v) deps ->
     exists l, v = JList l /\ (List.length l <= 5)%nat).
Proof.
  intros Hrel H.
  destruct (find_dependencies_stages _ _ _ _ _ _ Hrel H) as (previews & Hok & ->).
  pose proof (previews_length _ _ _ Hok) as Hlen.
  pose proof (previews_ok_no_cross _ _ _ Hok) as Hno.
  pose proof (creds_of_previews _ _ _ Hok) as [_ Hcreds].
  pose proof (cross_entries_length self org (creds_of previews)) as Hes.
  split.
  - destruct (cross_entries _ _ _ _ _ _) as [|e es] eqn:E; cbn [with_cross].
    + unfold dict_mem. rewrite Hno. lia.
    + unfold dict_mem. rewrite dict_get_set_same.
      pose proof (dict_set_length_le cross_key (JList (e :: es)) previews). lia.
  - intros k v Hkv. apply with_cross_In in Hkv as [[_ ->] | Hkv].
    + eexists. split; [reflexivity|]. lia.
    + destruct Hok as [_ Hall].
      destruct (Hall _ _ Hkv) as (_ & _ & l & -> & _ & L). eauto.
Qed.

(** ** Errors during the traversal *)

(** X25: in the turn of a type that is [in] the related links, an
    exception raised by the body (a link that is no string, a URL that
    [urljoin] refuses, no page for a link without the version root, a
    page that is no dictionary, a count that is no number, an item that
    is no dictionary) is caught, reported on the output stream, and the
    loop goes on with the remaining types; the process ends in this
    turn, with status 1, exactly when the request for the page fails. *)
Theorem visit_catches_exceptions self related field label rest st :
  Py.contains field related = Val true ->
  let turn := visit_resource py_repr urljoin server self related in
  let st1 := log st [Stdout (nl ++ label ++ ":")] in
  match list_resource py_repr urljoin server self related field st1 with
  | (st2, Ret _) =>
      for_each ((field, label) :: rest) turn st = for_each rest turn st2
  | (st2, Raise e) =>
      for_each ((field, label) :: rest) turn st
      = for_each rest turn
          (log st2 [Stdout ("  Error retrieving " ++ label ++ ": " ++ exn_str e)])
  | (st2, Exit c) =>
      for_each ((field, label) :: rest) turn st = (st2, Exit 1) /\
      exists link endpoint url msg text,
        Py.getitem related field = Val (JStr link) /\
        related_endpoint link = Some endpoint /\
        urljoin (api_base self) endpoint = Val url /\
        server url = Failed msg text
  end /\
  (forall link endpoint url msg text,
     Py.getitem related field = Val (JStr link) ->
     related_endpoint link = Some endpoint ->
     urljoin (api_base self) endpoint = Val url ->
     server url = Failed msg text ->
     for_each ((field, label) :: rest) turn st
     = (log st1 (Request url :: failure_report url msg text), Exit 1)).
Proof.
  intros Hc turn st1.
  assert (E : for_each ((field, label) :: rest) turn st
              = match turn (field, label) st with
                | (st', Ret _) => for_each rest turn st'
                | (st', Raise e) => (st', Raise e)
                | (st', Exit c) => (st', Exit c)
                end) by reflexivity.
  subst turn. rewrite (visit_present _ _ _ _ _ Hc) in E. fold st1 in E.
  split.
  - destruct (list_resource _ _ _ _ _ _ _) as [st2 [[]|e|c]] eqn:L;
      try exact E.
    apply list_resource_spec in L as [_ X].
    destruct (X c eq_refl) as [-> Hfail]. auto.
  - intros link endpoint url msg text Hlink Hend Hjoin Hsrv. rewrite E.
    unfold list_resource. unfold bind at 1. unfold lift at 1. rewrite Hlink.
    unfold bind at 1. unfold get_related_data.
    rewrite Hend, (get_joined _ _ _ _ Hjoin), Hsrv. reflexivity.
Qed.

(** ** Cross-organization credentials in the report *)

Lemma cross_entries_In self org creds e :
  In e (cross_entries urljoin server self py_repr org creds) <->
  exists cred owner,
    In cred creds /\
    mismatched_owner urljoin server self py_repr org cred = Some owner /\
    e = cross_entry cred owner.
Proof.
  unfold cross_entries. rewrite in_flat_map. split.
  - intros (cred & Hin & He).
    destruct (mismatched_owner _ _ _ _ _ _) as [owner|] eqn:M; [|destruct He].
    destruct He as [<-|[]]. eauto.
  - intros (cred & owner & Hin & M & ->). exists cred. rewrite M. simpl. auto.
Qed.

Lemma mismatched_owner_falsy self org cred cred_id url detail :
  Py.getitem cred "id" = Val cred_id ->
  urljoin (api_base self) ("credentials/" ++ py_str py_repr cred_id ++ "/")
  = Val url ->
  server url = Ok (JObj detail) ->
  Py.truthy (default JNull (dict_get "organization" detail)) = false ->
  mismatched_owner urljoin server self py_repr org cred = None.
Proof.
  intros Hid Hjoin Hsrv Hf. unfold mismatched_owner.
  rewrite Hid, Hjoin, Hsrv. cbv zeta.
  rewrite Hf. now destruct (Py.getitem cred "name").
Qed.

Lemma mismatched_owner_summary self org cred cred_id url detail org_id :
  is_summary cred ->
  Py.getitem cred "id" = Val cred_id ->
  urljoin (api_base self) ("credentials/" ++ py_str py_repr cred_id ++ "/")
  = Val url ->
  server url = Ok (JObj detail) ->
  Py.getitem org "id" = Val org_id ->
  let owner := default JNull (dict_get "organization" detail) in
  mismatched_owner urljoin server self py_repr org cred
  = if Py.truthy owner && negb (Py.eq owner org_id) then Some owner else None.
Proof.
  intros (i & n & ->) Hid Hjoin Hsrv Horg owner. unfold mismatched_owner.
  rewrite Hid.
  change (Py.getitem (JObj [("id", i); ("name", n)]) "name") with (Val n).
  rewrite Hjoin, Hsrv. cbv zeta. fold owner.
  rewrite Horg. destruct (Py.truthy owner); [|reflexivity].
  now destruct (Py.eq owner org_id).
Qed.

Lemma cross_entry_credential cred owner :
  Py.getitem (cross_entry cred owner) "credential" = Val cred.
Proof. reflexivity. Qed.

(** C9: a previewed credential whose detail record has no
    'organization', or has it null or zero, takes a turn that makes the
    request and nothing else: no warning is printed and [dependencies]
    stays as it was; the returned map has no cross-organization entry
    for it. *)
Theorem falsy_owner_never_flagged self org cred cred_id url detail :
  Py.getitem cred "id" = Val cred_id ->
  urljoin (api_base self) ("credentials/" ++ py_str py_repr cred_id ++ "/")
  = Val url ->
  server url = Ok (JObj detail) ->
  dict_get "organization" detail = None \/
  dict_get "organization" detail = Some JNull \/
  dict_get "organization" detail = Some (JInt 0) ->
  (forall st,
     credential_turn py_repr urljoin server self org cred st
     = (log st [Request url], Ret tt)) /\
  (forall related st st' deps,
     Py.get org "related" (JObj []) = Val related ->
     _find_dependencies py_repr urljoin server self org st = (st', Ret deps) ->
     forall xs e,
       dict_get cross_key deps = Some (JList xs) ->
       In e xs ->
       Py.getitem e "credential" <> Val cred).
Proof.
  intros Hid Hjoin Hsrv Hown.
  assert (Hf : Py.truthy (default JNull (dict_get "organization" detail)) = false).
  { destruct Hown as [-> | [-> | ->]]; reflexivity. }
  split.
  - intros st. unfold credential_turn, try_except, check_credential.
    unfold bind at 1. unfold lift at 1. rewrite Hid.
    unfold bind at 1. rewrite (get_joined _ _ _ _ Hjoin). rewrite Hsrv.
    unfold bind at 1. unfold lift at 1. cbn [Py.get].
    fold (default JNull (dict_get "organization" detail)).
    unfold bind at 1. rewrite Hf. reflexivity.
  - intros related st st' deps Hrel H xs e Hget Hin Hcred.
    destruct (find_dependencies_stages _ _ _ _ _ _ Hrel H) as (previews & Hok & ->).
    rewrite (with_cross_get _ _ (previews_ok_no_cross _ _ _ Hok)) in Hget.
    destruct (cross_entries _ _ _ _ _ _) as [|e0 es] eqn:E; [discriminate|].
    inversion Hget; subst xs. rewrite <- E in Hin.
    apply cross_entries_In in Hin as (cred' & owner & _ & M & ->).
    rewrite cross_entry_credential in Hcred. inversion Hcred; subst cred'.
    rewrite (mismatched_owner_falsy _ _ _ _ _ _ Hid Hjoin Hsrv Hf) in M.
    discriminate.
Qed.

(** C1, as the check has it: for a credential of the returned preview
    whose detail record is a dictionary, a truthy owner that is [!=]
    the ID of the inspected organization puts the pair of the
    credential's summary and that owner under 'cross_org_credentials';
    an owner that is [==] the ID puts nothing there for the credential;
    and the key exists only when some previewed credential has a truthy
    owner that differs. *)
Theorem mismatched_credentials_reported self org org_id st st' deps :
  Py.getitem org "id" = Val org_id ->
  _find_dependencies py_repr urljoin server self org st = (st', Ret deps) ->
  (forall cred cred_id url detail owner,
     In cred (creds_of deps) ->
     Py.getitem cred "id" = Val cred_id ->
     urljoin (api_base self) ("credentials/" ++ py_str py_repr cred_id ++ "/")
     = Val url ->
     server url = Ok (JObj detail) ->
     Py.get (JObj detail) "organization" JNull = Val owner ->
     (Py.truthy owner = true -> Py.eq owner org_id = false ->
      exists xs, dict_get cross_key deps = Some (JList xs) /\
                 In (cross_entry cred owner) xs) /\
     (Py.eq owner org_id = true ->
      forall xs e, dict_get cross_key deps = Some (JList xs) -> In e xs ->
                   Py.getitem e "credential" <> Val cred)) /\
  (dict_mem cross_key deps = true ->
   exists cred cred_id url detail owner,
     In cred (creds_of deps) /\
     Py.getitem cred "id" = Val cred_id /\
     urljoin (api_base self) ("credentials/" ++ py_str py_repr cred_id ++ "/")
     = Val url /\
     server url = Ok (JObj detail) /\
     Py.get (JObj detail) "organization" JNull = Val owner /\
     Py.truthy owner = true /\ Py.eq owner org_id = false).
Proof.
  intros Horg H.
  assert (Hrel : exists related, Py.get org "related" (JObj []) = Val related).
  { destruct org; try discriminate. simpl. eauto. }
  destruct Hrel as [related Hrel].
  destruct (find_dependencies_stages _ _ _ _ _ _ Hrel H) as (previews & Hok & ->).
  pose proof (previews_ok_no_cross _ _ _ Hok) as Hno.
  pose proof (creds_of_previews _ _ _ Hok) as [Hsum _].
  rewrite with_cross_creds, (with_cross_get _ _ Hno).
  split.
  - intros cred cred_id url detail owner Hin Hid Hjoin Hsrv Hown.
    assert (Ho : default JNull (dict_get "organization" detail) = owner).
    { simpl in Hown. inversion Hown. reflexivity. }
    clear Hown.
    assert (Hs : is_summary cred).
    { rewrite Forall_forall in Hsum. now apply Hsum. }
    pose proof (mismatched_owner_summary self org cred cred_id url detail org_id
                  Hs Hid Hjoin Hsrv Horg) as M.
    cbv zeta in M. rewrite Ho in M.
    split.
    + intros Ht Hne. rewrite Ht, Hne in M. simpl in M.
      assert (Hin' : In (cross_entry cred owner)
                       (cross_entries urljoin server self py_repr org
                          (creds_of previews))).
      { apply cross_entries_In. eauto. }
      destruct (cross_entries _ _ _ _ _ _) as [|e0 es]; [destruct Hin'|].
      eexists. split; [reflexivity | exact Hin'].
    + intros Heq xs e Hget Hin' Hcred.
      rewrite Heq, andb_false_r in M.
      destruct (cross_entries _ _ _ _ _ _) as [|e0 es] eqn:E; [discriminate|].
      inversion Hget; subst xs. rewrite <- E in Hin'.
      apply cross_entries_In in Hin' as (cred' & owner' & _ & M' & ->).
      rewrite cross_entry_credential in Hcred. inversion Hcred; subst cred'.
      congruence.
  - intros Hmem. unfold dict_mem in Hmem.
    rewrite (with_cross_get _ _ Hno) in Hmem.
    destruct (cross_entries _ _ _ _ _ _) as [|e0 es] eqn:E; [discriminate|].
    assert (Hin : In e0 (cross_entries urljoin server self py_repr org
                           (creds_of previews))).
    { rewrite E. now left. }
    apply cross_entries_In in Hin as (cred & owner & Hin & M & _).
    unfold mismatched_owner in M.
    destruct (Py.getitem cred "id") as [cred_id|] eqn:Hid; [|discriminate].
    destruct (Py.getitem cred "name"); [|discriminate].
    destruct (urljoin _ _) as [url|] eqn:Hjoin; [|discriminate].
    destruct (server _) as [[| | | | |detail]|] eqn:Hsrv; try discriminate.
    cbv zeta in M.
    destruct (Py.truthy _) eqn:Ht; [|discriminate].
    rewrite Horg in M.
    destruct (Py.eq _ org_id) eqn:Hne; [discriminate|].
    inversion M; subst owner.
    exists cred, cred_id, url, detail,
      (default JNull (dict_get "organization" detail)).
    repeat split; auto.
Qed.

End Verification.

(** ** The scenarios *)

Import Scenario.

(** The scenario of the specification: seven projects, five of them
    previewed and two announced; credential 42, owned by organization 9,
    is the one cross-organization entry. *)
Example engineering_report :
  snd engineering_run = Ret engineering_deps /\
  In (Stdout "  Count: 7") (trace (fst engineering_run)) /\
  In (Stdout "    ... and 2 more") (trace (fst engineering_run)) /\
  dict_get cross_key engineering_deps
  = Some (JList [cross_entry (summary 42 "galaxy") (JInt 9)]).
Proof.
  split; [reflexivity|]. split; [|split; [|reflexivity]];
    vm_compute; tauto.
Qed.

(** C1 as stated fails on a falsy owner: the detail records of the
    credentials 43 and 44 have the owners null and 0, both different from
    the ID 5 of the inspected organization, and the returned map has no
    'cross_org_credentials' key. *)
Lemma falsy_owner_differs_unreported :
  governance_run = (fst governance_run, Ret governance_deps) /\
  In (summary 43 "personal") (creds_of governance_deps) /\
  In (summary 44 "legacy") (creds_of governance_deps) /\
  governance_api "https://aap.example.com/api/v2/credentials/43/"
  = Ok (JObj [("id", JInt 43); ("organization", JNull)]) /\
  governance_api "https://aap.example.com/api/v2/credentials/44/"
  = Ok (JObj [("id", JInt 44); ("organization", JInt 0)]) /\
  Py.getitem governance "id" = Val (JInt 5) /\
  Py.eq JNull (JInt 5) = false /\
  Py.eq (JInt 0) (JInt 5) = false /\
  dict_get cross_key governance_deps = None.
Proof.
  split; [reflexivity|]. split; [simpl; tauto|]. split; [simpl; tauto|].
  repeat split.
Qed.

(** C3, at a failed request: the page of the teams cannot be fetched;
    [get] reports the failure on the error stream and calls
    [sys.exit(1)], which the [except Exception] of the turn does not
    catch, so the line "Error retrieving Teams" is never printed, the
    process ends with status 1 in that turn, and the users, which are
    in the related links too, are never visited. *)
Theorem fetch_failure_ends_traversal :
  Py.contains "teams" operations_related = Val true /\
  Py.contains "users" operations_related = Val true /\
  outage_run
  = (State []
       [ Stdout "DEPENDENCIES & RELATED RESOURCES:";
         Stdout (repeat_str "-" 80);
         Stdout (nl ++ "Teams:");
         Request "https://aap.example.com/api/v2/organizations/7/teams/";
         Stderr ("Error making request to "
                 ++ "https://aap.example.com/api/v2/organizations/7/teams/"
                 ++ ": 404 Client Error: Not Found");
         Stderr "Response: {'detail': 'Not found.'}" ],
     Exit 1).
Proof. repeat split. Qed.

(** C4 as stated fails on the scenario of the specification: two
    catalogue types are in the related links, and the returned map has
    three keys. *)
Lemma cross_key_beyond_present_types :
  Py.get engineering "related" (JObj []) = Val engineering_related /\
  List.length (filter (present engineering_related) resource_types) = 2%nat /\
  engineering_run = (fst engineering_run, Ret engineering_deps) /\
  keys engineering_deps = ["projects"; "credentials"; "cross_org_credentials"] /\
  ~ (List.length engineering_deps
     <= List.length (filter (present engineering_related) resource_types))%nat.
Proof.
  repeat split. vm_compute. lia.
Qed.


(** *** The theorems at the scenarios *)


Lemma main_not_found_witness :
  let argv := ["not-found-org"; "--url"; "https://aap.example.com";
               "--username"; "admin"; "--password"; "secret";
               "--export"; "report.json"] in
  parse argv
  = Parsed (Args "not-found-org" "https://aap.example.com"
                 (Some "admin") (Some "secret") (Some "report.json")) /\
  decimal "not-found-org" = None /\
  engineering_api "https://aap.example.com/api/v2/organizations/?name=not-found-org"
  = page 0 [] /\
  run_main engineering_api argv
  = (State []
       [ Request "https://aap.example.com/api/v2/organizations/?name=not-found-org";
         Stderr "Organization 'not-found-org' not found." ],
     Exit 1).
Proof.
  intros argv. split; [reflexivity|]. split; [reflexivity|].
  split; [reflexivity|].
  exact (proj1 (main_not_found decimal no_repr join engineering_api open_file
                  parse argv _ initial
                  "https://aap.example.com/api/v2/organizations/?name=not-found-org"
                  (JObj [("count", JInt 0); ("results", JList [])])
                  eq_refl eq_refl eq_refl eq_refl eq_refl)).
Defined.

Lemma export_round_trip_witness :
  well_formed Cases.engineering_report_value = true /\
  open_file "report.json" = Val tt /\
  exists text,
    export_to_json open_file Cases.engineering_report_value "report.json" initial
    = (State [] [WriteFile "report.json" text;
                 Stdout (nl ++ "Data exported to: report.json")], Ret tt) /\
    loads text = Some Cases.engineering_report_value.
Proof.
  split; [reflexivity|]. split; [reflexivity|].
  destruct (export_round_trip open_file Cases.engineering_report_value "report.json" initial
              eq_refl eq_refl) as (text & Hrun & Hload & _).
  exists text. split; [exact Hrun | exact Hload].
Defined.

Lemma absent_type_untouched_witness :
  In ("teams", "Teams") resource_types /\
  Py.contains "teams" engineering_related = Val false /\
  visit_resource no_repr join engineering_api client engineering_related
    ("teams", "Teams") initial = (initial, Ret tt) /\
  dict_get "teams" engineering_deps = None.
Proof.
  assert (Hin : In ("teams", "Teams") resource_types) by (left; reflexivity).
  destruct (absent_type_untouched no_repr join engineering_api client engineering
              engineering_related "teams" "Teams" Hin eq_refl) as [Hturn Hdeps].
  split; [exact Hin|]. split; [reflexivity|]. split; [apply Hturn|].
  exact (Hdeps eq_refl initial (fst engineering_run) engineering_deps eq_refl).
Defined.

Lemma key_only_for_listed_page_witness :
  In ("projects", "Projects") resource_types /\
  engineering_run = (fst engineering_run, Ret engineering_deps) /\
  dict_mem "projects" engineering_deps = true /\
  exists d count,
    page_of join engineering_api client engineering_related "projects"
    = Some (JObj d) /\
    Py.get (JObj d) "count" (JInt 0) = Val count /\
    Py.gt count 0 = Val true /\
    dict_mem "results" d = true.
Proof.
  assert (Hin : In ("projects", "Projects") resource_types)
    by (right; right; left; reflexivity).
  split; [exact Hin|]. split; [reflexivity|]. split; [reflexivity|].
  exact (proj2 (proj1 (key_only_for_listed_page no_repr join engineering_api client
                         engineering engineering_related "projects" "Projects"
                         initial (fst engineering_run) engineering_deps
                         eq_refl Hin eq_refl) eq_refl)).
Defined.

Lemma dependency_map_bounds_witness :
  Py.get engineering "related" (JObj []) = Val engineering_related /\
  engineering_run = (fst engineering_run, Ret engineering_deps) /\
  (List.length engineering_deps
   <= List.length (filter (present engineering_related) resource_types)
      + (if dict_mem cross_key engineering_deps then 1 else 0))%nat.
Proof.
  split; [reflexivity|]. split; [reflexivity|].
  exact (proj1 (dependency_map_bounds no_repr join engineering_api client
                  engineering engineering_related initial (fst engineering_run)
                  engineering_deps eq_refl eq_refl)).
Defined.

Lemma visit_catches_exceptions_witness :
  Py.contains "teams" operations_related = Val true /\
  for_each [("teams", "Teams"); ("users", "Users")]
    (visit_resource no_repr join outage_api client operations_related) initial
  = (State []
       [ Stdout (nl ++ "Teams:");
         Request "https://aap.example.com/api/v2/organizations/7/teams/";
         Stderr ("Error making request to "
                 ++ "https://aap.example.com/api/v2/organizations/7/teams/"
                 ++ ": 404 Client Error: Not Found");
         Stderr "Response: {'detail': 'Not found.'}" ],
     Exit 1).
Proof.
  split; [reflexivity|].
  exact (proj2 (visit_catches_exceptions no_repr join outage_api client
                  operations_related "teams" "Teams" [("users", "Users")] initial
                  eq_refl)
           "/organizations/7/teams/" "organizations/7/teams/"
           "https://aap.example.com/api/v2/organizations/7/teams/"
           "404 Client Error: Not Found" (Some "{'detail': 'Not found.'}")
           eq_refl eq_refl eq_refl eq_refl).
Defined.

Lemma falsy_owner_never_flagged_witness :
  Py.getitem (summary 43 "personal") "id" = Val (JInt 43) /\
  governance_api "https://aap.example.com/api/v2/credentials/43/"
  = Ok (JObj [("id", JInt 43); ("organization", JNull)]) /\
  credential_turn no_repr join governance_api client governance
    (summary 43 "personal") initial
  = (State [] [Request "https://aap.example.com/api/v2/credentials/43/"], Ret tt).
Proof.
  split; [reflexivity|]. split; [reflexivity|].
  exact (proj1 (falsy_owner_never_flagged no_repr join governance_api client
                  governance (summary 43 "personal") (JInt 43)
                  "https://aap.example.com/api/v2/credentials/43/"
                  [("id", JInt 43); ("organization", JNull)]
                  eq_refl eq_refl eq_refl (or_intror (or_introl eq_refl)))
           initial).
Defined.

Lemma mismatched_credentials_reported_witness :
  Py.getitem engineering "id" = Val (JInt 5) /\
  engineering_run = (fst engineering_run, Ret engineering_deps) /\
  exists xs,
    dict_get cross_key engineering_deps = Some (JList xs) /\
    In (cross_entry (summary 42 "galaxy") (JInt 9)) xs.
Proof.
  split; [reflexivity|]. split; [reflexivity|].
  assert (Hin : In (summary 42 "galaxy") (creds_of engineering_deps))
    by (right; left; reflexivity).
  exact (proj1 (proj1 (mismatched_credentials_reported no_repr join engineering_api
                         client engineering (JInt 5) initial (fst engineering_run)
                         engineering_deps eq_refl eq_refl)
                  (summary 42 "galaxy") (JInt 42)
                  "https://aap.example.com/api/v2/credentials/42/"
                  [("id", JInt 42); ("organization", JInt 9)] (JInt 9)
                  Hin eq_refl eq_refl eq_refl eq_refl)
           eq_refl eq_refl).
Defined.

(** * Further properties of the client and the inspector *)

(** ** The base URL *)

Lemma list_ascii_of_string_app a b :
  list_ascii_of_string (a ++ b) = list_ascii_of_string a ++ list_ascii_of_string b.
Proof. induction a as [|c a IH]; simpl; [reflexivity | now rewrite IH]. Qed.

Lemma rev_string_involutive s : rev_string (rev_string s) = s.
Proof.
  unfold rev_string. rewrite list_ascii_of_string_of_list_ascii, rev_involutive.
  apply string_of_list_ascii_of_string.
Qed.

Lemma rev_string_slash s : rev_string (s ++ "/") = String "/" (rev_string s).
Proof.
  unfold rev_string. rewrite list_ascii_of_string_app, rev_app_distr. reflexivity.
Qed.

Lemma lstrip_slash_idempotent s : lstrip_slash (lstrip_slash s) = lstrip_slash s.
Proof.
  induction s as [|c s IH]; simpl; [reflexivity|].
  destruct (Ascii.eqb c "/") eqn:E; [exact IH|]. simpl. now rewrite E.
Qed.

Lemma lstrip_slash_no_slash s : startswith "/" (lstrip_slash s) = false.
Proof.
  induction s as [|c s IH]; simpl; [reflexivity|].
  destruct (Ascii.eqb c "/") eqn:E; [exact IH|].
  unfold startswith. cbn [String.prefix].
  destruct (ascii_dec "/" c) as [<-|]; [|reflexivity].
  now rewrite Ascii.eqb_refl in E.
Qed.

Lemma rstrip_slash_slash s : rstrip_slash (s ++ "/") = rstrip_slash s.
Proof. unfold rstrip_slash. now rewrite rev_string_slash. Qed.

Lemma rstrip_slash_idempotent s : rstrip_slash (rstrip_slash s) = rstrip_slash s.
Proof.
  unfold rstrip_slash. now rewrite rev_string_involutive, lstrip_slash_idempotent.
Qed.

(** X1: trailing slashes of the base URL do not matter.  A client made
    from [url] and one made from [url] followed by a slash are the same;
    the stored base has no trailing slash left to strip, and the API base
    is that base followed by ["/api/v2/"]. *)
Theorem new_client_trailing_slash url :
  new_client (url ++ "/") = new_client url /\
  rstrip_slash (base_url (new_client url)) = base_url (new_client url) /\
  api_base (new_client url) = (base_url (new_client url) ++ "/api/v2/")%string.
Proof.
  unfold new_client. cbn [base_url api_base]. rewrite rstrip_slash_slash.
  split; [reflexivity|]. split; [apply rstrip_slash_idempotent | reflexivity].
Qed.

(** ** What a run adds to the trace *)

Lemma orderly_nil n : orderly n [] Returned.
Proof. split; [simpl; lia | reflexivity]. Qed.

Lemma orderly_weaken n n' evs e :
  (n <= n')%nat -> orderly n evs e -> orderly n' evs e.
Proof. intros Hn [Hc H]. split; [lia | exact H]. Qed.

Lemma orderly_quiet n evs :
  orderly n evs Returned <-> orderly n evs Raised.
Proof. split; intros [Hc H]; split; auto. Qed.

Lemma requests_length_app a b :
  List.length (requests (a ++ b))
  = (List.length (requests a) + List.length (requests b))%nat.
Proof. unfold requests. now rewrite flat_map_app, length_app. Qed.

Lemma orderly_app n1 n2 e1 e2 k :
  orderly n1 e1 Returned -> orderly n2 e2 k -> orderly (n1 + n2) (e1 ++ e2) k.
Proof.
  intros [Hc1 Hq1] [Hc2 H2]. split; [rewrite requests_length_app; lia|].
  destruct k as [| |code].
  - rewrite forallb_app, Hq1. exact H2.
  - rewrite forallb_app, Hq1. exact H2.
  - destruct H2 as (Hcode & Hall & Hex). split; [exact Hcode|]. split.
    + rewrite forallb_app, Hall, andb_true_r.
      rewrite forallb_forall in *. intros ev Hin. now rewrite (Hq1 ev Hin).
    + rewrite existsb_app, Hex. apply orb_true_r.
Qed.

Lemma runs_weaken {A} (m : M A) n n' : (n <= n')%nat -> runs m n -> runs m n'.
Proof.
  intros Hn H st st' r E. destruct (H _ _ _ E) as (evs & Ht & Ho).
  exists evs. split; [exact Ht | now apply (orderly_weaken n)].
Qed.

Lemma runs_silent {A} (m : M A) n :
  (forall st st' r, m st = (st', r) ->
     trace st' = trace st /\ forall c, r <> Exit c) ->
  runs m n.
Proof.
  intros H st st' r E. destruct (H _ _ _ E) as [Ht Hx].
  exists []. rewrite app_nil_r. split; [exact Ht|].
  apply (orderly_weaken 0); [lia|].
  destruct r as [a|e|c]; [apply orderly_nil | apply orderly_quiet, orderly_nil|].
  exfalso. now apply (Hx c).
Qed.

Lemma runs_ret {A} (a : A) n : runs (ret a) n.
Proof.
  apply runs_silent. intros st st' r E. inversion E. split; [reflexivity|discriminate].
Qed.

Lemma runs_lift {A} (x : outcome A) n : runs (lift x) n.
Proof.
  apply runs_silent. intros st st' r E. unfold lift in E.
  destruct x; inversion E; split; try reflexivity; discriminate.
Qed.

Lemma runs_raise {A} e n : runs (@raise A e) n.
Proof.
  apply runs_silent. intros st st' r E. inversion E. split; [reflexivity|discriminate].
Qed.

Lemma runs_get_dependencies n : runs get_dependencies n.
Proof.
  apply runs_silent. intros st st' r E. inversion E. split; [reflexivity|discriminate].
Qed.

Lemma runs_set_dependencies d n : runs (set_dependencies d) n.
Proof.
  apply runs_silent. intros st st' r E. inversion E. split; [reflexivity|discriminate].
Qed.

Lemma runs_print text n : runs (print text) n.
Proof.
  intros st st' r E. inversion E. exists [Stdout text].
  split; [reflexivity|]. split; [simpl; lia | reflexivity].
Qed.

Lemma runs_bind {A B} (m : M A) (k : A -> M B) n1 n2 :
  runs m n1 -> (forall a, runs (k a) n2) -> runs (bind m k) (n1 + n2).
Proof.
  intros Hm Hk st st' r E. unfold bind in E.
  destruct (m st) as [st1 [a|e|c]] eqn:Em;
    destruct (Hm _ _ _ Em) as (e1 & Ht1 & Ho1).
  - destruct (Hk a _ _ _ E) as (e2 & Ht2 & Ho2).
    exists (e1 ++ e2). split; [now rewrite Ht2, Ht1, app_assoc|].
    now apply orderly_app.
  - inversion E; subst. exists e1. split; [exact Ht1|].
    apply (orderly_weaken n1); [lia | exact Ho1].
  - inversion E; subst. exists e1. split; [exact Ht1|].
    apply (orderly_weaken n1); [lia | exact Ho1].
Qed.

Lemma runs_bind0 {A B} (m : M A) (k : A -> M B) n :
  runs m 0 -> (forall a, runs (k a) n) -> runs (bind m k) n.
Proof. intros Hm Hk. apply (runs_bind m k 0 n Hm Hk). Qed.

Lemma runs_bind1 {A B} (m : M A) (k : A -> M B) n :
  runs m n -> (forall a, runs (k a) 0) -> runs (bind m k) n.
Proof.
  intros Hm Hk. apply (runs_weaken _ (n + 0)); [lia|]. now apply runs_bind.
Qed.

Lemma runs_try {A} (m : M A) catches (h : exn -> M A) n1 n2 :
  runs m n1 -> (forall e, runs (h e) n2) -> runs (try_except m catches h) (n1 + n2).
Proof.
  intros Hm Hh st st' r E. unfold try_except in E.
  destruct (m st) as [st1 [a|e|c]] eqn:Em;
    destruct (Hm _ _ _ Em) as (e1 & Ht1 & Ho1).
  - inversion E; subst. exists e1. split; [exact Ht1|].
    apply (orderly_weaken n1); [lia | exact Ho1].
  - destruct (catches (exn_class e)).
    + destruct (Hh e _ _ _ E) as (e2 & Ht2 & Ho2).
      exists (e1 ++ e2). split; [now rewrite Ht2, Ht1, app_assoc|].
      apply orderly_app; [now apply orderly_quiet | exact Ho2].
    + inversion E; subst. exists e1. split; [exact Ht1|].
      apply (orderly_weaken n1); [lia | exact Ho1].
  - inversion E; subst. exists e1. split; [exact Ht1|].
    apply (orderly_weaken n1); [lia | exact Ho1].
Qed.

(** A loop spends what its turns spend. *)
Lemma runs_for_each {A} (body : A -> M unit) (w : A -> nat) : forall l,
  (forall x, In x l -> runs (body x) (w x)) ->
  runs (for_each l body) (list_sum (map w l)).
Proof.
  induction l as [|x l IH]; intros H.
  - apply runs_ret.
  - cbn [for_each map list_sum]. apply runs_bind.
    + apply H. now left.
    + intros _. apply IH. intros y Hy. apply H. now right.
Qed.

Lemma list_sum_bounded {A} (w : A -> nat) b : forall l,
  (forall x, In x l -> (w x <= b)%nat) ->
  (list_sum (map w l) <= b * List.length l)%nat.
Proof.
  induction l as [|x l IH]; intros H; simpl; [lia|].
  assert (w x <= b)%nat by (apply H; now left).
  assert (list_sum (map w l) <= b * List.length l)%nat
    by (apply IH; intros y Hy; apply H; now right).
  lia.
Qed.

Lemma runs_dep_set key v n : runs (dep_set key v) n.
Proof.
  unfold dep_set. apply runs_bind0; [apply runs_get_dependencies|].
  intros d. apply runs_set_dependencies.
Qed.

Lemma runs_dep_append key x n : runs (dep_append key x) n.
Proof.
  unfold dep_append. apply runs_bind0; [apply runs_get_dependencies|].
  intros d. destruct (dict_get key d) as [[]|];
    try apply runs_raise; apply runs_set_dependencies.
Qed.


Section Coverage.

Variable py_int : string -> option Z.
Variable py_repr : json -> string.
Variable urljoin : string -> string -> outcome string.
Variable server : string -> response.

Lemma runs_get self endpoint n : runs (get urljoin server self endpoint) (S n).
Proof.
  intros st st' r E. rewrite get_run in E.
  destruct (urljoin _ _) as [url|e].
  - destruct (server _) as [body|msg text]; inversion E; subst; cbn [log trace].
    + eexists. split; [reflexivity|]. split; [simpl; lia | reflexivity].
    + eexists. split; [reflexivity|]. split; [destruct text; simpl; lia|].
      destruct text; simpl; auto.
  - inversion E; subst. exists []. rewrite app_nil_r.
    split; [reflexivity|]. split; [simpl; lia | reflexivity].
Qed.

Lemma runs_get_related_data self link n :
  runs (get_related_data urljoin server self link) (S n).
Proof.
  unfold get_related_data. destruct link; try apply runs_raise.
  destruct (related_endpoint _); [apply runs_get | apply runs_ret].
Qed.

Lemma runs_record_item field item n : runs (record_item py_repr field item) n.
Proof.
  unfold record_item.
  apply runs_bind0; [apply runs_lift|]. intros fallback.
  apply runs_bind0; [apply runs_lift|]. intros name.
  apply runs_bind0; [apply runs_lift|]. intros item_id.
  apply runs_bind0; [apply runs_print|]. intros _.
  apply runs_dep_append.
Qed.

Lemma runs_for_each_free {A} (body : A -> M unit) l :
  (forall x, runs (body x) 0) -> runs (for_each l body) 0.
Proof.
  intros H. apply (runs_weaken _ (list_sum (map (fun _ => 0%nat) l))).
  - clear. induction l; simpl; lia.
  - apply runs_for_each. intros x _. apply H.
Qed.

Lemma runs_list_resource self related field :
  runs (list_resource py_repr urljoin server self related field) 1.
Proof.
  unfold list_resource.
  apply runs_bind0; [apply runs_lift|]. intros link.
  apply runs_bind1; [apply runs_get_related_data|]. intros data.
  apply runs_bind0; [apply runs_lift|]. intros count.
  apply runs_bind0; [apply runs_print|]. intros _.
  apply runs_bind0; [apply runs_lift|]. intros positive.
  apply runs_bind0; [destruct positive; [apply runs_lift | apply runs_ret]|].
  intros [|]; [|apply runs_ret].
  apply runs_bind0; [apply runs_dep_set|]. intros _.
  apply runs_bind0; [apply runs_lift|]. intros results.
  apply runs_bind0; [apply runs_lift|]. intros items.
  apply runs_bind0; [apply runs_for_each_free; intros; apply runs_record_item|].
  intros _.
  apply runs_bind0; [apply runs_lift|]. intros [|]; [|apply runs_ret].
  apply runs_bind0; [apply runs_lift|]. intros rest. apply runs_print.
Qed.

Lemma runs_visit_resource self related entry :
  runs (visit_resource py_repr urljoin server self related entry)
       (turn_cost related entry).
Proof.
  destruct entry as [field label]. unfold visit_resource, turn_cost, present.
  cbn [fst].
  destruct (Py.contains field related) as [[|]|e] eqn:Hc.
  - apply runs_bind0; [apply runs_lift|]. intros [|]; [|apply runs_ret].
    apply runs_bind0; [apply runs_print|]. intros _.
    apply (runs_weaken _ (1 + 0)); [lia|].
    apply runs_try; [apply runs_list_resource|]. intros e. apply runs_print.
  - intros st st' r E. unfold bind, lift in E. inversion E; subst.
    exists []. rewrite app_nil_r. split; [reflexivity | apply orderly_nil].
  - intros st st' r E. unfold bind, lift in E. inversion E; subst.
    exists []. rewrite app_nil_r. split; [reflexivity|].
    apply orderly_quiet, orderly_nil.
Qed.

Lemma turn_cost_sum related : forall l,
  list_sum (map (turn_cost related) l) = List.length (filter (present related) l).
Proof.
  induction l as [|x l IH]; [reflexivity|].
  cbn [map list_sum filter]. unfold turn_cost at 1.
  destruct (present related x); simpl; now rewrite IH.
Qed.

Lemma runs_catalogue self related :
  runs (for_each resource_types (visit_resource py_repr urljoin server self related))
       (List.length (filter (present related) resource_types)).
Proof.
  rewrite <- turn_cost_sum. apply runs_for_each.
  intros entry _. apply runs_visit_resource.
Qed.

Lemma runs_check_credential self org cred :
  runs (check_credential py_repr urljoin server self org cred) 1.
Proof.
  unfold check_credential.
  apply runs_bind0; [apply runs_lift|]. intros cred_id.
  apply runs_bind1; [apply runs_get|]. intros detail.
  apply runs_bind0; [apply runs_lift|]. intros owner.
  apply runs_bind0.
  { destruct (Py.truthy owner); [|apply runs_ret].
    apply runs_bind0; [apply runs_lift|]. intros oid. apply runs_ret. }
  intros [|]; [|apply runs_ret].
  apply runs_bind0; [apply runs_lift|]. intros name.
  apply runs_bind0; [apply runs_print|]. intros _.
  apply runs_bind0; [apply runs_get_dependencies|]. intros d.
  apply runs_bind0; [destruct (dict_mem cross_key d);
                     [apply runs_ret | apply runs_dep_set]|].
  intros _. apply runs_dep_append.
Qed.

Lemma runs_credential_turn self org cred :
  runs (credential_turn py_repr urljoin server self org cred) 1.
Proof.
  unfold credential_turn. apply (runs_weaken _ (1 + 0)); [lia|].
  apply runs_try; [apply runs_check_credential|]. intros e.
  apply runs_bind0; [apply runs_lift|]. intros cred_id. apply runs_print.
Qed.

Lemma runs_credential_loop self org creds :
  runs (for_each creds (credential_turn py_repr urljoin server self org))
       (List.length creds).
Proof.
  apply (runs_weaken _ (list_sum (map (fun _ => 1%nat) creds))).
  - pose proof (list_sum_bounded (fun _ : json => 1%nat) 1 creds) as B.
    rewrite Nat.mul_1_l in B. apply B. intros; lia.
  - apply runs_for_each. intros cred _. apply runs_credential_turn.
Qed.

Lemma check_credentials_orderly self org related st st' r :
  previews_ok urljoin server self related (dependencies st) ->
  check_credentials py_repr urljoin server self org st = (st', r) ->
  exists evs, trace st' = trace st ++ evs /\ orderly 5 evs (ending_of r).
Proof.
  intros Hok H.
  pose proof (creds_of_previews _ _ _ _ _ Hok) as [_ Hlen].
  assert (E : check_credentials py_repr urljoin server self org st
              = (if dict_mem "credentials" (dependencies st) then
                   bind (print (nl ++ "Checking credentials for cross-organization dependencies..."))
                     (fun _ => for_each (creds_of (dependencies st))
                                 (credential_turn py_repr urljoin server self org))
                 else ret tt) st).
  { unfold check_credentials. unfold bind at 1. unfold get_dependencies.
    unfold creds_of, dict_mem.
    destruct (dict_get "credentials" (dependencies st)) as [v|] eqn:G; [|reflexivity].
    destruct Hok as [_ Hall].
    destruct (Hall _ _ (dict_get_In _ _ _ G)) as (_ & _ & l & -> & _ & _).
    unfold bind, lift. cbn [Py.getitem Py.iter]. rewrite G. reflexivity. }
  rewrite E in H. clear E.
  assert (R : runs (if dict_mem "credentials" (dependencies st) then
                      bind (print (nl ++ "Checking credentials for cross-organization dependencies..."))
                        (fun _ => for_each (creds_of (dependencies st))
                                    (credential_turn py_repr urljoin server self org))
                    else ret tt) 5).
  { destruct (dict_mem _ _); [|apply runs_ret].
    apply runs_bind0; [apply runs_print|]. intros _.
    apply (runs_weaken _ (List.length (creds_of (dependencies st)))); [exact Hlen|].
    apply runs_credential_loop. }
  exact (R _ _ _ H).
Qed.

Lemma present_count_le related :
  (List.length (filter (present related) resource_types) <= 12)%nat.
Proof.
  pose proof (filter_length_le (present related) resource_types) as H.
  exact H.
Qed.

(** The traversal in three stages, with what each adds to the trace. *)
Lemma find_dependencies_orderly self org related st st' r :
  Py.get org "related" (JObj []) = Val related ->
  _find_dependencies py_repr urljoin server self org st = (st', r) ->
  exists evs,
    trace st' = trace st ++ evs /\
    orderly (List.length (filter (present related) resource_types) + 5) evs
            (ending_of r).
Proof.
  intros Hrel H. unfold _find_dependencies in H.
  unfold bind at 1 in H. unfold set_dependencies at 1 in H.
  unfold bind at 1 in H. rewrite print_run in H.
  unfold bind at 1 in H. rewrite print_run in H.
  unfold bind at 1 in H. unfold lift at 1 in H. rewrite Hrel in H.
  assert (Hsum : exists w, Py.get org "summary_fields" (JObj []) = Val w).
  { destruct org; try discriminate. simpl. eauto. }
  destruct Hsum as [w Hsum].
  unfold bind at 1 in H. unfold lift at 1 in H. rewrite Hsum in H.
  set (st0 := log (log _ _) _) in H.
  assert (T0 : trace st0 = trace st ++ [Stdout "DEPENDENCIES & RELATED RESOURCES:";
                                        Stdout (repeat_str "-" 80)]).
  { subst st0. unfold log. cbn [trace]. now rewrite <- app_assoc. }
  assert (O0 : orderly 0 [Stdout "DEPENDENCIES & RELATED RESOURCES:";
                          Stdout (repeat_str "-" 80)] Returned).
  { split; [simpl; lia | reflexivity]. }
  assert (D0 : previews_ok urljoin server self related (dependencies st0)).
  { subst st0. apply previews_ok_empty. }
  clearbody st0.
  assert (Glue : forall n e1 e2 stx k,
             trace stx = trace st0 ++ e1 -> orderly n e1 Returned ->
             trace st' = trace stx ++ e2 -> orderly 5 e2 k ->
             (n <= List.length (filter (present related) resource_types))%nat ->
             exists evs,
               trace st' = trace st ++ evs /\
               orderly (List.length (filter (present related) resource_types) + 5)
                       evs k).
  { intros n e1 e2 stx k T1 O1 T2 O2 Hn. eexists. split.
    - rewrite T2, T1, T0, <- !app_assoc. reflexivity.
    - apply (orderly_app 0 _ _ _ k O0).
      apply orderly_app; [|exact O2]. now apply (orderly_weaken n). }
  apply bind_inv in H as [([] & st1 & H1 & H) | [(e & H1 & ->) | (c & H1 & ->)]];
    pose proof (catalogue_keeps_previews _ _ _ _ _ _ _ _ D0 H1) as D1;
    destruct (runs_catalogue self related _ _ _ H1) as (e1 & T1 & O1).
  2: { exists ([Stdout "DEPENDENCIES & RELATED RESOURCES:";
                Stdout (repeat_str "-" 80)] ++ e1).
       split; [now rewrite T1, T0, <- app_assoc|].
       apply (orderly_app 0 _ _ _ _ O0). apply (orderly_weaken _ _ _ _ (Nat.le_add_r _ 5) O1). }
  2: { exists ([Stdout "DEPENDENCIES & RELATED RESOURCES:";
                Stdout (repeat_str "-" 80)] ++ e1).
       split; [now rewrite T1, T0, <- app_assoc|].
       apply (orderly_app 0 _ _ _ _ O0). apply (orderly_weaken _ _ _ _ (Nat.le_add_r _ 5) O1). }
  apply bind_inv in H as [([] & st2 & H2 & H) | [(e & H2 & ->) | (c & H2 & ->)]];
    destruct (check_credentials_orderly _ _ _ _ _ _ D1 H2) as (e2 & T2 & O2).
  2: { eapply Glue; eauto. }
  2: { eapply Glue; eauto. }
  unfold bind, print, emit, get_dependencies in H. inversion H; subst. cbn [trace].
  assert (O3 : orderly 5 (e2 ++ [Stdout ""]) Returned).
  { assert (Q : orderly 0 [Stdout ""] Returned) by (split; [simpl; lia | reflexivity]).
    pose proof (orderly_app 5 0 e2 [Stdout ""] Returned O2 Q) as O.
    now rewrite Nat.add_0_r in O. }
  apply (Glue _ e1 (e2 ++ [Stdout ""]) st1 Returned T1 O1); auto.
  cbn [trace]. rewrite T2. now rewrite app_assoc.
Qed.








(** ** The process as a whole *)




Variable open_for_writing : string -> outcome unit.
Variable parse_args : list string -> parsed.





(** ** The preview of a page, line by line *)

Lemma record_items_objects field : forall ds st l,
  dict_get field (dependencies st) = Some (JList l) ->
  for_each (map JObj ds) (record_item py_repr field) st
  = (State (dict_set field (JList (l ++ map summary_of ds)) (dependencies st))
           (trace st ++ map (item_line py_repr) ds),
     Ret tt).
Proof.
  induction ds as [|d ds IH]; intros st l Hl.
  - simpl. unfold ret. rewrite !app_nil_r, (dict_set_same _ _ _ Hl).
    now destruct st.
  - cbn [map for_each]. unfold bind.
    rewrite (record_item_run _ _ _ _ _ Hl).
    rewrite IH with (l := l ++ [summary_of d]);
      [|cbn [dependencies]; apply dict_get_set_same].
    cbn [dependencies trace]. rewrite dict_set_set, <- !app_assoc. reflexivity.
Qed.

Lemma record_items_stop field ds bad tail st l :
  (forall d, bad <> JObj d) ->
  dict_get field (dependencies st) = Some (JList l) ->
  for_each (map JObj ds ++ bad :: tail) (record_item py_repr field) st
  = (State (dict_set field (JList (l ++ map summary_of ds)) (dependencies st))
           (trace st ++ map (item_line py_repr) ds),
     Raise (Py.no_attribute bad "get")).
Proof.
  intros Hbad. revert st l.
  induction ds as [|d ds IH]; intros st l Hl.
  - cbn [map app for_each]. unfold bind.
    rewrite (record_item_run _ _ _ _ _ Hl).
    rewrite !app_nil_r, (dict_set_same _ _ _ Hl).
    destruct bad; try (now destruct st). exfalso. now apply (Hbad l0).
  - cbn [map app for_each]. unfold bind.
    rewrite (record_item_run _ _ _ _ _ Hl).
    rewrite IH with (l := l ++ [summary_of d]);
      [|cbn [dependencies]; apply dict_get_set_same].
    cbn [dependencies trace]. rewrite dict_set_set, <- !app_assoc. reflexivity.
Qed.

(** The turn of a present type up to the preview loop, for a page that
    is a dictionary with a positive integer count and a 'results' list. *)
Lemma visit_listed_page self related field label link endpoint url d c items st :
  Py.contains field related = Val true ->
  Py.getitem related field = Val (JStr link) ->
  related_endpoint link = Some endpoint ->
  urljoin (api_base self) endpoint = Val url ->
  server url = Ok (JObj d) ->
  dict_get "count" d = Some (JInt c) ->
  (0 < c)%Z ->
  dict_get "results" d = Some (JList items) ->
  let st1 := State (dict_set field (JList []) (dependencies st))
                   (trace st ++ page_opening py_repr label url (JInt c)) in
  visit_resource py_repr urljoin server self related (field, label) st
  = match for_each (firstn 5 items) (record_item py_repr field) st1 with
    | (st2, Ret _) =>
        if (5 <? c)%Z
        then (log st2 [Stdout ("    ... and " ++ str_of_Z (c - 5) ++ " more")],
              Ret tt)
        else (st2, Ret tt)
    | (st2, Raise e) =>
        (log st2 [Stdout ("  Error retrieving " ++ label ++ ": " ++ exn_str e)],
         Ret tt)
    | (st2, Exit code) => (st2, Exit code)
    end.
Proof.
  intros Hc Hlink Hend Hjoin Hsrv Hcount Hpos Hres. cbv zeta.
  set (st1 := State (dict_set field (JList []) (dependencies st))
                    (trace st ++ page_opening py_repr label url (JInt c))).
  rewrite (visit_present _ _ _ _ _ _ _ _ Hc).
  unfold list_resource.
  unfold bind at 1. unfold lift at 1. rewrite Hlink.
  unfold bind at 1. unfold get_related_data.
  rewrite Hend, (get_joined _ _ _ _ _ _ Hjoin). rewrite Hsrv.
  unfold bind at 1. unfold lift at 1. cbn [Py.get]. rewrite Hcount.
  unfold bind at 1. rewrite print_run.
  unfold bind at 1. unfold lift at 1. cbn [Py.gt Py.as_number].
  apply Z.ltb_lt in Hpos. rewrite Hpos.
  unfold bind at 1. unfold lift at 1. cbn [Py.contains].
  unfold dict_mem. rewrite Hres.
  unfold bind at 1. unfold dep_set at 1, bind at 1, get_dependencies, set_dependencies.
  cbn [log dependencies trace].
  unfold bind at 1. unfold lift at 1. cbn [Py.getitem]. rewrite Hres.
  unfold bind at 1. unfold lift at 1. cbn [Py.slice_to].
  assert (E : State (dict_set field (JList []) (dependencies st))
                    (((trace st ++ [Stdout (nl ++ label ++ ":")]) ++ [Request url])
                     ++ [Stdout ("  Count: " ++ py_str py_repr (JInt c))])
              = st1).
  { subst st1. unfold page_opening. now rewrite <- !app_assoc. }
  rewrite E. clear E.
  unfold bind at 1.
  destruct (for_each (firstn 5 items) (record_item py_repr field) st1)
    as [st2 [[]|e|code]]; try reflexivity.
  unfold bind at 1. unfold lift at 1. cbn [Py.gt Py.as_number].
  destruct (5 <? c)%Z; [|reflexivity].
  unfold bind, lift. cbn [Py.sub Py.as_number py_str]. reflexivity.
Qed.

(** X6: the turn of a resource type whose page is well formed (a
    positive integer count, a 'results' list of dictionaries) makes the
    one request, prints the label, the count and one line per previewed
    item, and a last line with the remainder exactly when the count
    exceeds 5; it stores under the type's key the summaries of the first
    five results, in the order of the page, whatever the count says. *)
Theorem visit_previews_page self related field label link endpoint url d c ds st :
  Py.contains field related = Val true ->
  Py.getitem related field = Val (JStr link) ->
  related_endpoint link = Some endpoint ->
  urljoin (api_base self) endpoint = Val url ->
  server url = Ok (JObj d) ->
  dict_get "count" d = Some (JInt c) ->
  (0 < c)%Z ->
  dict_get "results" d = Some (JList (map JObj ds)) ->
  visit_resource py_repr urljoin server self related (field, label) st
  = (State (dict_set field (JList (map summary_of (firstn 5 ds))) (dependencies st))
           (trace st
            ++ page_opening py_repr label url (JInt c)
            ++ map (item_line py_repr) (firstn 5 ds)
            ++ (if (5 <? c)%Z
                then [Stdout ("    ... and " ++ str_of_Z (c - 5) ++ " more")]
                else [])),
     Ret tt).
Proof.
  intros Hc Hlink Hend Hjoin Hsrv Hcount Hpos Hres.
  rewrite (visit_listed_page _ _ _ _ _ _ _ _ _ _ _ Hc Hlink Hend Hjoin Hsrv
             Hcount Hpos Hres).
  cbv zeta. rewrite firstn_map.
  rewrite record_items_objects with (l := []);
    [|cbn [dependencies]; apply dict_get_set_same].
  cbn [dependencies trace app]. rewrite dict_set_set.
  destruct (5 <? c)%Z; unfold log; cbn [dependencies trace];
    rewrite <- ?app_assoc, ?app_nil_r; reflexivity.
Qed.

(** X7: when one of the first five results is not a dictionary, the
    summaries of the items before it stay under the type's key, the
    [AttributeError] is caught and reported on the output stream, and
    the turn returns, so the traversal goes on with a partly filled
    entry. *)
Theorem visit_stops_at_malformed_item
  self related field label link endpoint url d c ds bad rest st :
  Py.contains field related = Val true ->
  Py.getitem related field = Val (JStr link) ->
  related_endpoint link = Some endpoint ->
  urljoin (api_base self) endpoint = Val url ->
  server url = Ok (JObj d) ->
  dict_get "count" d = Some (JInt c) ->
  (0 < c)%Z ->
  dict_get "results" d = Some (JList (map JObj ds ++ bad :: rest)) ->
  (List.length ds < 5)%nat ->
  (forall d', bad <> JObj d') ->
  visit_resource py_repr urljoin server self related (field, label) st
  = (State (dict_set field (JList (map summary_of ds)) (dependencies st))
           (trace st
            ++ page_opening py_repr label url (JInt c)
            ++ map (item_line py_repr) ds
            ++ [Stdout ("  Error retrieving " ++ label ++ ": '"
                        ++ Py.type_name bad ++ "' object has no attribute 'get'")]),
     Ret tt).
Proof.
  intros Hc Hlink Hend Hjoin Hsrv Hcount Hpos Hres Hlen Hbad.
  rewrite (visit_listed_page _ _ _ _ _ _ _ _ _ _ _ Hc Hlink Hend Hjoin Hsrv
             Hcount Hpos Hres).
  cbv zeta.
  assert (F : firstn 5 (map JObj ds ++ bad :: rest)
              = map JObj ds ++ bad :: firstn (4 - List.length ds) rest).
  { rewrite firstn_app, length_map.
    rewrite firstn_all2 by (rewrite length_map; lia).
    replace (5 - List.length ds)%nat with (S (4 - List.length ds)) by lia.
    reflexivity. }
  rewrite F.
  rewrite record_items_stop with (l := []);
    [|exact Hbad|cbn [dependencies]; apply dict_get_set_same].
  cbn [dependencies trace app]. rewrite dict_set_set.
  unfold log, Py.no_attribute, squote. cbn [dependencies trace exn_str].
  rewrite <- ?app_assoc. reflexivity.
Qed.

(** ** Related links of every shape *)

(** X8: an absolute link without the version root costs no request:
    [get_related_data] returns null and leaves the state as it was; in
    the traversal the null page then raises at [data.get], which the turn
    reports before it returns. *)
Theorem absolute_link_without_marker self link :
  startswith "http" link = true ->
  substring_of api_marker link = false ->
  (forall st,
     get_related_data urljoin server self (JStr link) st = (st, Ret JNull)) /\
  (forall related field label st,
     Py.contains field related = Val true ->
     Py.getitem related field = Val (JStr link) ->
     visit_resource py_repr urljoin server self related (field, label) st
     = (log st [Stdout (nl ++ label ++ ":");
                Stdout ("  Error retrieving " ++ label
                        ++ ": 'NoneType' object has no attribute 'get'")],
        Ret tt)).
Proof.
  intros Hh Hm.
  pose proof (related_endpoint_no_marker _ Hh Hm) as Hend. split.
  - intros st. unfold get_related_data. now rewrite Hend.
  - intros related field label st Hc Hlink.
    rewrite (visit_present _ _ _ _ _ _ _ _ Hc).
    unfold list_resource, bind, lift, get_related_data. rewrite Hlink, Hend.
    cbn. unfold log. cbn [trace dependencies]. now rewrite <- app_assoc.
Qed.

(** X9: an absolute link that holds the version root exactly once is
    requested by what follows the root. *)
Theorem absolute_link_with_one_marker self pre suf st :
  startswith "http" (pre ++ api_marker ++ suf) = true ->
  starts_nowhere api_marker pre (api_marker ++ suf) = true ->
  substring_of api_marker suf = false ->
  get_related_data urljoin server self (JStr (pre ++ api_marker ++ suf)) st
  = get urljoin server self suf st.
Proof.
  intros Hh Hpre Hsuf. unfold get_related_data.
  now rewrite (related_endpoint_single_marker _ _ Hh Hpre Hsuf).
Qed.

(** X10: a relative link is requested without its leading slashes: the
    endpoint never starts with a slash, and one more leading slash makes
    no difference. *)
Theorem relative_link_strips_slashes self link st :
  startswith "http" link = false ->
  get_related_data urljoin server self (JStr link) st
  = get urljoin server self (lstrip_slash link) st /\
  startswith "/" (lstrip_slash link) = false /\
  get_related_data urljoin server self (JStr ("/" ++ link)) st
  = get_related_data urljoin server self (JStr link) st.
Proof.
  intros Hh. unfold get_related_data.
  rewrite (related_endpoint_relative _ Hh).
  split; [reflexivity|]. split; [apply lstrip_slash_no_slash|].
  assert (Hs : startswith "http" ("/" ++ link) = false) by reflexivity.
  rewrite (related_endpoint_relative _ Hs). reflexivity.
Qed.

(** X11: a related link that is not a string (null, a number, an
    object) costs no request: [startswith] is missing, the
    [AttributeError] is caught, the turn reports it and returns with
    [dependencies] as they were. *)
Theorem visit_with_non_string_link self related field label link st :
  Py.contains field related = Val true ->
  Py.getitem related field = Val link ->
  (forall s, link <> JStr s) ->
  visit_resource py_repr urljoin server self related (field, label) st
  = (log st [Stdout (nl ++ label ++ ":");
             Stdout ("  Error retrieving " ++ label ++ ": '"
                     ++ Py.type_name link
                     ++ "' object has no attribute 'startswith'")],
     Ret tt).
Proof.
  intros Hc Hlink Hns.
  rewrite (visit_present _ _ _ _ _ _ _ _ Hc).
  unfold list_resource, bind, lift. rewrite Hlink.
  destruct link as [| | |s| |];
    try (cbn; unfold log; cbn [trace dependencies];
         now rewrite <- app_assoc).
  exfalso. now apply (Hns s).
Qed.

(** X27: a related link whose URL [urljoin] refuses costs no request:
    the exception is raised inside the [try] of the type's turn, which
    reports it on the output stream and returns with [dependencies] as
    they were, so the traversal goes on. *)
Theorem visit_with_refused_url self related field label link endpoint e st :
  Py.contains field related = Val true ->
  Py.getitem related field = Val (JStr link) ->
  related_endpoint link = Some endpoint ->
  urljoin (api_base self) endpoint = Err e ->
  visit_resource py_repr urljoin server self related (field, label) st
  = (log st [Stdout (nl ++ label ++ ":");
             Stdout ("  Error retrieving " ++ label ++ ": " ++ exn_str e)],
     Ret tt).
Proof.
  intros Hc Hlink Hend Hjoin.
  rewrite (visit_present _ _ _ _ _ _ _ _ Hc).
  unfold list_resource. unfold bind at 1. unfold lift at 1. rewrite Hlink.
  unfold bind at 1. unfold get_related_data. rewrite Hend, get_run, Hjoin.
  now rewrite log_log.
Qed.

(** ** The cross-organization check, turn by turn *)

Lemma returned_has_related self org st st' deps :
  _find_dependencies py_repr urljoin server self org st = (st', Ret deps) ->
  exists related, Py.get org "related" (JObj []) = Val related.
Proof.
  intros H. destruct (Py.get org "related" (JObj [])) as [related|e] eqn:Hrel;
    [eauto|].
  unfold _find_dependencies, bind, lift in H. simpl in H. rewrite Hrel in H.
  discriminate.
Qed.

(** X12: the list under 'cross_org_credentials' holds exactly one entry
    per previewed credential with a mismatched owner, in the order of the
    preview, and the key is absent when there is none. *)
Theorem cross_list_is_exact self org st st' deps :
  _find_dependencies py_repr urljoin server self org st = (st', Ret deps) ->
  dict_get cross_key deps
  = match cross_entries urljoin server self py_repr org (creds_of deps) with
    | [] => None
    | entries => Some (JList entries)
    end /\
  (List.length (cross_entries urljoin server self py_repr org (creds_of deps))
   <= List.length (creds_of deps) <= 5)%nat.
Proof.
  intros H. destruct (returned_has_related _ _ _ _ _ H) as [related Hrel].
  destruct (find_dependencies_stages _ _ _ _ _ _ _ _ _ Hrel H)
    as (previews & Hok & ->).
  rewrite with_cross_creds.
  split.
  { rewrite (with_cross_get _ _ (previews_ok_no_cross _ _ _ _ _ Hok)).
    now destruct (cross_entries _ _ _ _ _ _). }
  split; [apply cross_entries_length|].
  now destruct (creds_of_previews _ _ _ _ _ Hok).
Qed.

Lemma cross_entries_without_org_id self org e :
  Py.getitem org "id" = Err e ->
  forall creds, cross_entries urljoin server self py_repr org creds = [].
Proof.
  intros Hid. induction creds as [|cred creds IH]; [reflexivity|].
  rewrite cross_entries_cons, IH, app_nil_r.
  unfold cross_entries. cbn [flat_map]. rewrite app_nil_r.
  unfold mismatched_owner.
  destruct (Py.getitem cred "id"); [|reflexivity].
  destruct (Py.getitem cred "name"); [|reflexivity].
  destruct (urljoin _ _) as [url|]; [|reflexivity].
  destruct (server _) as [[| | | | |detail]|]; try reflexivity.
  cbv zeta. rewrite Hid. now destruct (Py.truthy _).
Qed.

(** X13: when the inspected organization's record has no 'id', the test
    [cred_org_id != org['id']] raises for every truthy owner, the
    [KeyError] is caught per credential, and the returned map never has
    the 'cross_org_credentials' key. *)
Theorem no_cross_key_without_org_id self org e st st' deps :
  Py.getitem org "id" = Err e ->
  _find_dependencies py_repr urljoin server self org st = (st', Ret deps) ->
  dict_get cross_key deps = None.
Proof.
  intros Hid H. destruct (returned_has_related _ _ _ _ _ H) as [related Hrel].
  destruct (find_dependencies_stages _ _ _ _ _ _ _ _ _ Hrel H)
    as (previews & Hok & ->).
  rewrite (cross_entries_without_org_id _ _ _ Hid). cbn [with_cross].
  eapply previews_ok_no_cross; eauto.
Qed.

(** X14: a credential whose detail record is not a dictionary is
    reported on the output stream and skipped: the turn makes its
    request, prints the error, returns, and leaves [dependencies] as
    they were. *)
Theorem credential_with_malformed_detail self org cred cred_id url detail st :
  Py.getitem cred "id" = Val cred_id ->
  urljoin (api_base self) ("credentials/" ++ py_str py_repr cred_id ++ "/")
  = Val url ->
  server url = Ok detail ->
  (forall d, detail <> JObj d) ->
  credential_turn py_repr urljoin server self org cred st
  = (log st [Request url;
             Stdout ("  Error checking credential " ++ py_str py_repr cred_id
                     ++ ": '" ++ Py.type_name detail
                     ++ "' object has no attribute 'get'")],
     Ret tt).
Proof.
  intros Hid Hjoin Hsrv Hnd.
  unfold credential_turn, try_except, check_credential.
  unfold bind at 1. unfold lift at 1. rewrite Hid.
  unfold bind at 1. rewrite (get_joined _ _ _ _ _ _ Hjoin). rewrite Hsrv.
  unfold bind at 1. unfold lift at 1.
  destruct detail as [| | | | |d];
    try (exfalso; now apply (Hnd d)).
  all: cbn [Py.get]; unfold any_exception, bind, lift, print, emit, log;
    cbn [trace dependencies]; rewrite <- app_assoc; reflexivity.
Qed.

(** X15: a failed request for a credential's detail record is not caught
    by the [try] around it: the GET helper reports it on the error
    stream and the process ends with status 1 in that turn. *)
Theorem credential_request_failure_is_fatal
  self org cred cred_id url msg text st :
  Py.getitem cred "id" = Val cred_id ->
  urljoin (api_base self) ("credentials/" ++ py_str py_repr cred_id ++ "/")
  = Val url ->
  server url = Failed msg text ->
  credential_turn py_repr urljoin server self org cred st
  = (log st (Request url :: failure_report url msg text), Exit 1) /\
  forall rest,
    for_each (cred :: rest) (credential_turn py_repr urljoin server self org) st
    = (log st (Request url :: failure_report url msg text), Exit 1).
Proof.
  intros Hid Hjoin Hsrv.
  assert (E : credential_turn py_repr urljoin server self org cred st
              = (log st (Request url :: failure_report url msg text), Exit 1)).
  { unfold credential_turn, try_except, check_credential.
    unfold bind at 1. unfold lift at 1. rewrite Hid.
    unfold bind at 1. rewrite (get_joined _ _ _ _ _ _ Hjoin).
    now rewrite Hsrv. }
  split; [exact E|]. intros rest. cbn [for_each]. unfold bind. now rewrite E.
Qed.

(** X16: a previewed credential whose detail record has a truthy owner
    that is [!=] the organization's ID takes a turn that makes the
    request, prints the warning with the credential's name and the
    owner, and appends the pair of summary and owner to the list under
    'cross_org_credentials', which it creates when it is not there. *)
Theorem credential_with_mismatched_owner
  self org cred cred_id cred_name url detail owner org_id base entries st :
  Py.getitem cred "id" = Val cred_id ->
  Py.getitem cred "name" = Val cred_name ->
  urljoin (api_base self) ("credentials/" ++ py_str py_repr cred_id ++ "/")
  = Val url ->
  server url = Ok (JObj detail) ->
  dict_get "organization" detail = Some owner ->
  Py.truthy owner = true ->
  Py.getitem org "id" = Val org_id ->
  Py.eq owner org_id = false ->
  dict_get cross_key base = None ->
  dependencies st = with_cross base entries ->
  credential_turn py_repr urljoin server self org cred st
  = (State (with_cross base (entries ++ [cross_entry cred owner]))
           (trace st
            ++ [Request url;
                Stdout ("  ⚠️  Credential '" ++ py_str py_repr cred_name
                        ++ "' belongs to different organization (ID: "
                        ++ py_str py_repr owner ++ ")")]),
     Ret tt).
Proof.
  intros Hid Hname Hjoin Hsrv Hown Ht Horg Hne Hbase Hdeps.
  destruct (with_cross_push base entries (cross_entry cred owner) Hbase)
    as [Hpush Hget].
  unfold credential_turn, try_except, check_credential.
  unfold bind at 1. unfold lift at 1. rewrite Hid.
  unfold bind at 1. rewrite (get_joined _ _ _ _ _ _ Hjoin). rewrite Hsrv.
  unfold bind at 1. unfold lift at 1. cbn [Py.get]. rewrite Hown.
  unfold bind at 1. rewrite Ht.
  unfold bind at 1. unfold lift at 1. rewrite Horg. unfold ret at 1. rewrite Hne.
  cbn [negb].
  unfold bind at 1. unfold lift at 1. rewrite Hname.
  unfold bind at 1. rewrite print_run.
  unfold dep_append, dep_set, get_dependencies, set_dependencies, bind, ret, log.
  cbn [dependencies trace]. rewrite Hdeps.
  revert Hpush Hget.
  destruct (dict_mem cross_key (with_cross base entries)); intros Hpush Hget;
    cbn [dependencies trace]; unfold cross_entry in *; rewrite Hget;
    cbn [dependencies trace]; rewrite Hpush, <- !app_assoc; reflexivity.
Qed.

(** ** What can and what cannot raise in the traversal *)

Lemma for_each_never_raises {A} (body : A -> M unit) : forall l,
  (forall x st st' e, In x l -> body x st <> (st', Raise e)) ->
  forall st st' e, for_each l body st <> (st', Raise e).
Proof.
  induction l as [|x l IH]; intros Hbody st st' e H.
  - discriminate.
  - cbn [for_each] in H.
    apply bind_inv in H as [([] & st1 & H1 & H) | [(e' & H1 & _) | (c & _ & E)]].
    + eapply IH; [|exact H]. intros. apply Hbody. now right.
    + eapply Hbody; [|exact H1]. now left.
    + discriminate.
Qed.

Lemma visit_never_raises self related entry st st' e :
  is_container related = true ->
  visit_resource py_repr urljoin server self related entry st <> (st', Raise e).
Proof.
  intros Hcont H. destruct entry as [field label].
  destruct (Py.contains field related) as [[|]|e0] eqn:Hc.
  - rewrite (visit_present _ _ _ _ _ _ _ _ Hc) in H.
    destruct (list_resource _ _ _ _ _ _ _) as [st2 [[]|e2|c]]; discriminate.
  - rewrite (visit_absent _ _ _ _ _ _ _ _ Hc) in H. discriminate.
  - destruct related; discriminate.
Qed.

Lemma credential_turn_never_raises self org cred st st' e :
  is_summary cred ->
  credential_turn py_repr urljoin server self org cred st <> (st', Raise e).
Proof.
  intros (i & n & ->) H. unfold credential_turn, try_except in H.
  destruct (check_credential _ _ _ _ _ _ _) as [st1 [u|e1|c]]; discriminate.
Qed.

Lemma check_credentials_never_raises self org related st st' e :
  previews_ok urljoin server self related (dependencies st) ->
  check_credentials py_repr urljoin server self org st <> (st', Raise e).
Proof.
  intros Hok H.
  pose proof (creds_of_previews _ _ _ _ _ Hok) as [Hsum _].
  unfold check_credentials in H. unfold bind at 1 in H.
  unfold get_dependencies in H. unfold creds_of, dict_mem in *.
  destruct (dict_get "credentials" (dependencies st)) as [v|] eqn:G;
    [|discriminate].
  destruct Hok as [_ Hall].
  destruct (Hall _ _ (dict_get_In _ _ _ G)) as (_ & _ & l & -> & _ & _).
  unfold bind at 1 in H. rewrite print_run in H.
  unfold bind at 1 in H. unfold lift at 1 in H. cbn [Py.getitem] in H.
  rewrite G in H.
  unfold bind at 1 in H. unfold lift at 1 in H. cbn [Py.iter] in H.
  revert H. apply for_each_never_raises.
  intros cred s s' e' Hin. apply credential_turn_never_raises.
  rewrite Forall_forall in Hsum. now apply Hsum.
Qed.

(** X17: with related links that are an object (or any value that
    supports [in]), no malformed link, page, item or detail record can
    make [_find_dependencies] raise: it returns the map, or it leaves
    the process on a failed request. *)
Theorem traversal_never_raises self org related st st' r :
  Py.get org "related" (JObj []) = Val related ->
  is_container related = true ->
  _find_dependencies py_repr urljoin server self org st = (st', r) ->
  (exists deps, r = Ret deps /\ deps = dependencies st') \/ r = Exit 1.
Proof.
  intros Hrel Hcont H.
  assert (Hexit : forall c, r = Exit c -> c = 1%Z).
  { intros c ->.
    destruct (find_dependencies_orderly _ _ _ _ _ _ Hrel H) as (evs & _ & _ & O).
    now destruct O. }
  unfold _find_dependencies in H.
  unfold bind at 1 in H. unfold set_dependencies at 1 in H.
  unfold bind at 1 in H. rewrite print_run in H.
  unfold bind at 1 in H. rewrite print_run in H.
  unfold bind at 1 in H. unfold lift at 1 in H. rewrite Hrel in H.
  assert (Hsum : exists w, Py.get org "summary_fields" (JObj []) = Val w).
  { destruct org; try discriminate. simpl. eauto. }
  destruct Hsum as [w Hsum].
  unfold bind at 1 in H. unfold lift at 1 in H. rewrite Hsum in H.
  apply bind_inv in H as [([] & st1 & H1 & H) | [(e & H1 & ->) | (c & H1 & ->)]].
  2: { exfalso. revert H1. apply for_each_never_raises.
       intros entry s s' e' _. now apply visit_never_raises. }
  2: { right. now rewrite (Hexit c eq_refl). }
  apply catalogue_keeps_previews in H1; [|apply previews_ok_empty].
  apply bind_inv in H as [([] & st2 & H2 & H) | [(e & H2 & ->) | (c & H2 & ->)]].
  2: { exfalso. exact (check_credentials_never_raises _ _ _ _ _ _ H1 H2). }
  2: { right. now rewrite (Hexit c eq_refl). }
  unfold bind, print, emit, get_dependencies in H. inversion H; subst.
  left. eexists. split; reflexivity.
Qed.

(** ** The organization's details *)

Lemma display_fields_run o : forall fields st,
  for_each fields (fun field =>
    bind (lift (Py.contains field (JObj o))) (fun present =>
      if present : bool then
        bind (lift (Py.getitem (JObj o) field)) (fun value =>
          let value :=
            match value with
            | JNull => JStr "N/A"
            | _ => if Py.eq value (JStr "") then JStr "N/A" else value
            end in
          print ("  " ++ pad_dots 30 field ++ " " ++ py_str py_repr value))
      else ret tt)) st
  = (log st (flat_map (detail_line py_repr o) fields), Ret tt).
Proof.
  induction fields as [|field fields IH]; intros st.
  - simpl. unfold ret. now rewrite log_nil.
  - cbn [for_each flat_map]. unfold bind at 1.
    unfold bind at 1. unfold lift at 1. cbn [Py.contains Py.getitem].
    unfold detail_line at 1, dict_mem.
    destruct (dict_get field o) as [value|].
    + unfold bind at 1. unfold lift at 1. cbv zeta. rewrite print_run.
      rewrite IH, log_log. reflexivity.
    + unfold ret at 1. rewrite IH. reflexivity.
Qed.

Lemma display_run o st :
  _display_org_details py_repr (JObj o) st
  = (log st ([Stdout "Basic Information:"; Stdout (repeat_str "-" 80)]
             ++ detail_lines py_repr o ++ [Stdout ""]),
     Ret tt).
Proof.
  unfold _display_org_details.
  unfold bind at 1. rewrite print_run.
  unfold bind at 1. rewrite print_run.
  unfold bind at 1. rewrite display_fields_run.
  rewrite print_run, !log_log. reflexivity.
Qed.

(** X18: for an organization that is a dictionary,
    [_display_org_details] cannot fail and asks the server nothing: it
    prints the heading, then, in the fixed order, one line per field the
    record has (at most eight), with 'N/A' for a null or empty value,
    then an empty line, and leaves [dependencies] alone. *)
Theorem display_org_details_run o st :
  _display_org_details py_repr (JObj o) st
  = (log st ([Stdout "Basic Information:"; Stdout (repeat_str "-" 80)]
             ++ detail_lines py_repr o ++ [Stdout ""]),
     Ret tt) /\
  (List.length (detail_lines py_repr o) <= 8)%nat /\
  (forall field,
     In field important_fields ->
     dict_get field o = Some JNull \/ dict_get field o = Some (JStr "") ->
     In (Stdout ("  " ++ pad_dots 30 field ++ " N/A")) (detail_lines py_repr o)).
Proof.
  split; [|split].
  - apply display_run.
  - unfold detail_lines, important_fields. cbn [flat_map].
    rewrite !length_app. unfold detail_line.
    repeat (destruct (dict_get _ o); cbn [List.length]); lia.
  - intros field Hin Hv. unfold detail_lines. apply in_flat_map.
    exists field. split; [exact Hin|]. unfold detail_line.
    destruct Hv as [-> | ->]; left; reflexivity.
Qed.

(** ** The inspection from lookup to report *)

(** The inspection after the lookup returned [org]. *)
Lemma inspect_after_lookup self ident st st1 org :
  resolve_organization py_int py_repr urljoin server self ident st = (st1, Ret org) ->
  inspect_organization py_int py_repr urljoin server self ident st
  = if Py.truthy org then
      bind (print (nl ++ repeat_str "=" 80)) (fun _ =>
      bind (lift (Py.getitem org "name")) (fun name =>
      bind (print ("ORGANIZATION DETAILS: " ++ py_str py_repr name)) (fun _ =>
      bind (print (repeat_str "=" 80 ++ nl)) (fun _ =>
      bind (_display_org_details py_repr org) (fun _ =>
      bind (_find_dependencies py_repr urljoin server self org) (fun deps =>
      ret (JObj [("organization", org); ("dependencies", JObj deps)]))))))) st1
    else
      (log st1 [Stderr ("Organization '" ++ ident ++ "' not found.")], Exit 1).
Proof.
  intros R. unfold inspect_organization. unfold bind at 1. rewrite R.
  unfold bind at 1. destruct (Py.truthy org); reflexivity.
Qed.

Lemma inspect_returns_inv self ident st st' report :
  inspect_organization py_int py_repr urljoin server self ident st
  = (st', Ret report) ->
  exists o deps st1 st2,
    resolve_organization py_int py_repr urljoin server self ident st
    = (st1, Ret (JObj o)) /\
    dict_mem "name" o = true /\
    _find_dependencies py_repr urljoin server self (JObj o) st2 = (st', Ret deps) /\
    report = JObj [("organization", JObj o); ("dependencies", JObj deps)].
Proof.
  intros H.
  destruct (resolve_organization py_int py_repr urljoin server self ident st)
    as [st1 [org|e|c]] eqn:R.
  2: { unfold inspect_organization, bind in H. rewrite R in H. discriminate. }
  2: { unfold inspect_organization, bind in H. rewrite R in H. discriminate. }
  rewrite (inspect_after_lookup _ _ _ _ _ R) in H.
  destruct (Py.truthy org); [|discriminate].
  unfold bind at 1 in H. rewrite print_run in H.
  apply bind_inv in H as [(name & s2 & H1 & H) | [(e & _ & E) | (c & _ & E)]];
    [|discriminate|discriminate].
  apply lift_ret_inv in H1 as [-> Hname].
  destruct org as [| | | | |o]; try discriminate.
  unfold bind at 1 in H. rewrite print_run in H.
  unfold bind at 1 in H. rewrite print_run in H.
  unfold bind at 1 in H.
  rewrite display_run in H.
  apply bind_inv in H as [(deps & s3 & H1 & H) | [(e & _ & E) | (c & _ & E)]];
    [|discriminate|discriminate].
  inversion H; subst.
  eexists o, deps, st1, _. split; [reflexivity|]. split; [|split; [exact H1|reflexivity]].
  unfold dict_mem. cbn [Py.getitem] in Hname.
  now destruct (dict_get "name" o).
Qed.

(** X19: a report that [inspect_organization] returns pairs, under
    'organization', the record the lookup returned, unchanged, which is
    a dictionary with a 'name', and, under 'dependencies', the map the
    traversal of that record returned. *)
Theorem report_holds_the_record self ident st st' report :
  inspect_organization py_int py_repr urljoin server self ident st
  = (st', Ret report) ->
  exists o deps st1 st2,
    resolve_organization py_int py_repr urljoin server self ident st
    = (st1, Ret (JObj o)) /\
    dict_mem "name" o = true /\
    _find_dependencies py_repr urljoin server self (JObj o) st2 = (st', Ret deps) /\
    report = JObj [("organization", JObj o); ("dependencies", JObj deps)].
Proof.
  intros H.
  destruct (inspect_returns_inv _ _ _ _ _ H)
    as (o & deps & st1 & st2 & R & N & F & E).
  exists o, deps, st1, st2. auto.
Qed.

(** X20: a lookup by ID that the server answers with a falsy body
    (null, an empty object, an empty list, zero, an empty string) is
    "not found" like a name without a match: the diagnostic goes to the
    error stream and the process ends with status 1, with that one
    request made and nothing on the output stream. *)
Theorem lookup_by_id_with_falsy_body self ident n url body st :
  py_int ident = Some n ->
  urljoin (api_base self) ("organizations/" ++ str_of_Z n ++ "/") = Val url ->
  server url = Ok body ->
  Py.truthy body = false ->
  inspect_organization py_int py_repr urljoin server self ident st
  = (log st [Request url; Stderr ("Organization '" ++ ident ++ "' not found.")],
     Exit 1).
Proof.
  intros Hn Hjoin Hsrv Hf.
  assert (R : resolve_organization py_int py_repr urljoin server self ident st
              = (log st [Request url], Ret body)).
  { rewrite (resolve_by_id_run _ _ _ _ _ _ _ _ _ Hn Hjoin).
    unfold get_organization_by_id. rewrite (get_joined _ _ _ _ _ _ Hjoin).
    now rewrite Hsrv. }
  rewrite (inspect_after_lookup _ _ _ _ _ R), Hf, log_log. reflexivity.
Qed.

(** X21: a record without a 'name' makes the inspection raise
    [KeyError] right after the first line of the heading: nothing of the
    details is printed, no resource is requested, and the process ends
    with status 1. *)
Theorem record_without_name self ident o st st1 :
  resolve_organization py_int py_repr urljoin server self ident st
  = (st1, Ret (JObj o)) ->
  o <> [] ->
  dict_get "name" o = None ->
  inspect_organization py_int py_repr urljoin server self ident st
  = (log st1 [Stdout (nl ++ repeat_str "=" 80)],
     Raise (Exn KeyError "'name'")) /\
  exit_code (snd (inspect_organization py_int py_repr urljoin server self ident st))
  = 1%Z.
Proof.
  intros R Ho Hname.
  assert (E : inspect_organization py_int py_repr urljoin server self ident st
              = (log st1 [Stdout (nl ++ repeat_str "=" 80)],
                 Raise (Exn KeyError "'name'"))).
  { rewrite (inspect_after_lookup _ _ _ _ _ R).
    destruct o as [|kv o]; [contradiction|]. cbn [Py.truthy].
    unfold bind at 1. rewrite print_run.
    unfold bind at 1. unfold lift. cbn [Py.getitem]. rewrite Hname. reflexivity. }
  split; [exact E | now rewrite E].
Qed.

(** X22: a lookup whose request fails is fatal on either path: the GET
    helper reports the URL, the error and the response text on the error
    stream and the process ends with status 1; the ID path does not fall
    back to the name, and nothing reaches the output stream. *)
Theorem failed_lookup_is_fatal self ident url msg text st :
  (forall n,
     py_int ident = Some n ->
     urljoin (api_base self) ("organizations/" ++ str_of_Z n ++ "/") = Val url ->
     server url = Failed msg text ->
     inspect_organization py_int py_repr urljoin server self ident st
     = (log st (Request url :: failure_report url msg text), Exit 1)) /\
  (py_int ident = None ->
   urljoin (api_base self) ("organizations/?name=" ++ ident) = Val url ->
   server url = Failed msg text ->
   inspect_organization py_int py_repr urljoin server self ident st
   = (log st (Request url :: failure_report url msg text), Exit 1)).
Proof.
  split.
  - intros n Hn Hjoin Hsrv. unfold inspect_organization. unfold bind at 1.
    rewrite (resolve_by_id_run _ _ _ _ _ _ _ _ _ Hn Hjoin).
    unfold get_organization_by_id. rewrite (get_joined _ _ _ _ _ _ Hjoin).
    now rewrite Hsrv.
  - intros Hn Hjoin Hsrv. unfold inspect_organization. unfold bind at 1.
    rewrite (resolve_by_name_run _ _ _ _ _ _ _ Hn).
    unfold get_organization_by_name. unfold bind at 1.
    rewrite (get_joined _ _ _ _ _ _ Hjoin). now rewrite Hsrv.
Qed.


(** ** The examples *)

Lemma print_organizations_run : forall os st,
  Forall (fun o => dict_mem "id" o = true /\ dict_mem "name" o = true) os ->
  for_each (map JObj os) (print_organization py_repr) st
  = (log st (map (organization_line py_repr) os), Ret tt).
Proof.
  induction os as [|o os IH]; intros st F.
  - simpl. unfold ret. now rewrite log_nil.
  - inversion F as [|? ? [Hid Hname] F']; subst.
    cbn [map for_each]. unfold bind at 1.
    unfold print_organization, organization_line at 1.
    unfold dict_mem in Hid, Hname.
    unfold bind at 1. unfold lift at 1. cbn [Py.getitem].
    destruct (dict_get "id" o) as [i|]; [|discriminate].
    unfold bind at 1. unfold lift at 1. cbn [Py.getitem].
    destruct (dict_get "name" o) as [n|]; [|discriminate].
    rewrite print_run, (IH _ F'), log_log. reflexivity.
Qed.

(** X23: [example_list_all_organizations] makes one request, for the
    first page of the organizations, and prints its count and one line
    per record of the page; a page without 'count' raises [KeyError]
    before anything is printed. *)
Theorem list_all_organizations_run url d st :
  urljoin (api_base (new_client "https://aap.example.com")) "organizations/"
  = Val url ->
  server url = Ok (JObj d) ->
  (dict_get "count" d = None ->
   example_list_all_organizations py_repr urljoin server st
   = (log st [Request url], Raise (Exn KeyError "'count'"))) /\
  (forall count os,
     dict_get "count" d = Some count ->
     dict_get "results" d = Some (JList (map JObj os)) ->
     Forall (fun o => dict_mem "id" o = true /\ dict_mem "name" o = true) os ->
     example_list_all_organizations py_repr urljoin server st
     = (log st ([Request url;
                 Stdout (nl ++ "Total organizations: " ++ py_str py_repr count);
                 Stdout (nl ++ "Organizations:")]
                ++ map (organization_line py_repr) os),
        Ret tt)).
Proof.
  intros Hjoin Hsrv.
  assert (G : get_organizations urljoin server (new_client "https://aap.example.com") st
              = (log st [Request url], Ret (JObj d))).
  { unfold get_organizations. rewrite (get_joined _ _ _ _ _ _ Hjoin).
    now rewrite Hsrv. }
  split.
  - intros Hcount. unfold example_list_all_organizations. cbv zeta.
    unfold bind at 1. rewrite G.
    unfold bind at 1. unfold lift. cbn [Py.getitem]. rewrite Hcount. reflexivity.
  - intros count os Hcount Hres F. unfold example_list_all_organizations. cbv zeta.
    unfold bind at 1. rewrite G.
    unfold bind at 1. unfold lift at 1. cbn [Py.getitem]. rewrite Hcount.
    unfold bind at 1. rewrite print_run.
    unfold bind at 1. rewrite print_run.
    unfold bind at 1. unfold lift at 1. cbn [Py.getitem]. rewrite Hres.
    unfold bind at 1. unfold lift at 1. cbn [Py.iter].
    rewrite (print_organizations_run _ _ F), !log_log. reflexivity.
Qed.

Lemma count_resources_from (d : dict) : forall acc,
  (forall k v, In (k, v) d ->
     exists l, v = JList l /\ (List.length l <= 5)%nat) ->
  (acc <= fold_left (fun total entry =>
                       match snd entry with
                       | JList items => total + Z.of_nat (List.length items)
                       | _ => total
                       end) d acc
   <= acc + 5 * Z.of_nat (List.length d))%Z.
Proof.
  induction d as [|[k v] d IH]; intros acc H.
  - simpl. lia.
  - cbn [fold_left snd].
    destruct (H k v (or_introl eq_refl)) as (l & -> & Hl).
    assert (Hd : forall k' v', In (k', v') d ->
                   exists l', v' = JList l' /\ (List.length l' <= 5)%nat).
    { intros k' v' Hin. apply (H k' v'). now right. }
    specialize (IH (acc + Z.of_nat (List.length l))%Z Hd).
    cbn [List.length]. lia.
Qed.

Lemma returned_map_bounds self org st st' deps :
  _find_dependencies py_repr urljoin server self org st = (st', Ret deps) ->
  (List.length deps <= 13)%nat /\
  (forall k v, In (k, v) deps ->
     exists l, v = JList l /\ (List.length l <= 5)%nat).
Proof.
  intros H. destruct (returned_has_related _ _ _ _ _ H) as [related Hrel].
  destruct (find_dependencies_stages _ _ _ _ _ _ _ _ _ Hrel H)
    as (previews & Hok & ->).
  pose proof (previews_length _ _ _ _ _ Hok) as Hlen.
  pose proof (present_count_le related) as H12.
  pose proof (creds_of_previews _ _ _ _ _ Hok) as [_ Hcreds].
  pose proof (cross_entries_length py_repr urljoin server self org (creds_of previews))
    as Hes.
  split.
  - destruct (cross_entries _ _ _ _ _ _) as [|e es]; cbn [with_cross]; [lia|].
    pose proof (dict_set_length_le cross_key (JList (e :: es)) previews). lia.
  - intros k v Hkv. apply with_cross_In in Hkv as [[_ ->] | Hkv].
    + eexists. split; [reflexivity|]. lia.
    + destruct Hok as [_ Hall].
      destruct (Hall _ _ Hkv) as (_ & _ & l & -> & _ & L). eauto.
Qed.

(** X24: once its inspection of "My Organization" returned a report,
    [example_programmatic_usage] prints the number of keys of the
    dependency map (at most 13) and the total of the previewed items,
    which is at most five per key, and writes the text of the report to
    ['org_report.json']; when [open] raises there, the example ends
    with that exception after the two lines and writes nothing. *)
Theorem programmatic_usage_run st st1 report :
  inspect_organization py_int py_repr urljoin server
    (new_client "https://aap.example.com") "My Organization" st
  = (st1, Ret report) ->
  exists o deps,
    report = JObj [("organization", JObj o); ("dependencies", JObj deps)] /\
    let lines :=
      [Stdout (nl ++ "Organization '"
               ++ py_str py_repr (default JNull (dict_get "name" o))
               ++ "' has " ++ str_of_Z (Z.of_nat (List.length deps))
               ++ " dependency types");
       Stdout ("Total resources: " ++ str_of_Z (count_resources deps))] in
    example_programmatic_usage py_int py_repr urljoin server open_for_writing st
    = match open_for_writing "org_report.json" with
      | Val _ =>
          (log st1
             (lines ++ [WriteFile "org_report.json" (dumps report);
                        Stdout (nl ++ "Data exported to: org_report.json")]),
           Ret tt)
      | Err e => (log st1 lines, Raise e)
      end /\
    (List.length deps <= 13)%nat /\
    (0 <= count_resources deps <= 5 * Z.of_nat (List.length deps))%Z.
Proof.
  intros H.
  destruct (inspect_returns_inv _ _ _ _ _ H)
    as (o & deps & s1 & s2 & _ & Hname & Hdeps & ->).
  destruct (returned_map_bounds _ _ _ _ _ Hdeps) as [Hlen Hvals].
  exists o, deps. split; [reflexivity|]. split; [|split; [exact Hlen|]].
  - unfold example_programmatic_usage. cbv zeta.
    unfold bind at 1. rewrite H.
    unfold dict_mem in Hname.
    destruct (dict_get "name" o) as [name|] eqn:Hn; [|discriminate].
    unfold export_to_json, print. unfold bind, lift, emit, log.
    cbn [Py.getitem dict_get String.eqb Ascii.eqb Bool.eqb py_len py_items
         dependencies trace default].
    rewrite Hn. cbn [dependencies trace default].
    destruct (open_for_writing "org_report.json");
      cbn [dependencies trace]; rewrite <- ?app_assoc; reflexivity.
  - unfold count_resources.
    pose proof (count_resources_from deps 0 Hvals). lia.
Qed.

(** ** The report as a value that can be exported *)

Lemma keeps_ret {A} (a : A) (Q : A -> Prop) : Q a -> keeps (ret a) Q.
Proof.
  intros HQ st st' r Hst E. inversion E; subst.
  split; [exact Hst|]. intros b Hb. now inversion Hb; subst.
Qed.

Lemma keeps_lift {A} (x : outcome A) (Q : A -> Prop) :
  (forall a, x = Val a -> Q a) -> keeps (lift x) Q.
Proof.
  intros HQ st st' r Hst E. unfold lift in E. inversion E; subst.
  split; [exact Hst|]. intros b Hb. destruct x; inversion Hb; subst. now apply HQ.
Qed.

Lemma keeps_raise {A} e (Q : A -> Prop) : keeps (raise e) Q.
Proof.
  intros st st' r Hst E. inversion E; subst. split; [exact Hst | discriminate].
Qed.

Lemma keeps_print text : keeps (print text) (fun _ => True).
Proof.
  intros st st' r Hst E. inversion E; subst. split; [exact Hst | auto].
Qed.

Lemma keeps_bind {A B} (m : M A) (k : A -> M B) (Q : A -> Prop) (R : B -> Prop) :
  keeps m Q -> (forall a, Q a -> keeps (k a) R) -> keeps (bind m k) R.
Proof.
  intros Hm Hk st st' r Hst E. unfold bind in E.
  destruct (m st) as [st1 [a|e|c]] eqn:Em; destruct (Hm _ _ _ Hst Em) as [H1 HQ].
  - exact (Hk a (HQ a eq_refl) _ _ _ H1 E).
  - inversion E; subst. split; [exact H1 | discriminate].
  - inversion E; subst. split; [exact H1 | discriminate].
Qed.

Lemma keeps_any {A} (m : M A) (Q : A -> Prop) :
  keeps m Q -> keeps m (fun _ => True).
Proof.
  intros H st st' r Hst E. destruct (H _ _ _ Hst E) as [H1 _]. auto.
Qed.

Lemma keeps_try {A} (m : M A) catches (h : exn -> M A) (Q : A -> Prop) :
  keeps m Q -> (forall e, keeps (h e) Q) -> keeps (try_except m catches h) Q.
Proof.
  intros Hm Hh st st' r Hst E. unfold try_except in E.
  destruct (m st) as [st1 [a|e|c]] eqn:Em; destruct (Hm _ _ _ Hst Em) as [H1 HQ].
  - inversion E; subst. auto.
  - destruct (catches (exn_class e)).
    + exact (Hh e _ _ _ H1 E).
    + inversion E; subst. split; [exact H1 | discriminate].
  - inversion E; subst. split; [exact H1 | discriminate].
Qed.

Lemma keeps_for_each {A} (body : A -> M unit) : forall l,
  (forall x, In x l -> keeps (body x) (fun _ => True)) ->
  keeps (for_each l body) (fun _ => True).
Proof.
  induction l as [|x l IH]; intros H.
  - now apply keeps_ret.
  - cbn [for_each]. apply (keeps_bind _ _ (fun _ => True)).
    + apply H. now left.
    + intros _ _. apply IH. intros y Hy. apply H. now right.
Qed.

Lemma values_ok_set key v d :
  well_formed v = true -> values_ok d -> values_ok (dict_set key v d).
Proof.
  unfold values_ok. intros Hv. induction d as [|[k w] d IH]; cbn [dict_set forallb snd].
  - intros _. now rewrite Hv.
  - intros H. apply andb_true_iff in H as [Hw Hd].
    destruct (String.eqb key k); cbn [forallb snd].
    + now rewrite Hv, Hd.
    + now rewrite Hw, (IH Hd).
Qed.

Lemma values_ok_get key v d :
  values_ok d -> dict_get key d = Some v -> well_formed v = true.
Proof.
  unfold values_ok. induction d as [|[k w] d IH]; cbn [dict_get forallb snd];
    [discriminate|].
  intros H G. apply andb_true_iff in H as [Hw Hd].
  destruct (String.eqb key k); [now inversion G; subst | now apply IH].
Qed.

Lemma keeps_get_dependencies : keeps get_dependencies values_ok.
Proof.
  intros st st' r Hst E. inversion E; subst. split; [exact Hst|].
  intros a Ha. now inversion Ha; subst.
Qed.

Lemma keeps_dep_set key v :
  well_formed v = true -> keeps (dep_set key v) (fun _ => True).
Proof.
  intros Hv st st' r Hst E. inversion E; subst. cbn [dependencies].
  split; [now apply values_ok_set | auto].
Qed.

Lemma keeps_dep_append key x :
  well_formed x = true -> keeps (dep_append key x) (fun _ => True).
Proof.
  intros Hx st st' r Hst E.
  unfold dep_append, bind, get_dependencies, set_dependencies, raise in E.
  destruct (dict_get key (dependencies st)) as [[| | | |l|]|] eqn:G;
    inversion E; subst; cbn [dependencies]; (split; [|auto]); try exact Hst.
  apply values_ok_set; [|exact Hst].
  pose proof (values_ok_get _ _ _ Hst G) as Hl. cbn [well_formed] in *.
  rewrite forallb_app, Hl. cbn [forallb]. now rewrite Hx.
Qed.

Lemma well_formed_member d key v :
  well_formed (JObj d) = true -> dict_get key d = Some v -> well_formed v = true.
Proof.
  cbn [well_formed]. intros H G. apply andb_true_iff in H as [_ H].
  induction d as [|[k w] d IH]; cbn [dict_get forallb fst snd] in *;
    [discriminate|].
  apply andb_true_iff in H as [Hw Hd]. apply andb_true_iff in Hw as [_ Hw].
  destruct (String.eqb key k); [now inversion G; subst | now apply IH].
Qed.

Lemma object_ok_of v : well_formed v = true -> object_ok v.
Proof. intros H. now destruct v. Qed.

Lemma py_get_ok obj key default a :
  object_ok obj -> well_formed default = true ->
  Py.get obj key default = Val a -> well_formed a = true.
Proof.
  intros Ho Hd H. destruct obj as [| | | | |d]; try discriminate.
  cbn [Py.get] in H. inversion H; subst.
  destruct (dict_get key d) eqn:G; [|exact Hd].
  exact (well_formed_member _ _ _ Ho G).
Qed.

Lemma py_getitem_ok obj key a :
  object_ok obj -> Py.getitem obj key = Val a ->
  well_formed obj = true /\ well_formed a = true.
Proof.
  intros Ho H. destruct obj as [| | | | |d]; try discriminate.
  cbn [Py.getitem] in H. destruct (dict_get key d) eqn:G; [|discriminate].
  inversion H; subst. split; [exact Ho|]. exact (well_formed_member _ _ _ Ho G).
Qed.

Lemma items_ok l :
  forallb well_formed l = true -> Forall object_ok l.
Proof.
  intros H. apply Forall_forall. intros x Hx.
  apply object_ok_of. rewrite forallb_forall in H. now apply H.
Qed.

Lemma strings_ok (l : list string) : Forall object_ok (map JStr l).
Proof. apply Forall_forall. intros x Hx. apply in_map_iff in Hx as [s [<- _]]. exact I. Qed.

Lemma firstn_incl {A} n : forall (l : list A) x, In x (firstn n l) -> In x l.
Proof.
  induction n as [|n IH]; intros [|y l] x H; try contradiction.
  cbn [firstn] in H. destruct H as [->|H]; [now left | right; now apply IH].
Qed.

Lemma slice_to_ok n v items :
  well_formed v = true -> Py.slice_to n v = Val items -> Forall object_ok items.
Proof.
  intros Hv H. destruct v as [| | |s|l|]; try discriminate;
    cbn [Py.slice_to] in H; inversion H; subst.
  - apply strings_ok.
  - apply items_ok. cbn [well_formed] in Hv.
    rewrite forallb_forall in *. intros x Hx. apply Hv.
    now apply (firstn_incl n).
Qed.

Lemma iter_ok v items :
  well_formed v = true -> Py.iter v = Val items -> Forall object_ok items.
Proof.
  intros Hv H. destruct v as [| | |s|l|d]; try discriminate;
    cbn [Py.iter] in H; inversion H; subst.
  - apply strings_ok.
  - apply items_ok. exact Hv.
  - apply strings_ok.
Qed.

Lemma keeps_get self endpoint :
  decoded server ->
  keeps (get urljoin server self endpoint) (fun body => well_formed body = true).
Proof.
  intros Hs st st' r Hst E. rewrite get_run in E.
  destruct (urljoin _ _) as [url|e].
  - destruct (server url) as [body|msg text] eqn:Hsrv; inversion E; subst;
      cbn [log dependencies]; (split; [exact Hst|]).
    + intros a Ha. inversion Ha; subst. now apply (Hs url).
    + discriminate.
  - inversion E; subst. split; [exact Hst | discriminate].
Qed.

Lemma keeps_get_related_data self link :
  decoded server ->
  keeps (get_related_data urljoin server self link)
        (fun data => well_formed data = true).
Proof.
  intros Hs. unfold get_related_data. destruct link; try apply keeps_raise.
  destruct (related_endpoint _); [now apply keeps_get | now apply keeps_ret].
Qed.

Lemma keeps_record_item field item :
  object_ok item -> keeps (record_item py_repr field item) (fun _ => True).
Proof.
  intros Hi. unfold record_item.
  apply (keeps_bind _ _ (fun v => well_formed v = true)).
  { apply keeps_lift. intros a Ha.
    exact (py_get_ok _ _ (JStr "N/A") _ Hi eq_refl Ha). }
  intros fallback Hf.
  apply (keeps_bind _ _ (fun v => well_formed v = true)).
  { apply keeps_lift. intros a Ha. now apply (py_get_ok _ _ _ _ Hi Hf Ha). }
  intros name Hname.
  apply (keeps_bind _ _ (fun v => well_formed v = true)).
  { apply keeps_lift. intros a Ha.
    exact (py_get_ok _ _ (JStr "N/A") _ Hi eq_refl Ha). }
  intros item_id Hid.
  apply (keeps_bind _ _ (fun _ => True)); [apply keeps_print|]. intros _ _.
  apply keeps_dep_append. cbn [well_formed keys map fst snd forallb distinct
                                existsb].
  now rewrite Hid, Hname.
Qed.

Lemma keeps_list_resource self related field :
  decoded server ->
  keeps (list_resource py_repr urljoin server self related field)
        (fun _ => True).
Proof.
  intros Hs. unfold list_resource.
  apply (keeps_bind _ _ (fun _ => True)); [now apply keeps_lift|].
  intros link _.
  apply (keeps_bind _ _ (fun v => well_formed v = true));
    [now apply keeps_get_related_data|].
  intros data Hdata.
  apply (keeps_bind _ _ (fun _ => True)); [now apply keeps_lift|].
  intros count _.
  apply (keeps_bind _ _ (fun _ => True)); [apply keeps_print|]. intros _ _.
  apply (keeps_bind _ _ (fun _ => True)); [now apply keeps_lift|].
  intros positive _.
  apply (keeps_bind _ _ (fun _ => True)).
  { destruct positive; [now apply keeps_lift | now apply keeps_ret]. }
  intros [|] _; [|now apply keeps_ret].
  apply (keeps_bind _ _ (fun _ => True)); [now apply keeps_dep_set|].
  intros _ _.
  apply (keeps_bind _ _ (fun v => well_formed v = true)).
  { apply keeps_lift. intros a Ha.
    exact (proj2 (py_getitem_ok _ _ _ (object_ok_of _ Hdata) Ha)). }
  intros results Hres.
  apply (keeps_bind _ _ (Forall object_ok)).
  { apply keeps_lift. intros a Ha. exact (slice_to_ok _ _ _ Hres Ha). }
  intros items Hitems.
  apply (keeps_bind _ _ (fun _ => True)).
  { apply keeps_for_each. intros x Hx. apply keeps_record_item.
    rewrite Forall_forall in Hitems. now apply Hitems. }
  intros _ _.
  apply (keeps_bind _ _ (fun _ => True)); [now apply keeps_lift|].
  intros [|] _; [|now apply keeps_ret].
  apply (keeps_bind _ _ (fun _ => True)); [now apply keeps_lift|].
  intros rest _. apply keeps_print.
Qed.

Lemma keeps_visit_resource self related entry :
  decoded server ->
  keeps (visit_resource py_repr urljoin server self related entry)
        (fun _ => True).
Proof.
  intros Hs. destruct entry as [field label]. unfold visit_resource.
  apply (keeps_bind _ _ (fun _ => True)); [now apply keeps_lift|].
  intros [|] _; [|now apply keeps_ret].
  apply (keeps_bind _ _ (fun _ => True)); [apply keeps_print|]. intros _ _.
  apply keeps_try; [now apply keeps_list_resource|]. intros e. apply keeps_print.
Qed.

Lemma keeps_check_credential self org cred :
  decoded server -> object_ok cred ->
  keeps (check_credential py_repr urljoin server self org cred) (fun _ => True).
Proof.
  intros Hs Hc. unfold check_credential.
  apply (keeps_bind _ _ (fun _ => well_formed cred = true)).
  { apply keeps_lift. intros a Ha. exact (proj1 (py_getitem_ok _ _ _ Hc Ha)). }
  intros cred_id Hcred.
  apply (keeps_bind _ _ (fun v => well_formed v = true)); [now apply keeps_get|].
  intros detail Hdetail.
  apply (keeps_bind _ _ (fun v => well_formed v = true)).
  { apply keeps_lift. intros a Ha.
    exact (py_get_ok _ _ JNull _ (object_ok_of _ Hdetail) eq_refl Ha). }
  intros owner Hown.
  apply (keeps_bind _ _ (fun _ => True)).
  { destruct (Py.truthy owner); [|now apply keeps_ret].
    apply (keeps_bind _ _ (fun _ => True)); [now apply keeps_lift|].
    intros oid _. now apply keeps_ret. }
  intros [|] _; [|now apply keeps_ret].
  apply (keeps_bind _ _ (fun _ => True)); [now apply keeps_lift|].
  intros name _.
  apply (keeps_bind _ _ (fun _ => True)); [apply keeps_print|]. intros _ _.
  apply (keeps_bind _ _ (fun _ => True)).
  { intros st st' r Hst E. inversion E; subst. auto. }
  intros d _.
  apply (keeps_bind _ _ (fun _ => True)).
  { destruct (dict_mem cross_key d); [now apply keeps_ret|].
    now apply keeps_dep_set. }
  intros _ _. apply keeps_dep_append.
  cbn [well_formed keys map fst snd forallb distinct existsb].
  now rewrite Hcred, Hown.
Qed.

Lemma keeps_credential_turn self org cred :
  decoded server -> object_ok cred ->
  keeps (credential_turn py_repr urljoin server self org cred) (fun _ => True).
Proof.
  intros Hs Hc. unfold credential_turn.
  apply keeps_try; [now apply keeps_check_credential|]. intros e.
  apply (keeps_bind _ _ (fun _ => True)); [now apply keeps_lift|].
  intros cred_id _. apply keeps_print.
Qed.

Lemma keeps_check_credentials self org :
  decoded server ->
  keeps (check_credentials py_repr urljoin server self org) (fun _ => True).
Proof.
  intros Hs. unfold check_credentials.
  apply (keeps_bind _ _ values_ok); [apply keeps_get_dependencies|].
  intros d Hd. destruct (dict_mem "credentials" d); [|now apply keeps_ret].
  apply (keeps_bind _ _ (fun _ => True)); [apply keeps_print|]. intros _ _.
  apply (keeps_bind _ _ (fun v => well_formed v = true)).
  { apply keeps_lift. intros a Ha. cbn [Py.getitem] in Ha.
    destruct (dict_get "credentials" d) eqn:G; [|discriminate].
    inversion Ha; subst. exact (values_ok_get _ _ _ Hd G). }
  intros creds Hcreds.
  apply (keeps_bind _ _ (Forall object_ok)).
  { apply keeps_lift. intros a Ha. exact (iter_ok _ _ Hcreds Ha). }
  intros items Hitems.
  apply keeps_for_each. intros x Hx. apply keeps_credential_turn; [exact Hs|].
  rewrite Forall_forall in Hitems. now apply Hitems.
Qed.

(** The values of the map the traversal returns are well formed. *)
Lemma find_dependencies_values self org st st' deps :
  decoded server ->
  _find_dependencies py_repr urljoin server self org st = (st', Ret deps) ->
  values_ok deps.
Proof.
  intros Hs H. unfold _find_dependencies in H.
  unfold bind at 1 in H. unfold set_dependencies at 1 in H.
  assert (K : keeps
    (bind (print "DEPENDENCIES & RELATED RESOURCES:") (fun _ =>
     bind (print (repeat_str "-" 80)) (fun _ =>
     bind (lift (Py.get org "related" (JObj []))) (fun related_fields =>
     bind (lift (Py.get org "summary_fields" (JObj []))) (fun _ =>
     bind (for_each resource_types
             (visit_resource py_repr urljoin server self related_fields))
       (fun _ =>
     bind (check_credentials py_repr urljoin server self org) (fun _ =>
     bind (print "") (fun _ => get_dependencies))))))))
    values_ok).
  { apply (keeps_bind _ _ (fun _ => True)); [apply keeps_print|]. intros _ _.
    apply (keeps_bind _ _ (fun _ => True)); [apply keeps_print|]. intros _ _.
    apply (keeps_bind _ _ (fun _ => True)); [now apply keeps_lift|].
    intros related _.
    apply (keeps_bind _ _ (fun _ => True)); [now apply keeps_lift|].
    intros w _.
    apply (keeps_bind _ _ (fun _ => True)).
    { apply keeps_for_each. intros entry _. now apply keeps_visit_resource. }
    intros _ _.
    apply (keeps_bind _ _ (fun _ => True)); [now apply keeps_check_credentials|].
    intros _ _.
    apply (keeps_bind _ _ (fun _ => True)); [apply keeps_print|]. intros _ _.
    apply keeps_get_dependencies. }
  destruct (K _ _ _ (eq_refl : values_ok (dependencies (State [] (trace st)))) H)
    as [_ Q].
  now apply Q.
Qed.

Lemma distinct_NoDup : forall l, NoDup l -> distinct l = true.
Proof.
  induction l as [|k l IH]; intros H; [reflexivity|].
  inversion H as [|? ? Hk Hl]; subst. cbn [distinct]. rewrite (IH Hl), andb_true_r.
  apply negb_true_iff. destruct (existsb (String.eqb k) l) eqn:E; [|reflexivity].
  apply existsb_exists in E as (x & Hx & Ex). apply String.eqb_eq in Ex.
  subst x. contradiction.
Qed.

Lemma catalogue_keys_are_text k :
  In k (map fst resource_types) \/ k = cross_key -> is_text k = true.
Proof.
  intros [H| ->]; [|reflexivity].
  cbn [resource_types map fst] in H.
  repeat (destruct H as [<-|H]; [reflexivity|]). destruct H.
Qed.

(** The map the traversal returns is a well-formed dictionary. *)
Lemma find_dependencies_well_formed self o st st' deps :
  decoded server ->
  _find_dependencies py_repr urljoin server self (JObj o) st = (st', Ret deps) ->
  well_formed (JObj deps) = true.
Proof.
  intros Hs H. pose proof (find_dependencies_values _ _ _ _ _ Hs H) as Hv.
  edestruct find_dependencies_stages as (previews & Hok & E);
    [|exact H|]; [reflexivity|].
  assert (Hkeys : NoDup (keys deps) /\
                  forall k, In k (keys deps) -> is_text k = true).
  { rewrite E. split.
    - destruct (cross_entries _ _ _ _ _ _); cbn [with_cross];
        [exact (proj1 Hok) | apply dict_set_NoDup; exact (proj1 Hok)].
    - intros k Hk. apply catalogue_keys_are_text.
      apply with_cross_keys in Hk as [->|Hk]; [now right|]. left.
      eapply proj1, previews_ok_key; eassumption. }
  destruct Hkeys as [Hnd Htext].
  cbn [well_formed]. rewrite (distinct_NoDup _ Hnd). cbn [andb].
  apply forallb_forall. intros [k v] Hkv. cbn [fst snd].
  rewrite Htext by (apply in_map_iff; now exists (k, v)).
  unfold values_ok in Hv. rewrite forallb_forall in Hv. exact (Hv _ Hkv).
Qed.

Lemma get_organization_by_name_ok self name st st' org :
  decoded server ->
  get_organization_by_name urljoin server self name st = (st', Ret org) ->
  object_ok org.
Proof.
  intros Hs H. unfold get_organization_by_name in H.
  apply bind_inv in H as [(response & st1 & H1 & H) | [(e & _ & E) | (c & _ & E)]];
    [|discriminate|discriminate].
  assert (Hr : well_formed response = true).
  { rewrite get_run in H1. destruct (urljoin _ _) as [url|]; [|discriminate].
    destruct (server url) eqn:Hsrv; inversion H1; subst. now apply (Hs url). }
  apply bind_inv in H as [(results & st2 & H2 & H) | [(e & _ & E) | (c & _ & E)]];
    [|discriminate|discriminate].
  apply lift_ret_inv in H2 as [-> H2].
  pose proof (py_get_ok _ _ (JList []) _ (object_ok_of _ Hr) eq_refl H2) as Hres.
  destruct (Py.truthy results); [|inversion H; subst; exact I].
  apply lift_ret_inv in H as [_ H].
  destruct results as [| | |s|[|x l]|]; try discriminate; cbn [Py.first] in H.
  - destruct (utf8_chars s); inversion H; subst. exact I.
  - inversion H; subst. apply object_ok_of. cbn [well_formed forallb] in Hres.
    now apply andb_true_iff in Hres as [Hx _].
Qed.

Lemma resolve_organization_ok self ident st st' org :
  decoded server ->
  resolve_organization py_int py_repr urljoin server self ident st
  = (st', Ret org) ->
  object_ok org.
Proof.
  intros Hs H. unfold resolve_organization, try_except in H.
  destruct (py_int ident) as [n|].
  - destruct (get_organization_by_id _ _ _ _ _) as [st1 [a|e|c]] eqn:G.
    + inversion H; subst. apply object_ok_of.
      unfold get_organization_by_id in G. rewrite get_run in G.
      destruct (urljoin _ _) as [url|]; [|discriminate].
      destruct (server url) eqn:Hsrv; inversion G; subst. now apply (Hs url).
    + destruct (value_error (exn_class e)); [|discriminate].
      exact (get_organization_by_name_ok _ _ _ _ _ Hs H).
    + discriminate.
  - unfold raise in H. cbn [exn_class value_error] in H.
    exact (get_organization_by_name_ok _ _ _ _ _ Hs H).
Qed.

(** X29: with a server whose bodies are well-formed values (text for
    strings, distinct keys in each dictionary), every report an
    inspection returns is well formed as well: the summaries and the
    cross-organization entries the traversal builds add no repeated key
    and no string that is not text; so the text [export_to_json] writes
    for the report is read back as the report itself. *)
Theorem returned_report_reads_back self ident st st' report :
  decoded server ->
  inspect_organization py_int py_repr urljoin server self ident st
  = (st', Ret report) ->
  well_formed report = true /\
  loads (dumps report) = Some report.
Proof.
  intros Hs H.
  destruct (inspect_returns_inv _ _ _ _ _ H)
    as (o & deps & st1 & st2 & R & _ & F & ->).
  pose proof (resolve_organization_ok _ _ _ _ _ Hs R) as Ho.
  pose proof (find_dependencies_well_formed _ _ _ _ _ Hs F) as Hd.
  assert (W : well_formed
                (JObj [("organization", JObj o); ("dependencies", JObj deps)])
              = true).
  { cbn [object_ok] in Ho.
    change (well_formed (JObj [("organization", JObj o);
                               ("dependencies", JObj deps)]))
      with (true && (true && well_formed (JObj o)
                     && (true && well_formed (JObj deps) && true)))%bool.
    now rewrite Ho, Hd. }
  split; [exact W | now apply loads_dumps].
Qed.

End Coverage.

(** ** The further properties at the scenarios *)

Import Cases.




(** A command line without the organization and the URL, and one that
    asks for the help. *)
Example main_on_usage_error_and_help :
  (exists message,
     run_main engineering_api [] = (State [] [Stderr message], Exit 2)) /\
  run_main engineering_api ["--help"] = (State [] [Stdout usage], Exit 0).
Proof. split; [eexists|]; reflexivity. Qed.


(** The same run with a path in a directory that does not exist: the
    inspection is printed, [open] raises, no file is written and the
    run ends with status 1. *)
Example main_with_unwritable_path :
  let run := run_main engineering_api unwritable_argv in
  snd run
  = Raise (Exn OSError
             "[Errno 2] No such file or directory: 'missing/report.json'") /\
  fst run = fst engineering_inspection /\
  filter is_write (trace (fst run)) = [] /\
  exit_code (snd run) = 1%Z.
Proof. repeat split. Qed.

Lemma visit_previews_page_witness :
  Py.contains "projects" engineering_related = Val true /\
  engineering_api "https://aap.example.com/api/v2/organizations/5/projects/"
  = Ok (JObj projects_page) /\
  visit_resource no_repr join engineering_api client engineering_related
    ("projects", "Projects") initial
  = (State [("projects", JList (map summary_of (firstn 5 projects)))]
           (page_opening no_repr "Projects"
              "https://aap.example.com/api/v2/organizations/5/projects/" (JInt 7)
            ++ map (item_line no_repr) (firstn 5 projects)
            ++ [Stdout "    ... and 2 more"]),
     Ret tt).
Proof.
  split; [reflexivity|]. split; [reflexivity|].
  exact (visit_previews_page no_repr join engineering_api client engineering_related
           "projects" "Projects" "/organizations/5/projects/"
           "organizations/5/projects/"
           "https://aap.example.com/api/v2/organizations/5/projects/"
           projects_page 7 projects initial
           eq_refl eq_refl eq_refl eq_refl eq_refl eq_refl eq_refl eq_refl).
Defined.

Lemma visit_stops_at_malformed_item_witness :
  Py.contains "teams" ragged_related = Val true /\
  edge_api "https://aap.example.com/api/v2/organizations/6/teams/"
  = Ok (JObj ragged_page) /\
  visit_resource no_repr join edge_api client ragged_related ("teams", "Teams") initial
  = (State [("teams", JList [summary 1 "core"])]
           (page_opening no_repr "Teams"
              "https://aap.example.com/api/v2/organizations/6/teams/" (JInt 3)
            ++ [Stdout "    - [1] core";
                Stdout "  Error retrieving Teams: 'NoneType' object has no attribute 'get'"]),
     Ret tt).
Proof.
  split; [reflexivity|]. split; [reflexivity|].
  refine (visit_stops_at_malformed_item no_repr join edge_api client ragged_related
            "teams" "Teams" "/organizations/6/teams/" "organizations/6/teams/"
            "https://aap.example.com/api/v2/organizations/6/teams/"
            ragged_page 3 [project 1 "core"] JNull [summary 3 "web"] initial
            eq_refl eq_refl eq_refl eq_refl eq_refl eq_refl eq_refl eq_refl _ _).
  - simpl. lia.
  - intros d'. discriminate.
Defined.

Lemma absolute_link_without_marker_witness :
  let link := "https://aap.example.com/organizations/5/teams/" in
  startswith "http" link = true /\
  substring_of api_marker link = false /\
  get_related_data join engineering_api client (JStr link) initial
  = (initial, Ret JNull).
Proof.
  intros link. split; [reflexivity|]. split; [reflexivity|].
  exact (proj1 (absolute_link_without_marker no_repr join engineering_api client
                  link eq_refl eq_refl) initial).
Defined.

Lemma absolute_link_with_one_marker_witness :
  let pre := "https://aap.example.com" in
  let suf := "organizations/5/credentials/" in
  startswith "http" (pre ++ api_marker ++ suf) = true /\
  starts_nowhere api_marker pre (api_marker ++ suf) = true /\
  substring_of api_marker suf = false /\
  get_related_data join engineering_api client (JStr (pre ++ api_marker ++ suf))
    initial
  = get join engineering_api client suf initial.
Proof.
  intros pre suf. split; [reflexivity|]. split; [reflexivity|].
  split; [reflexivity|].
  exact (absolute_link_with_one_marker join engineering_api client pre suf initial
           eq_refl eq_refl eq_refl).
Defined.

Lemma relative_link_strips_slashes_witness :
  startswith "http" "/organizations/5/projects/" = false /\
  get_related_data join engineering_api client (JStr "/organizations/5/projects/")
    initial
  = get join engineering_api client "organizations/5/projects/" initial.
Proof.
  split; [reflexivity|].
  exact (proj1 (relative_link_strips_slashes join engineering_api client
                  "/organizations/5/projects/" initial eq_refl)).
Defined.

Lemma visit_with_non_string_link_witness :
  let related := JObj [("teams", JNull)] in
  Py.contains "teams" related = Val true /\
  Py.getitem related "teams" = Val JNull /\
  visit_resource no_repr join engineering_api client related ("teams", "Teams")
    initial
  = (State []
       [Stdout (nl ++ "Teams:");
        Stdout "  Error retrieving Teams: 'NoneType' object has no attribute 'startswith'"],
     Ret tt).
Proof.
  intros related. split; [reflexivity|]. split; [reflexivity|].
  refine (visit_with_non_string_link no_repr join engineering_api client related
            "teams" "Teams" JNull initial eq_refl eq_refl _).
  intros s. discriminate.
Defined.

Lemma visit_with_refused_url_witness :
  let related := JObj [("teams", JStr "/organizations/5/teams/")] in
  join (api_base bracket_client) "organizations/5/teams/"
  = Err (Exn ValueError "Invalid IPv6 URL") /\
  visit_resource no_repr join engineering_api bracket_client related
    ("teams", "Teams") initial
  = (State []
       [Stdout (nl ++ "Teams:");
        Stdout "  Error retrieving Teams: Invalid IPv6 URL"],
     Ret tt).
Proof.
  intros related. split; [reflexivity|].
  exact (visit_with_refused_url no_repr join engineering_api bracket_client
           related "teams" "Teams" "/organizations/5/teams/"
           "organizations/5/teams/" (Exn ValueError "Invalid IPv6 URL") initial
           eq_refl eq_refl eq_refl eq_refl).
Defined.

Lemma cross_list_is_exact_witness :
  engineering_run = (fst engineering_run, Ret engineering_deps) /\
  dict_get cross_key engineering_deps
  = Some (JList [cross_entry (summary 42 "galaxy") (JInt 9)]).
Proof.
  split; [reflexivity|].
  exact (proj1 (cross_list_is_exact no_repr join engineering_api client engineering
                  initial (fst engineering_run) engineering_deps eq_refl)).
Defined.

Lemma no_cross_key_without_org_id_witness :
  Py.getitem anonymous "id" = Err (Exn KeyError "'id'") /\
  anonymous_run = (fst anonymous_run, Ret engineering_previews) /\
  dict_get cross_key engineering_previews = None.
Proof.
  split; [reflexivity|]. split; [reflexivity|].
  exact (no_cross_key_without_org_id no_repr join engineering_api client anonymous
           (Exn KeyError "'id'") initial (fst anonymous_run) engineering_previews
           eq_refl eq_refl).
Defined.

Lemma credential_with_malformed_detail_witness :
  edge_api "https://aap.example.com/api/v2/credentials/41/" = Ok (JList []) /\
  credential_turn no_repr join edge_api client engineering (summary 41 "vault") initial
  = (State []
       [Request "https://aap.example.com/api/v2/credentials/41/";
        Stdout "  Error checking credential 41: 'list' object has no attribute 'get'"],
     Ret tt).
Proof.
  split; [reflexivity|].
  refine (credential_with_malformed_detail no_repr join edge_api client engineering
            (summary 41 "vault") (JInt 41)
            "https://aap.example.com/api/v2/credentials/41/" (JList []) initial
            eq_refl eq_refl eq_refl _).
  intros d. discriminate.
Defined.

Lemma credential_request_failure_is_fatal_witness :
  governance_api "https://aap.example.com/api/v2/credentials/45/" = not_found /\
  for_each [summary 45 "gone"; summary 43 "personal"]
    (credential_turn no_repr join governance_api client governance) initial
  = (State []
       [Request "https://aap.example.com/api/v2/credentials/45/";
        Stderr ("Error making request to "
                ++ "https://aap.example.com/api/v2/credentials/45/"
                ++ ": 404 Client Error: Not Found");
        Stderr "Response: {'detail': 'Not found.'}"],
     Exit 1).
Proof.
  split; [reflexivity|].
  exact (proj2 (credential_request_failure_is_fatal no_repr join governance_api
                  client governance (summary 45 "gone") (JInt 45)
                  "https://aap.example.com/api/v2/credentials/45/"
                  "404 Client Error: Not Found" (Some "{'detail': 'Not found.'}")
                  initial eq_refl eq_refl eq_refl)
           [summary 43 "personal"]).
Defined.

Lemma credential_with_mismatched_owner_witness :
  engineering_api "https://aap.example.com/api/v2/credentials/42/"
  = Ok (JObj [("id", JInt 42); ("organization", JInt 9)]) /\
  Py.eq (JInt 9) (JInt 5) = false /\
  credential_turn no_repr join engineering_api client engineering
    (summary 42 "galaxy") initial
  = (State [("cross_org_credentials",
              JList [cross_entry (summary 42 "galaxy") (JInt 9)])]
       [Request "https://aap.example.com/api/v2/credentials/42/";
        Stdout "  ⚠️  Credential 'galaxy' belongs to different organization (ID: 9)"],
     Ret tt).
Proof.
  split; [reflexivity|]. split; [reflexivity|].
  exact (credential_with_mismatched_owner no_repr join engineering_api client
           engineering (summary 42 "galaxy") (JInt 42) (JStr "galaxy")
           "https://aap.example.com/api/v2/credentials/42/"
           [("id", JInt 42); ("organization", JInt 9)] (JInt 9) (JInt 5) [] []
           initial eq_refl eq_refl eq_refl eq_refl eq_refl eq_refl eq_refl
           eq_refl eq_refl eq_refl).
Defined.

Lemma traversal_never_raises_witness :
  Py.get engineering "related" (JObj []) = Val engineering_related /\
  is_container engineering_related = true /\
  ((exists deps, snd engineering_run = Ret deps
                 /\ deps = dependencies (fst engineering_run))
   \/ snd engineering_run = Exit 1).
Proof.
  split; [reflexivity|]. split; [reflexivity|].
  exact (traversal_never_raises no_repr join engineering_api client engineering
           engineering_related initial (fst engineering_run) (snd engineering_run)
           eq_refl eq_refl eq_refl).
Defined.

Lemma report_holds_the_record_witness :
  engineering_inspection
  = (fst engineering_inspection, Ret engineering_report_value) /\
  exists o deps st1 st2,
    resolve_organization decimal no_repr join engineering_api client "Engineering"
      initial
    = (st1, Ret (JObj o)) /\
    dict_mem "name" o = true /\
    _find_dependencies no_repr join engineering_api client (JObj o) st2
    = (fst engineering_inspection, Ret deps) /\
    engineering_report_value
    = JObj [("organization", JObj o); ("dependencies", JObj deps)].
Proof.
  split; [reflexivity|].
  exact (report_holds_the_record decimal no_repr join engineering_api client
           "Engineering" initial (fst engineering_inspection)
           engineering_report_value eq_refl).
Defined.

Lemma lookup_by_id_with_falsy_body_witness :
  decimal "9" = Some 9%Z /\
  edge_api "https://aap.example.com/api/v2/organizations/9/" = Ok (JObj []) /\
  Py.truthy (JObj []) = false /\
  inspect_organization decimal no_repr join edge_api client "9" initial
  = (State []
       [Request "https://aap.example.com/api/v2/organizations/9/";
        Stderr "Organization '9' not found."],
     Exit 1).
Proof.
  split; [reflexivity|]. split; [reflexivity|]. split; [reflexivity|].
  exact (lookup_by_id_with_falsy_body decimal no_repr join edge_api client "9" 9
           "https://aap.example.com/api/v2/organizations/9/"
           (JObj []) initial eq_refl eq_refl eq_refl eq_refl).
Defined.

Lemma record_without_name_witness :
  resolve_organization decimal no_repr join edge_api client "8" initial
  = (State [] [Request "https://aap.example.com/api/v2/organizations/8/"],
     Ret (JObj nameless)) /\
  nameless <> [] /\
  dict_get "name" nameless = None /\
  inspect_organization decimal no_repr join edge_api client "8" initial
  = (State []
       [Request "https://aap.example.com/api/v2/organizations/8/";
        Stdout (nl ++ repeat_str "=" 80)],
     Raise (Exn KeyError "'name'")).
Proof.
  assert (Hne : nameless <> []) by discriminate.
  split; [reflexivity|]. split; [exact Hne|]. split; [reflexivity|].
  exact (proj1 (record_without_name decimal no_repr join edge_api client "8"
                  nameless initial
                  (State [] [Request "https://aap.example.com/api/v2/organizations/8/"])
                  eq_refl Hne eq_refl)).
Defined.

Lemma failed_lookup_is_fatal_witness :
  decimal "77" = Some 77%Z /\
  decimal "Ghost" = None /\
  engineering_api "https://aap.example.com/api/v2/organizations/77/" = not_found /\
  engineering_api "https://aap.example.com/api/v2/organizations/?name=Ghost"
  = not_found /\
  snd (inspect_organization decimal no_repr join engineering_api client "77" initial)
  = Exit 1 /\
  requests (trace (fst (inspect_organization decimal no_repr join engineering_api
                          client "77" initial)))
  = ["https://aap.example.com/api/v2/organizations/77/"] /\
  snd (inspect_organization decimal no_repr join engineering_api client "Ghost"
         initial)
  = Exit 1.
Proof.
  pose proof (failed_lookup_is_fatal decimal no_repr join engineering_api client
                "77" "https://aap.example.com/api/v2/organizations/77/"
                "404 Client Error: Not Found" (Some "{'detail': 'Not found.'}")
                initial) as [Hid _].
  pose proof (failed_lookup_is_fatal decimal no_repr join engineering_api client
                "Ghost" "https://aap.example.com/api/v2/organizations/?name=Ghost"
                "404 Client Error: Not Found"
                (Some "{'detail': 'Not found.'}") initial) as [_ Hname].
  specialize (Hid 77%Z eq_refl eq_refl eq_refl).
  specialize (Hname eq_refl eq_refl eq_refl).
  split; [reflexivity|]. split; [reflexivity|]. split; [reflexivity|].
  split; [reflexivity|].
  split; [now rewrite Hid|]. split; [now rewrite Hid | now rewrite Hname].
Defined.


Lemma list_all_organizations_run_witness :
  edge_api "https://aap.example.com/api/v2/organizations/"
  = Ok (JObj [("count", JInt 2); ("results", JList (map JObj all_organizations))]) /\
  example_list_all_organizations no_repr join edge_api initial
  = (State []
       [Request "https://aap.example.com/api/v2/organizations/";
        Stdout (nl ++ "Total organizations: 2");
        Stdout (nl ++ "Organizations:");
        Stdout "  [3] My Organization";
        Stdout "  [5] Engineering"],
     Ret tt).
Proof.
  split; [reflexivity|].
  refine (proj2 (list_all_organizations_run no_repr join edge_api
                   "https://aap.example.com/api/v2/organizations/"
                   [("count", JInt 2); ("results", JList (map JObj all_organizations))]
                   initial eq_refl eq_refl)
            (JInt 2) all_organizations eq_refl eq_refl _).
  repeat constructor.
Defined.

Lemma programmatic_usage_run_witness :
  my_organization_inspection
  = (fst my_organization_inspection, Ret my_organization_report) /\
  exists o deps,
    my_organization_report
    = JObj [("organization", JObj o); ("dependencies", JObj deps)] /\
    example_programmatic_usage decimal no_repr join edge_api open_file initial
    = (log (fst my_organization_inspection)
         [Stdout (nl ++ "Organization '"
                  ++ py_str no_repr (default JNull (dict_get "name" o))
                  ++ "' has " ++ str_of_Z (Z.of_nat (List.length deps))
                  ++ " dependency types");
          Stdout ("Total resources: " ++ str_of_Z (count_resources deps));
          WriteFile "org_report.json" (dumps my_organization_report);
          Stdout (nl ++ "Data exported to: org_report.json")],
       Ret tt) /\
    (List.length deps <= 13)%nat /\
    (0 <= count_resources deps <= 5 * Z.of_nat (List.length deps))%Z.
Proof.
  split; [reflexivity|].
  exact (programmatic_usage_run decimal no_repr join edge_api open_file initial
           (fst my_organization_inspection) my_organization_report eq_refl).
Defined.

(** The example on its scenario, line by line. *)
Example programmatic_usage_on_my_organization :
  example_programmatic_usage decimal no_repr join edge_api open_file initial
  = (State []
       (trace (fst my_organization_inspection)
        ++ [Stdout (nl ++ "Organization 'My Organization' has 0 dependency types");
            Stdout "Total resources: 0";
            WriteFile "org_report.json" (dumps my_organization_report);
            Stdout (nl ++ "Data exported to: org_report.json")]),
     Ret tt).
Proof. reflexivity. Qed.

Lemma serve_decoded pages : pages_ok pages = true -> decoded (serve pages).
Proof.
  intros H url body. induction pages as [|[u r] pages IH]; cbn [serve];
    [discriminate|].
  cbn [pages_ok forallb snd] in H. apply andb_true_iff in H as [Hr Hp].
  destruct (String.eqb url u); [|exact (IH Hp)].
  intros ->. exact Hr.
Qed.

Lemma engineering_api_decoded : decoded engineering_api.
Proof. apply serve_decoded. reflexivity. Qed.

Lemma returned_report_reads_back_witness :
  decoded engineering_api /\
  engineering_inspection
  = (fst engineering_inspection, Ret engineering_report_value) /\
  well_formed engineering_report_value = true /\
  loads (dumps engineering_report_value) = Some engineering_report_value.
Proof.
  split; [exact engineering_api_decoded|]. split; [reflexivity|].
  exact (returned_report_reads_back decimal no_repr join engineering_api client
           "Engineering" initial (fst engineering_inspection)
           engineering_report_value engineering_api_decoded eq_refl).
Defined.
